(** * Push-to-talk front end: settings store, capture controller, key vault
      and service worker

    Shallow embedding of the TypeScript sources

    - [src/app/src/App.tsx]        (revision [AppTsx] below),
    - [src/unnamed/part_002]       (revision [Part002] below, a second
                                    revision of the same component),
    - [src/app/src/lib/invoke.ts]  ([safeInvoke] and its browser preview),
    - [src/unnamed/part_001]       (the service worker),

    followed by the properties of the specification that are checked
    against them.  JavaScript objects are finite maps from property names
    to dynamically typed values; asynchronous functions are computations
    in a small state-and-rejection monad that records every call crossing
    the platform boundary together with the reply it got. *)

From Stdlib Require Import Strings.Ascii.
From stdpp Require Import gmap strings list fin_maps pretty.

Set Default Proof Using "Type".
Local Open Scope string_scope.
Local Open Scope list_scope.

(* ================================================================== *)
(** * JavaScript values *)
(* ================================================================== *)

#[warnings="-register-all"]
Inductive JsVal : Type :=
| VUndefined
| VNull
| VBool (b : bool)
| VNum (z : Z)
| VStr (s : string)
| VArr (l : list JsVal)
| VObj (o : gmap string JsVal).

(** ToBoolean.  [undefined], [null], [false], [0] and the empty string are
    falsy, every object and array is truthy. *)
Definition truthy (v : JsVal) : bool :=
  match v with
  | VUndefined | VNull => false
  | VBool b => b
  | VNum z => negb (Z.eqb z 0)
  | VStr s => negb (String.eqb s "")
  | VArr _ | VObj _ => true
  end.

(** [a || b] *)
Definition js_or (a b : JsVal) : JsVal := if truthy a then a else b.

(** [a ?? b] *)
Definition js_nullish (a b : JsVal) : JsVal :=
  match a with
  | VUndefined | VNull => b
  | _ => a
  end.

(** [o.k] on an object that is known to be one: a missing property reads
    as [undefined]. *)
Definition get (o : gmap string JsVal) (k : string) : JsVal :=
  default VUndefined (o !! k).

(** [v.k] on an arbitrary value: [None] is the TypeError thrown on
    [undefined] and [null]; primitives and arrays have none of the
    property names used in this program. *)
Definition prop (v : JsVal) (k : string) : option JsVal :=
  match v with
  | VUndefined | VNull => None
  | VObj o => Some (get o k)
  | _ => Some VUndefined
  end.

(** [v?.k] *)
Definition opt_prop (v : JsVal) (k : string) : JsVal :=
  default VUndefined (prop v k).

Fixpoint chars (s : string) : list JsVal :=
  match s with
  | EmptyString => []
  | String c s' => VStr (String c EmptyString) :: chars s'
  end.

Definition indexed (l : list JsVal) : gmap string JsVal :=
  list_to_map (imap (fun i v => (pretty i, v)) l).

(** The own enumerable properties copied by [{...v}]. *)
Definition spread (v : JsVal) : gmap string JsVal :=
  match v with
  | VObj o => o
  | VArr l => indexed l
  | VStr s => indexed (chars s)
  | _ => ∅
  end.

(** Object literal [{ k1: v1, ..., kn: vn }]; a later duplicate key would
    win, the literals of this program have none. *)
Definition obj (kvs : list (string * JsVal)) : JsVal :=
  VObj (list_to_map (reverse kvs)).

(* ================================================================== *)
(** * The platform boundary *)
(* ================================================================== *)

Inductive Reply : Type :=
| Resolved (v : JsVal)
| Rejected.

Abbreviation Blob := string (only parsing).

(** Everything the front end asks of its host, in the order it asked, with
    the answer it received. *)
Inductive Effect : Type :=
| Invoked (cmd : string) (payload : JsVal) (reply : Reply)
| GetUserMedia (stream : option nat)
| NewMediaRecorder (stream : nat)
| RecorderStart (stream : nat)
| RecorderStop (stream : nat)
| TrackStop (stream : nat)
| SetInterval (id : nat)
| ClearInterval (id : nat)
| ReadAsDataURL (blob : Blob) (result : option string)
| Alert (msg : string).

Abbreviation Log := (list Effect) (only parsing).

(** The host.  A reply may depend on everything that happened before the
    call.  [core_invoke] is [window.__TAURI__?.core?.invoke], absent in a
    plain browser; [event_listen] tells whether
    [window.__TAURI__?.event?.listen] exists. *)
Record Platform : Type := {
  core_invoke : option (list Effect -> string -> JsVal -> Reply);
  event_listen : bool;
  getUserMedia : list Effect -> option nat;
  readAsDataURL : Blob -> option string;
}.

(** ** [lib/invoke.ts] *)

Definition PREVIEW_SETTINGS : gmap string JsVal :=
  list_to_map [
    ("settingsVersion", VNum 1);
    ("securityMasterMode", VStr "standard");
    ("enableGemini", VBool true);
    ("noSave", VBool true);
    ("encryptTempFiles", VBool true);
    ("autoClearClipboard", VBool true);
    ("clearAllOnExit", VBool true);
    ("maskStrength", VStr "standard");
    ("maskPhone", VBool true);
    ("maskEmail", VBool true);
    ("maskAddress", VBool true);
    ("maskNumbers", VBool true);
    ("maskNames", VBool false);
    ("whitelistWords", VArr []);
    ("sendTextOnlyToGemini", VBool true);
    ("disableDataTraining", VBool true);
    ("regionPreference", VStr "nearest");
    ("useBYOKey", VBool true);
    ("saveEmailDisplayName", VBool false);
    ("shortLivedSession", VBool true);
    ("clearTokensOnLogout", VBool true);
    ("enableErrorLogs", VBool false);
    ("enableUsageStats", VBool false);
    ("autoDeleteLogsAfterDays", VNum 90);
    ("enableDLPScan", VBool true);
    ("dlpAction", VStr "mask");
    ("offlineMode", VBool false);
    ("naturalizeExpressions", VBool true);
    ("autoPunctuation", VBool true);
    ("unifyForeignWords", VBool true);
    ("preserveOriginalProperNouns", VBool true);
    ("noSummaryOrEmbellishment", VBool true);
    ("customReplaceRules", VArr [])
  ].

(** The [switch (cmd)] of the browser preview fallback. *)
Definition preview (cmd : string) (payload : JsVal) : Reply :=
  if String.eqb cmd "settings_get" then Resolved (VObj PREVIEW_SETTINGS)
  else if String.eqb cmd "settings_update" then
    Resolved (js_nullish (opt_prop payload "partial") (VObj ∅))
  else if String.eqb cmd "stt_transcribe_once" then
    Resolved (VStr "(preview) こちらはデモの文字起こしです")
  else if String.eqb cmd "nlp_gemini_format" then
    Resolved (js_nullish (opt_prop payload "text") (VStr ""))
  else if String.eqb cmd "clipboard_set" then Resolved VUndefined
  else if String.eqb cmd "clipboard_clear" then Resolved VUndefined
  else if String.eqb cmd "input_paste" then Resolved VUndefined
  else if String.eqb cmd "keys_get" then Resolved (VObj ∅)
  else if String.eqb cmd "keys_set" then Resolved VUndefined
  else Rejected.

Definition safeInvoke (plat : Platform) (history : list Effect)
    (cmd : string) (payload : JsVal) : Reply :=
  match core_invoke plat with
  | Some tauri_invoke => tauri_invoke history cmd payload
  | None => preview cmd payload
  end.


(* ================================================================== *)
(** * Asynchronous functions *)
(* ================================================================== *)

(** How an [async] function ends: its promise is fulfilled, or rejected
    (an uncaught throw or a rejected [await]). *)
Inductive Outcome (A : Type) : Type :=
| Fulfilled (a : A)
| Threw.
Arguments Fulfilled {A} a.
Arguments Threw {A}.

(** A computation over component state [S] and the log of effects. *)
Definition Async (S A : Type) : Type :=
  S * list Effect -> Outcome A * (S * list Effect).

Module AsyncOps.

Definition ret {S A} (a : A) : Async S A := fun c => (Fulfilled a, c).

Definition bind {S A B} (m : Async S A) (k : A -> Async S B) : Async S B :=
  fun c =>
    match m c with
    | (Fulfilled a, c') => k a c'
    | (Threw, c') => (Threw, c')
    end.

Definition throw {S A} : Async S A := fun c => (Threw, c).

(** [m.catch(() => {})] *)
Definition swallow {S A} (m : Async S A) : Async S unit :=
  fun c =>
    match m c with
    | (_, c') => (Fulfilled tt, c')
    end.

(** [p.then(ok).catch(ko)]: [ko] also runs when [ok] throws. *)
Definition then_catch {S A} (p : Async S A) (ok : A -> Async S unit)
    (ko : Async S unit) : Async S unit :=
  fun c =>
    match bind p ok c with
    | (Fulfilled _, c') => (Fulfilled tt, c')
    | (Threw, c') => ko c'
    end.

Definition gets {S A} (f : S -> A) : Async S A :=
  fun c => (Fulfilled (f (fst c)), c).

Definition modify {S} (f : S -> S) : Async S unit :=
  fun c => (Fulfilled tt, (f (fst c), snd c)).

Definition emit {S} (e : Effect) : Async S unit :=
  fun c => (Fulfilled tt, (fst c, snd c ++ [e])).

Definition when {S} (b : bool) (m : Async S unit) : Async S unit :=
  if b then m else ret tt.

(** Run a handler whose promise nobody awaits. *)
Definition exec {S A} (m : Async S A) (c : S * list Effect)
    : S * list Effect := snd (m c).

End AsyncOps.
Import AsyncOps.

(** [x ← m; k] reads [const x = await m; k], and [m;; k] reads
    [await m; k]. *)
Declare Scope async_scope.
Delimit Scope async_scope with async.
Notation "x ← y ; z" := (bind y (fun x => z))
  (at level 20, y at level 100, z at level 200, only parsing) : async_scope.
Notation "x ;; z" := (bind x (fun _ => z))
  (at level 100, z at level 200, only parsing, right associativity)
  : async_scope.
Local Open Scope async_scope.

Section Invoke.
Context {S : Type} (plat : Platform).

(** [await invoke(cmd, payload)] *)
Definition invoke (cmd : string) (payload : JsVal) : Async S JsVal :=
  fun c =>
    let r := safeInvoke plat (snd c) cmd payload in
    let c' := (fst c, snd c ++ [Invoked cmd payload r]) in
    match r with
    | Resolved v => (Fulfilled v, c')
    | Rejected => (Threw, c')
    end.

End Invoke.

(* ================================================================== *)
(** * The [App] component *)
(* ================================================================== *)

(** The two revisions of [App] in the repository.  They share the settings
    store and the capture controller; [Part002] adds the interim and final
    transcript (and the interval timer that animates the interim text), and
    replaces the key panel. *)
Inductive Revision : Type :=
| AppTsx    (* src/app/src/App.tsx *)
| Part002.  (* src/unnamed/part_002 *)

Definition has_transcript (rev : Revision) : bool :=
  match rev with
  | AppTsx => false
  | Part002 => true
  end.

Inductive PttState : Type := idle | recording | processing | error.

(** [a === b] on the four state literals. *)
Definition ptt_eqb (a b : PttState) : bool :=
  match a, b with
  | idle, idle | recording, recording
  | processing, processing | error, error => true
  | _, _ => false
  end.

Definition DEFAULTS : gmap string JsVal :=
  list_to_map [
    ("settingsVersion", VNum 1);
    ("securityMasterMode", VStr "standard");
    ("enableGemini", VBool true);
    ("noSave", VBool true);
    ("encryptTempFiles", VBool true);
    ("autoClearClipboard", VBool true);
    ("clearAllOnExit", VBool true);
    ("maskStrength", VStr "standard");
    ("maskPhone", VBool true);
    ("maskEmail", VBool true);
    ("maskAddress", VBool true);
    ("maskNumbers", VBool true);
    ("maskNames", VBool false);
    ("whitelistWords", VArr []);
    ("sendTextOnlyToGemini", VBool true);
    ("disableDataTraining", VBool true);
    ("regionPreference", VStr "nearest");
    ("useBYOKey", VBool true);
    ("saveEmailDisplayName", VBool false);
    ("shortLivedSession", VBool true);
    ("clearTokensOnLogout", VBool true);
    ("enableErrorLogs", VBool false);
    ("enableUsageStats", VBool false);
    ("autoDeleteLogsAfterDays", VNum 90);
    ("enableDLPScan", VBool true);
    ("dlpAction", VStr "mask");
    ("offlineMode", VBool false);
    ("naturalizeExpressions", VBool true);
    ("autoPunctuation", VBool true);
    ("unifyForeignWords", VBool true);
    ("preserveOriginalProperNouns", VBool true);
    ("noSummaryOrEmbellishment", VBool true);
    ("customReplaceRules", VArr [])
  ].

(** What a closure created during one render sees of the component state:
    [settings] and [pttState] are [const] bindings of that render. *)
Record Render : Type := {
  r_settings : gmap string JsVal;
  r_pttState : PttState;
}.

(** A [MediaRecorder] together with what its [onstop] closure captured:
    the [settings] of the render that called [startRecording] and, in
    [Part002], the interval timer. *)
Record Recorder : Type := {
  rec_stream : nat;
  rec_settings : gmap string JsVal;
  rec_timer : option nat;
  rec_active : bool;
}.

Definition deactivate (mr : Recorder) : Recorder :=
  {| rec_stream := rec_stream mr; rec_settings := rec_settings mr;
     rec_timer := rec_timer mr; rec_active := false |}.

(** The [useState] cells, the [useRef] cells and what the host keeps for
    the component: the closure registered on the [ptt:stateChanged]
    channel, whether [settings] got a new identity since the last render,
    the recorders whose [stop] event is still to be delivered, and the
    running interval timers. *)
Record World : Type := mkWorld {
  settings : gmap string JsVal;
  loading : bool;
  pttState : PttState;
  interimText : string;
  finalText : JsVal;
  mediaStreamRef : option nat;
  mediaRecorderRef : option Recorder;
  audioChunksRef : list Blob;
  listener : option Render;
  settingsDirty : bool;
  stopQueue : list Recorder;
  intervals : list nat;
}.

(** A new [settings] object: the record changes identity. *)
Definition set_settings v w :=
  mkWorld v (loading w) (pttState w) (interimText w)
    (finalText w) (mediaStreamRef w) (mediaRecorderRef w) (audioChunksRef w)
    (listener w) true (stopQueue w) (intervals w).
Definition set_loading v w :=
  mkWorld (settings w) v (pttState w) (interimText w)
    (finalText w) (mediaStreamRef w) (mediaRecorderRef w) (audioChunksRef w)
    (listener w) (settingsDirty w) (stopQueue w) (intervals w).
Definition set_pttState v w :=
  mkWorld (settings w) (loading w) v (interimText w)
    (finalText w) (mediaStreamRef w) (mediaRecorderRef w) (audioChunksRef w)
    (listener w) (settingsDirty w) (stopQueue w) (intervals w).
Definition set_interimText v w :=
  mkWorld (settings w) (loading w) (pttState w) v
    (finalText w) (mediaStreamRef w) (mediaRecorderRef w) (audioChunksRef w)
    (listener w) (settingsDirty w) (stopQueue w) (intervals w).
Definition set_finalText v w :=
  mkWorld (settings w) (loading w) (pttState w) (interimText w)
    v (mediaStreamRef w) (mediaRecorderRef w) (audioChunksRef w)
    (listener w) (settingsDirty w) (stopQueue w) (intervals w).
Definition set_mediaStreamRef v w :=
  mkWorld (settings w) (loading w) (pttState w) (interimText w)
    (finalText w) v (mediaRecorderRef w) (audioChunksRef w)
    (listener w) (settingsDirty w) (stopQueue w) (intervals w).
Definition set_mediaRecorderRef v w :=
  mkWorld (settings w) (loading w) (pttState w) (interimText w)
    (finalText w) (mediaStreamRef w) v (audioChunksRef w)
    (listener w) (settingsDirty w) (stopQueue w) (intervals w).
Definition set_audioChunksRef v w :=
  mkWorld (settings w) (loading w) (pttState w) (interimText w)
    (finalText w) (mediaStreamRef w) (mediaRecorderRef w) v
    (listener w) (settingsDirty w) (stopQueue w) (intervals w).
(** The effect has run for the current [settings]. *)
Definition set_listener v w :=
  mkWorld (settings w) (loading w) (pttState w) (interimText w)
    (finalText w) (mediaStreamRef w) (mediaRecorderRef w) (audioChunksRef w)
    v false (stopQueue w) (intervals w).
Definition set_stopQueue v w :=
  mkWorld (settings w) (loading w) (pttState w) (interimText w)
    (finalText w) (mediaStreamRef w) (mediaRecorderRef w) (audioChunksRef w)
    (listener w) (settingsDirty w) v (intervals w).
Definition set_intervals v w :=
  mkWorld (settings w) (loading w) (pttState w) (interimText w)
    (finalText w) (mediaStreamRef w) (mediaRecorderRef w) (audioChunksRef w)
    (listener w) (settingsDirty w) (stopQueue w) v.

(** [useState(DEFAULTS)], [useState(true)], [useState('idle')],
    [useRef(null)], [useRef([])], [useState('')]; no effect has run. *)
Definition init : World := {|
  settings := DEFAULTS;
  loading := true;
  pttState := idle;
  interimText := "";
  finalText := VStr "";
  mediaStreamRef := None;
  mediaRecorderRef := None;
  audioChunksRef := [];
  listener := None;
  settingsDirty := true;
  stopQueue := [];
  intervals := [];
|}.

Definition render_of (w : World) : Render :=
  {| r_settings := settings w; r_pttState := pttState w |}.

(** [s.split(',')], with [cur] the piece being read. *)
Fixpoint split_commas (cur : string) (s : string) : list string :=
  match s with
  | EmptyString => [cur]
  | String c s' =>
      if Ascii.eqb c ","%char then cur :: split_commas "" s'
      else split_commas (cur +:+ String c EmptyString) s'
  end.

(** [l[i]] on an array of strings. *)
Definition at_index (l : list string) (i : nat) : JsVal :=
  match l !! i with
  | Some s => VStr s
  | None => VUndefined
  end.

(** [new Blob(parts, { type: 'audio/webm' })]: the parts, concatenated. *)
Definition new_Blob (parts : list Blob) : Blob :=
  foldr String.append "" parts.

Definition is_str (v : JsVal) (s : string) : bool :=
  match v with
  | VStr s' => String.eqb s' s
  | _ => false
  end.

Section App.
Variable rev : Revision.
Variable plat : Platform.

(** ** State setters *)

Definition setSettings (v : gmap string JsVal) : Async World unit :=
  modify (set_settings v).
Definition setLoading (v : bool) : Async World unit :=
  modify (set_loading v).
Definition setPttState (v : PttState) : Async World unit :=
  modify (set_pttState v).
Definition setInterimText (v : string) : Async World unit :=
  modify (set_interimText v).
Definition setFinalText (v : JsVal) : Async World unit :=
  modify (set_finalText v).

(** ** Platform calls *)

(** [await navigator.mediaDevices.getUserMedia({ audio: true })] *)
Definition acquire : Async World nat :=
  fun c =>
    let r := getUserMedia plat (snd c) in
    let c' := (fst c, snd c ++ [GetUserMedia r]) in
    match r with
    | Some stream => (Fulfilled stream, c')
    | None => (Threw, c')
    end.

(** [setInterval(..., 500)]; the handle is fresh. *)
Definition setInterval : Async World nat :=
  fun c =>
    let id := length (snd c) in
    (Fulfilled id,
     (set_intervals (id :: intervals (fst c)) (fst c),
      snd c ++ [SetInterval id])).

Definition clearInterval (id : nat) : Async World unit :=
  modify (fun w => set_intervals (filter (fun i => i ≠ id) (intervals w)) w);;
  emit (ClearInterval id).

(** [blobToBase64]: [readAsDataURL], then [result.split(',')[1]];
    [reader.onerror = reject]. *)
Definition blobToBase64 (blob : Blob) : Async World JsVal :=
  fun c =>
    let r := readAsDataURL plat blob in
    let c' := (fst c, snd c ++ [ReadAsDataURL blob r]) in
    match r with
    | Some url => (Fulfilled (at_index (split_commas "" url) 1), c')
    | None => (Threw, c')
    end.

(** ** Settings store *)

(** The mount effect: [invoke('settings_get').then(...).catch(...)]. *)
Definition load : Async World unit :=
  then_catch (invoke plat "settings_get" VUndefined)
    (fun s => setSettings (spread s ∪ DEFAULTS);; setLoading false)
    (setLoading false).

(** [update(partial)], called from the closure of render [r]. *)
Definition update (r : Render) (partial : gmap string JsVal)
    : Async World unit :=
  let next := partial ∪ r_settings r in
  setSettings next;;
  swallow (invoke plat "settings_update" (obj [("partial", VObj partial)])).

(** ** Capture controller *)

(** [mr.onstop], a closure of the render that called [startRecording]. *)
Definition onstop (mr : Recorder) : Async World unit :=
  match rec_timer mr with
  | Some interimTimer => clearInterval interimTimer
  | None => ret tt
  end;;
  setPttState processing;;
  chunks ← gets audioChunksRef;
  let blob := new_Blob chunks in
  b64 ← blobToBase64 blob;
  let settings := rec_settings mr in
  stt ← invoke plat "stt_transcribe_once"
          (obj [("settings", VObj settings); ("audioB64", b64)]);
  when (has_transcript rev) (setInterimText "";; setFinalText stt);;
  formatted ← invoke plat "nlp_gemini_format"
                (obj [("settings", VObj settings); ("text", stt)]);
  invoke plat "clipboard_set" (obj [("text", formatted)]);;
  invoke plat "input_paste" VUndefined;;
  when (truthy (get settings "autoClearClipboard"))
    (swallow (invoke plat "clipboard_clear" VUndefined));;
  setPttState idle.

(** [startRecording], called from the closure of render [r].  The
    recorder is one object: the reference stored in [mediaRecorderRef]
    sees the handlers attached to it and the [start()] that follow. *)
Definition startRecording (r : Render) : Async World unit :=
  if negb (ptt_eqb (r_pttState r) idle) then ret tt
  else
    when (has_transcript rev) (setFinalText (VStr "");; setInterimText "");;
    setPttState recording;;
    stream ← acquire;
    modify (set_mediaStreamRef (Some stream));;
    emit (NewMediaRecorder stream);;
    modify (set_audioChunksRef []);;
    interimTimer ← (if has_transcript rev
                     then id ← setInterval; ret (Some id)
                     else ret None);
    modify (set_mediaRecorderRef (Some {|
      rec_stream := stream;
      rec_settings := r_settings r;
      rec_timer := interimTimer;
      rec_active := true |}));;
    emit (RecorderStart stream).

(** [mr.ondataavailable] *)
Definition ondataavailable (data : Blob) : Async World unit :=
  when (0 <? String.length data)%nat
    (modify (fun w => set_audioChunksRef (audioChunksRef w ++ [data]) w)).

(** [stopRecording].  [stop()] on a recorder that is not recording does
    nothing; on a recording one it queues the [stop] event. *)
Definition stopRecording : Async World unit :=
  current ← gets mediaRecorderRef;
  match current with
  | Some mr =>
      when (rec_active mr)
        (emit (RecorderStop (rec_stream mr));;
         modify (set_mediaRecorderRef (Some (deactivate mr)));;
         modify (fun w => set_stopQueue (stopQueue w ++ [mr]) w))
  | None => ret tt
  end;;
  stream ← gets mediaStreamRef;
  match stream with
  | Some s => emit (TrackStop s)
  | None => ret tt
  end.

(** The interval callback [setInterimText(t => t ? t + ' …' : '…')]. *)
Definition interimTick : Async World unit :=
  modify (fun w =>
    set_interimText
      (if String.eqb (interimText w) "" then "…"
       else interimText w +:+ " …") w).

(** ** The component as an event-driven machine *)

Inductive Event : Type :=
| EvPress                                   (* onMouseDown, onTouchStart *)
| EvRelease                                 (* onMouseUp, onTouchEnd, Stop *)
| EvRemote (payload : JsVal)                (* ptt:stateChanged *)
| EvData (data : Blob)                      (* recorder dataavailable *)
| EvRecorderStop                            (* recorder stop *)
| EvTick (id : nat)                         (* interval timer *)
| EvUpdate (partial : gmap string JsVal).   (* a settings control *)

(** [disabled={pttState !== 'idle' && pttState !== 'recording'}], and
    nothing but "Loading..." is rendered while [loading]. *)
Definition button_enabled (w : World) : bool :=
  negb (loading w) &&
  (ptt_eqb (pttState w) idle || ptt_eqb (pttState w) recording).

(** Which closure an event reaches.  The handlers on the rendered
    controls ([onMouseDown={startRecording}], [onChange] of a toggle) are
    those of the current render.  The [ptt:stateChanged] callback is
    registered inside [useEffect(..., [settings])] (App.tsx 120-126,
    part_002 130-136): it calls the [startRecording] and [stopRecording]
    of the render in which that effect last ran, and [startRecording]
    reads the [pttState] of that render. *)
Definition handle (e : Event) (w : World) : Async World unit :=
  match e with
  | EvPress =>
      when (button_enabled w) (startRecording (render_of w))
  | EvRelease =>
      when (button_enabled w) stopRecording
  | EvRemote payload =>
      match listener w with
      | Some r =>
          when (is_str payload "recording") (swallow (startRecording r));;
          when (is_str payload "processing") stopRecording
      | None => ret tt
      end
  | EvData data => ondataavailable data
  | EvRecorderStop =>
      match stopQueue w with
      | mr :: rest => modify (set_stopQueue rest);; onstop mr
      | [] => ret tt
      end
  | EvTick id =>
      when (existsb (Nat.eqb id) (intervals w)) interimTick
  | EvUpdate partial =>
      when (negb (loading w)) (update (render_of w) partial)
  end.

(** Re-render after a handler.  The effect with dependency list
    [[settings]] runs again exactly when [settings] received a new object
    ([load] and [update] each build one), and then replaces the closure on
    the channel, when the host has a channel, by the one of the new
    render.  A change of [pttState] alone re-renders the controls but does
    not run the effect.  The cleanup of the effect calls what [listen]
    returned when that is a function (App.tsx 125, part_002 135): the
    host with a channel is one whose [listen] returns the function that
    unregisters.  Where [listen] returns anything else the closures of
    earlier renders stay registered next to the new one; that host is not
    among the ones described by [Platform]. *)
Definition commit (w : World) : World :=
  if settingsDirty w
  then set_listener (if event_listen plat then Some (render_of w) else None) w
  else w.

(** One event: its handler runs to the end (every [await] in it is
    answered by the host before the next event is taken), then the
    component re-renders. *)
Definition step (c : World * list Effect) (e : Event)
    : World * list Effect :=
  let c' := exec (handle e (fst c)) c in
  (commit (fst c'), snd c').

Definition run (es : list Event) (c : World * list Effect)
    : World * list Effect :=
  fold_left step es c.

(** First render and its two effects, then the settled [settings_get]. *)
Definition mount : World * list Effect :=
  let c := exec load (commit init, []) in
  (commit (fst c), snd c).

(** One capture cycle driven from the button. *)
Definition cycle (chunks : list Blob) : list Event :=
  EvPress :: map EvData chunks ++ [EvRelease; EvRecorderStop].

End App.

(* ================================================================== *)
(** * The [KeysPanel] component *)
(* ================================================================== *)

(** [v.k] inside an asynchronous function: the TypeError on [undefined]
    and [null] rejects the promise. *)
Definition read {S} (v : JsVal) (k : string) : Async S JsVal :=
  match prop v k with
  | Some x => ret x
  | None => throw
  end.

(** ** [src/app/src/App.tsx], lines 279-307 *)
Module KeysPanelAppTsx.

(** [useState('')] twice.  The buffers are typed [string], but what
    [keys_get] returns is stored in them unchecked. *)
Record State : Type := mkState {
  groq : JsVal;
  gemini : JsVal;
}.

Definition init : State := {| groq := VStr ""; gemini := VStr "" |}.

Definition set_groq v st := mkState v (gemini st).
Definition set_gemini v st := mkState (groq st) v.

Section Panel.
Variable plat : Platform.

(** The mount effect. *)
Definition load : Async State unit :=
  then_catch (invoke plat "keys_get" VUndefined)
    (fun k =>
       groqApiKey ← read k "groqApiKey";
       modify (set_groq (js_or groqApiKey (VStr "")));;
       geminiApiKey ← read k "geminiApiKey";
       modify (set_gemini (js_or geminiApiKey (VStr ""))))
    (ret tt).

(** [save], a closure of the render that saw state [r]. *)
Definition save (r : State) : Async State unit :=
  invoke plat "keys_set"
    (obj [("keys", obj [("groqApiKey", js_or (groq r) VNull);
                        ("geminiApiKey", js_or (gemini r) VNull)])]);;
  emit (Alert "Saved keys locally").

Inductive Event : Type :=
| TypeGroq (text : string)      (* onChange of the first input *)
| TypeGemini (text : string)    (* onChange of the second input *)
| Save.                         (* the Save button *)

Definition handle (e : Event) (st : State) : Async State unit :=
  match e with
  | TypeGroq text => modify (set_groq (VStr text))
  | TypeGemini text => modify (set_gemini (VStr text))
  | Save => save st
  end.

Definition step (c : State * list Effect) (e : Event)
    : State * list Effect :=
  exec (handle e (fst c)) c.

Definition run (es : list Event) (c : State * list Effect)
    : State * list Effect :=
  fold_left step es c.

Definition mount : State * list Effect := exec load (init, []).

End Panel.
End KeysPanelAppTsx.

(** ** [src/unnamed/part_002], lines 316-350 *)
Module KeysPanelPart002.

(** [useState(false)] twice, [useState('')] twice. *)
Record State : Type := mkState {
  hasGroq : bool;
  hasGemini : bool;
  groq : string;
  gemini : string;
}.

Definition init : State :=
  {| hasGroq := false; hasGemini := false; groq := ""; gemini := "" |}.

Definition set_hasGroq v st := mkState v (hasGemini st) (groq st) (gemini st).
Definition set_hasGemini v st := mkState (hasGroq st) v (groq st) (gemini st).
Definition set_groq v st := mkState (hasGroq st) (hasGemini st) v (gemini st).
Definition set_gemini v st := mkState (hasGroq st) (hasGemini st) (groq st) v.

Section Panel.
Variable plat : Platform.

(** The mount effect. *)
Definition load : Async State unit :=
  then_catch (invoke plat "keys_get" VUndefined)
    (fun k =>
       g ← read k "hasGroq";
       modify (set_hasGroq (truthy g));;
       m ← read k "hasGemini";
       modify (set_hasGemini (truthy m)))
    (ret tt).

(** [save], a closure of the render that saw state [r]. *)
Definition save (r : State) : Async State unit :=
  invoke plat "keys_set"
    (obj [("keys", obj [("groqApiKey", js_or (VStr (groq r)) VUndefined);
                        ("geminiApiKey", js_or (VStr (gemini r)) VUndefined)])]);;
  modify (set_hasGroq (truthy (VStr (groq r)) || hasGroq r));;
  modify (set_hasGemini (truthy (VStr (gemini r)) || hasGemini r));;
  modify (set_groq "");;
  modify (set_gemini "");;
  emit (Alert "Saved (stored values are hidden for security)").

Inductive Event : Type :=
| TypeGroq (text : string)      (* onChange of the first input *)
| TypeGemini (text : string)    (* onChange of the second input *)
| Save.                         (* the Save button *)

Definition handle (e : Event) (st : State) : Async State unit :=
  match e with
  | TypeGroq text => modify (set_groq text)
  | TypeGemini text => modify (set_gemini text)
  | Save => save st
  end.

(** One event with its handler run to the end: for [Save], the promise of
    [keys_set] settles before anything else happens to the panel.
    [advance] below does without that. *)
Definition step (c : State * list Effect) (e : Event)
    : State * list Effect :=
  exec (handle e (fst c)) c.

Definition run (es : list Event) (c : State * list Effect)
    : State * list Effect :=
  fold_left step es c.

(** The mount effect with its [keys_get] settled at once. *)
Definition mount : State * list Effect := exec load (init, []).

(** ** Calls that have not settled yet

    [save] and the mount effect each suspend at their call of the host.
    What follows the call runs when its promise settles, possibly after
    other handlers; it is still the code of the render that made the
    call, so in [save] it reads the [groq], [gemini], [hasGroq] and
    [hasGemini] of the render in which Save was clicked. *)

(** A promise settling. *)
Definition settle (reply : Reply) : Async State JsVal :=
  match reply with
  | Resolved v => ret v
  | Rejected => throw
  end.

(** The argument of [keys_set] in [save]. *)
Definition save_payload (r : State) : JsVal :=
  obj [("keys", obj [("groqApiKey", js_or (VStr (groq r)) VUndefined);
                      ("geminiApiKey", js_or (VStr (gemini r)) VUndefined)])].

(** [save] after its [await]. *)
Definition save_then (r : State) (reply : Reply) : Async State unit :=
  settle reply;;
  modify (set_hasGroq (truthy (VStr (groq r)) || hasGroq r));;
  modify (set_hasGemini (truthy (VStr (gemini r)) || hasGemini r));;
  modify (set_groq "");;
  modify (set_gemini "");;
  emit (Alert "Saved (stored values are hidden for security)").

(** The [then] and [catch] of the mount effect. *)
Definition load_then (reply : Reply) : Async State unit :=
  then_catch (settle reply)
    (fun k =>
       g ← read k "hasGroq";
       modify (set_hasGroq (truthy g));;
       m ← read k "hasGemini";
       modify (set_hasGemini (truthy m)))
    (ret tt).

(** A call whose promise is still pending, with the reply the host will
    give and the code that waits for it. *)
Inductive Pending : Type :=
| KeysGet (reply : Reply)                 (* the mount effect *)
| KeysSet (r : State) (reply : Reply).    (* [save] of the render [r] *)

Definition continuation (p : Pending) : Async State unit :=
  match p with
  | KeysGet reply => load_then reply
  | KeysSet r reply => save_then r reply
  end.

(** The panel, the pending calls in the order they were made, and what
    was asked of the host. *)
Record Config : Type := mkConfig {
  panel : State;
  pending : list Pending;
  asked : list Effect;
}.

(** What can happen next: an event of the rendered controls, or the
    [i]-th pending promise settles. *)
Inductive Move : Type :=
| Handle (e : Event)
| Settle (i : nat).

(** A call of the host is made and left pending. *)
Definition call (cmd : string) (payload : JsVal) (k : Reply -> Pending)
    (c : Config) : Config :=
  let reply := safeInvoke plat (asked c) cmd payload in
  mkConfig (panel c) (pending c ++ [k reply])
           (asked c ++ [Invoked cmd payload reply]).

(** Code that runs without suspending. *)
Definition resume (m : Async State unit) (c : Config) : Config :=
  let c' := exec m (panel c, asked c) in
  mkConfig (fst c') (pending c) (snd c').

Definition advance (c : Config) (m : Move) : Config :=
  match m with
  | Handle (TypeGroq text) => resume (modify (set_groq text)) c
  | Handle (TypeGemini text) => resume (modify (set_gemini text)) c
  | Handle Save => call "keys_set" (save_payload (panel c)) (KeysSet (panel c)) c
  | Settle i =>
      match pending c !! i with
      | Some p =>
          resume (continuation p)
                 (mkConfig (panel c) (delete i (pending c)) (asked c))
      | None => c
      end
  end.

Definition play (ms : list Move) (c : Config) : Config :=
  fold_left advance ms c.

(** The first render: the mount effect has made its call. *)
Definition mounting : Config :=
  call "keys_get" VUndefined KeysGet (mkConfig init [] []).

End Panel.
End KeysPanelPart002.

(* ================================================================== *)
(** * The service worker, [src/unnamed/part_001] *)
(* ================================================================== *)

Module ServiceWorker.

Record Request : Type := {
  method : string;
  url : string;
}.

Record Response : Type := {
  status : nat;
  body : string;
}.

(** What the worker asks of its scope while answering one [fetch] event. *)
Inductive Step : Type :=
| NetworkFetch (req : Request) (res : option Response)
| CachesOpen (name : string)
| CacheMatch (req : Request) (res : option Response).

(** The worker's scope: [fetch] resolves with a response or throws
    ([None]); [caches] maps cache names to caches, a cache maps request
    URLs to stored responses.  [caches.open] creates a missing cache, and
    [cache.match] resolves with [undefined] on a miss. *)
Record Scope : Type := {
  network : Request -> option Response;
  caches : gmap string (gmap string Response);
}.

(** What becomes of the event: [respondWith] is not called, or it is
    called with a promise that is fulfilled with a response or rejected
    with [new Error(msg)]. *)
Inductive Verdict : Type :=
| NotIntercepted
| Responds (res : Response)
| Fails (msg : string).

Definition on_fetch (scope : Scope) (req : Request) : Verdict * list Step :=
  if negb (String.eqb (method req) "GET") then (NotIntercepted, [])
  else
    match network scope req with
    | Some res => (Responds res, [NetworkFetch req (Some res)])
    | None =>
        let cache := default ∅ (caches scope !! "ptt-cache-v1") in
        let res := cache !! url req in
        let trace := [NetworkFetch req None; CachesOpen "ptt-cache-v1";
                      CacheMatch req res] in
        match res with
        | Some res => (Responds res, trace)
        | None => (Fails "offline", trace)
        end
    end.

(** Whether the worker looked into a cache. *)
Definition consulted_cache (trace : list Step) : bool :=
  existsb (fun s => match s with
                    | CacheMatch _ _ => true
                    | _ => false
                    end) trace.

(** An offline scope holding one cached page. *)
Definition offline_scope : Scope := {|
  network := fun _ => None;
  caches := {[ "ptt-cache-v1" :=
                 {[ "/index.html" := {| status := 200; body := "<html>" |} ]} ]};
|}.

End ServiceWorker.
(* ================================================================== *)
(** * Test doubles for the host *)
(* ================================================================== *)

Definition count_streams (h : list Effect) : nat :=
  length (omap (fun e => match e with
                         | GetUserMedia (Some s) => Some s
                         | _ => None
                         end) h).

(** A desktop host: the bridge answers [settings_get] with [stored], the
    transcription with one text and the formatter with another, fails to
    clear the clipboard, and accepts everything else; the event channel
    exists; every microphone request yields a fresh stream. *)
Definition desktop (stored : JsVal) : Platform := {|
  core_invoke := Some (fun _ cmd _ =>
    if String.eqb cmd "settings_get" then Resolved stored
    else if String.eqb cmd "stt_transcribe_once" then
      Resolved (VStr "uh send it monday")
    else if String.eqb cmd "nlp_gemini_format" then
      Resolved (VStr "Send it on Monday.")
    else if String.eqb cmd "clipboard_clear" then Rejected
    else Resolved VUndefined);
  event_listen := true;
  getUserMedia := fun h => Some (count_streams h);
  readAsDataURL := fun _ => Some "data:audio/webm;base64,QUJD";
|}.

(** A host whose key store answers [keys_get] with [stored] and accepts
    everything else. *)
Definition vault_host (stored : JsVal) : Platform := {|
  core_invoke := Some (fun _ cmd _ =>
    if String.eqb cmd "keys_get" then Resolved stored
    else Resolved VUndefined);
  event_listen := true;
  getUserMedia := fun h => Some (count_streams h);
  readAsDataURL := fun _ => Some "data:audio/webm;base64,QUJD";
|}.

(** A [keys_get] reply of the shape [App.tsx] declares: the two secrets. *)
Definition stored_secrets : gmap string JsVal :=
  list_to_map [("groqApiKey", VStr "gsk_live_51");
               ("geminiApiKey", VStr "AIza_live_77")].

(** A [keys_get] reply of the shape [part_002] declares: the two
    presence flags. *)
Definition stored_presence : gmap string JsVal :=
  list_to_map [("hasGroq", VBool true); ("hasGemini", VBool false)].

(** A host whose bridge rejects every command and whose microphone is
    unavailable. *)
Definition hostile : Platform := {|
  core_invoke := Some (fun _ _ _ => Rejected);
  event_listen := true;
  getUserMedia := fun _ => None;
  readAsDataURL := fun _ => None;
|}.

(** The partial record [{ enableGemini: false }]. *)
Definition only_enableGemini_off : gmap string JsVal :=
  {[ "enableGemini" := VBool false ]}.

(** Three audio chunks. *)
Definition three_chunks : list Blob := ["RIFF"; "data"; "tail"].

(** The partial record [{ maskPhone: false }]. *)
Definition only_maskPhone_off : gmap string JsVal :=
  {[ "maskPhone" := VBool false ]}.

(* ================================================================== *)
(** * Reading the log *)
(* ================================================================== *)

Definition calls (l : list Effect) : list (string * JsVal * Reply) :=
  omap (fun e => match e with
                 | Invoked cmd payload reply => Some (cmd, payload, reply)
                 | _ => None
                 end) l.

Definition commands (l : list Effect) : list string :=
  map (fun c => fst (fst c)) (calls l).

(** The [text] fields that reached [clipboard_set]. *)
Definition clipboard_texts (l : list Effect) : list JsVal :=
  omap (fun c => match c with
                 | (cmd, payload, _) =>
                     if String.eqb cmd "clipboard_set"
                     then Some (opt_prop payload "text") else None
                 end) (calls l).

(** The calls of one command. *)
Definition calls_of (cmd : string) (l : list Effect)
    : list (string * JsVal * Reply) :=
  List.filter (fun c => String.eqb (fst (fst c)) cmd) (calls l).

Definition acquisitions (l : list Effect) : list (option nat) :=
  omap (fun e => match e with
                 | GetUserMedia r => Some r
                 | _ => None
                 end) l.

(** The chunks that [ondataavailable] keeps: those with [size > 0]. *)
Definition kept (chunks : list Blob) : list Blob :=
  List.filter (fun data => (0 <? String.length data)%nat) chunks.

(** The backend never rejects [cmd]. *)
Definition resolves (plat : Platform) (cmd : string) : Prop :=
  forall h payload, exists v, safeInvoke plat h cmd payload = Resolved v.

Arguments obj : simpl never.
Arguments get : simpl never.
Arguments spread : simpl never.

(* ================================================================== *)
(** * Invariants of handlers *)
(* ================================================================== *)

(** [m] keeps [P] true of the component state, however it ends. *)
Definition preserves (P : World -> Prop) {A} (m : Async World A) : Prop :=
  forall w l, P w -> P (fst (snd (m (w, l)))).

(** The controller is not in [error]. *)
Definition not_error (w : World) : Prop := pttState w <> error.

(** Symbolic execution of a handler: unfold the component's own
    definitions and the monad, and nothing of the maps or the host. *)
Ltac run_async :=
  cbv beta iota zeta delta [ret bind throw swallow then_catch gets modify emit when exec
       invoke read
       setSettings setLoading setPttState setInterimText setFinalText
       acquire setInterval clearInterval blobToBase64
       load update onstop startRecording ondataavailable stopRecording
       interimTick handle commit step mount button_enabled render_of
       has_transcript ptt_eqb deactivate init
       set_settings set_loading set_pttState set_interimText set_finalText
       set_mediaStreamRef set_mediaRecorderRef set_audioChunksRef
       set_listener set_stopQueue set_intervals
       settings loading pttState interimText finalText mediaStreamRef
       mediaRecorderRef audioChunksRef listener settingsDirty stopQueue
       intervals r_settings r_pttState
       rec_stream rec_settings rec_timer rec_active
       is_str negb andb orb fst snd].

(* ================================================================== *)
(** * The transcript panel of [part_002] (lines 220-231) *)
(* ================================================================== *)

(** What the closures of the transcript buttons saw at their render. *)
Record TranscriptRender : Type := {
  t_finalText : JsVal;
  t_interimText : string;
}.

Definition transcript_of (w : World) : TranscriptRender :=
  {| t_finalText := finalText w; t_interimText := interimText w |}.

(** [finalText || interimText] *)
Definition shown_text (r : TranscriptRender) : JsVal :=
  js_or (t_finalText r) (VStr (t_interimText r)).

Section TranscriptPanel.
Variable plat : Platform.

(** The Clear button: [setInterimText(''); setFinalText('')]. *)
Definition clearTranscript : Async World unit :=
  setInterimText "";; setFinalText (VStr "").

(** The Copy button. *)
Definition copyTranscript (r : TranscriptRender) : Async World unit :=
  invoke plat "clipboard_set" (obj [("text", shown_text r)]);;
  ret tt.

(** The Paste button. *)
Definition pasteTranscript (r : TranscriptRender) : Async World unit :=
  invoke plat "clipboard_set" (obj [("text", shown_text r)]);;
  invoke plat "input_paste" VUndefined;;
  ret tt.

(** [onChange] of the Final text area. *)
Definition editFinal (text : string) : Async World unit :=
  setFinalText (VStr text).

End TranscriptPanel.

(** The state a complete capture cycle leaves behind, started in [w] with
    log [l], stream [stream] and transcript [raw]. *)
Definition after_cycle (rev : Revision) (plat : Platform) (w : World)
    (l : list Effect) (chunks : list Blob) (stream : nat) (raw : JsVal)
    : World :=
  let timer := if has_transcript rev then Some (S (S (length l))) else None in
  {| settings := settings w;
     loading := false;
     pttState := idle;
     interimText := if has_transcript rev then "" else interimText w;
     finalText := if has_transcript rev then raw else finalText w;
     mediaStreamRef := Some stream;
     mediaRecorderRef :=
       Some {| rec_stream := stream; rec_settings := settings w;
               rec_timer := timer; rec_active := false |};
     audioChunksRef := kept chunks;
     listener :=
       if settingsDirty w
       then (if event_listen plat
             then Some {| r_settings := settings w; r_pttState := recording |}
             else None)
       else listener w;
     settingsDirty := false;
     stopQueue := [];
     intervals :=
       if has_transcript rev
       then filter (fun i => i ≠ S (S (length l)))
              (S (S (length l)) :: intervals w)
       else intervals w |}.

(** A host whose microphone and file reader work but whose bridge rejects
    every command. *)
Definition unreachable_backend : Platform := {|
  core_invoke := Some (fun _ _ _ => Rejected);
  event_listen := false;
  getUserMedia := fun h => Some (count_streams h);
  readAsDataURL := fun _ => Some "data:audio/webm;base64,QUJD";
|}.


(** The two events of the push-to-talk button. *)
Definition button_event (e : Event) : Prop := e = EvPress \/ e = EvRelease.

(** The record holds every key of [DEFAULTS]. *)
Definition has_defaults (w : World) : Prop :=
  dom DEFAULTS ⊆ dom (settings w).

(* ================================================================== *)
(** * The Android voice keyboard
      ([SpeechController.kt], [VoiceKeyboardService.kt]) *)
(* ================================================================== *)

Module VoiceIme.

(** [MotionEvent.ACTION_DOWN], [ACTION_UP], [ACTION_CANCEL]. *)
Definition ACTION_DOWN : Z := 0.
Definition ACTION_UP : Z := 1.
Definition ACTION_CANCEL : Z := 3.

(** What the service asks of the platform.  A recognizer is named by the
    order of its creation. *)
Inductive Call : Type :=
| CreateSpeechRecognizer (id : nat)
| StartListening (id : nat)
| StopListening (id : nat)
| DestroyRecognizer (id : nat)
| CommitText (text : string) (newCursorPosition : Z).

(** The service: the recognizer of [speech] ([None] while the [lateinit]
    property is not initialized), the text of the [preview] view, and the
    number of recognizers created so far. *)
Record Service : Type := mkService {
  speech : option nat;
  preview : string;
  created : nat;
}.

(** What the platform delivers to the service. *)
Inductive Event : Type :=
| CreateInputView (layoutText : string)
    (* onCreateInputView; the inflated preview shows [layoutText] *)
| Touch (action : Z)
    (* the touch listener of the microphone button *)
| RecognizerError (errorCode : Z)
    (* RecognitionListener.onError *)
| Results (candidates : option (list string)) (connected : bool)
    (* onResults; [connected]: currentInputConnection is not null *)
| PartialResults (candidates : option (list string))
    (* onPartialResults *)
| OtherCallback
    (* onReadyForSpeech, onBeginningOfSpeech, onRmsChanged,
       onBufferReceived, onEndOfSpeech, onEvent *)
| Destroy.
    (* onDestroy *)

(** [list?.firstOrNull().orEmpty()] *)
Definition first_or_empty (candidates : option (list string)) : string :=
  match candidates with
  | Some (text :: _) => text
  | _ => ""
  end.

Definition set_preview (text : string) (s : Service) : Service :=
  mkService (speech s) text (created s).

(** The three callbacks the service hands to [SpeechController]. *)
Definition onPartial (text : string) (s : Service) : Service * list Call :=
  (set_preview text s, []).

Definition onFinal (text : string) (connected : bool) (s : Service)
    : Service * list Call :=
  (set_preview text s, if connected then [CommitText text 1] else []).

Definition onError (msg : string) (s : Service) : Service * list Call :=
  (set_preview ("エラー: " +:+ msg) s, []).

(** One event.  The recognition callbacks exist once a controller has
    been created; they write to whatever view [preview] names then. *)
Definition handle (e : Event) (s : Service) : Service * list Call :=
  match e with
  | CreateInputView layoutText =>
      (mkService (Some (created s)) layoutText (S (created s)),
       [CreateSpeechRecognizer (created s)])
  | Touch action =>
      match speech s with
      | Some id =>
          if Z.eqb action ACTION_DOWN then (s, [StartListening id])
          else if Z.eqb action ACTION_UP || Z.eqb action ACTION_CANCEL
               then (s, [StopListening id])
               else (s, [])
      | None => (s, [])
      end
  | RecognizerError errorCode =>
      match speech s with
      | Some _ => onError (pretty errorCode) s
      | None => (s, [])
      end
  | Results candidates connected =>
      match speech s with
      | Some _ => onFinal (first_or_empty candidates) connected s
      | None => (s, [])
      end
  | PartialResults candidates =>
      match speech s with
      | Some _ =>
          let text := first_or_empty candidates in
          if negb (String.eqb text "") then onPartial text s else (s, [])
      | None => (s, [])
      end
  | OtherCallback => (s, [])
  | Destroy =>
      match speech s with
      | Some id => (s, [DestroyRecognizer id])
      | None => (s, [])
      end
  end.

Definition step (c : Service * list Call) (e : Event)
    : Service * list Call :=
  let (s', calls) := handle e (fst c) in (s', snd c ++ calls).

Definition run (es : list Event) (c : Service * list Call)
    : Service * list Call :=
  fold_left step es c.

(** A service the system has just instantiated. *)
Definition fresh : Service * list Call :=
  ({| speech := None; preview := ""; created := 0 |}, []).

(** The texts committed to the input connection, in order. *)
Definition committed (calls : list Call) : list string :=
  omap (fun c => match c with
                 | CommitText text _ => Some text
                 | _ => None
                 end) calls.

(** What a final result commits, if anything. *)
Definition final_text (e : Event) : option string :=
  match e with
  | Results candidates true => Some (first_or_empty candidates)
  | _ => None
  end.

(** What an event writes into the preview, if anything, once a
    controller exists. *)
Definition shown (e : Event) : option string :=
  match e with
  | CreateInputView layoutText => Some layoutText
  | RecognizerError errorCode => Some ("エラー: " +:+ pretty errorCode)
  | Results candidates _ => Some (first_or_empty candidates)
  | PartialResults candidates =>
      if String.eqb (first_or_empty candidates) "" then None
      else Some (first_or_empty candidates)
  | _ => None
  end.

Definition created_ids (calls : list Call) : list nat :=
  omap (fun c => match c with
                 | CreateSpeechRecognizer id => Some id
                 | _ => None
                 end) calls.

Definition destroyed_ids (calls : list Call) : list nat :=
  omap (fun c => match c with
                 | DestroyRecognizer id => Some id
                 | _ => None
                 end) calls.

Definition is_create (e : Event) : bool :=
  match e with
  | CreateInputView _ => true
  | _ => false
  end.

Definition is_destroy (e : Event) : bool :=
  match e with
  | Destroy => true
  | _ => false
  end.

(** How often the input view was created. *)
Definition creations (es : list Event) : nat :=
  length (List.filter is_create es).

End VoiceIme.

(* ================================================================== *)
(** * The Pomodoro timer ([src/script.js], class [ProgrammerTimer]) *)
(* ================================================================== *)

Module ProgrammerTimer.

(** The numbers of the timer.  [parseInt] yields an integer or [NaN], and
    the timer only adds, multiplies and decrements what it read.  The
    numbers of the source are doubles, which hold the integers up to 2^53
    exactly and round beyond; an integer is modelled by [Z], and the
    operations below are those of the source as long as arguments and
    results are [safe_integer]s.  The modes use numbers up to 1500; what
    is proved of numbers typed into the fields is proved for safe
    integers only. *)
Inductive Num : Type :=
| NaN
| Int (z : Z).

(** [Number.isSafeInteger]: at most [Number.MAX_SAFE_INTEGER] in absolute
    value. *)
Definition safe_integer (z : Z) : Prop :=
  (Z.abs z <= 2 ^ 53 - 1)%Z.

(** [a + b], [a * b] and [a--] on safe integers: [NaN] is absorbing. *)
Definition add (a b : Num) : Num :=
  match a, b with
  | Int x, Int y => Int (x + y)
  | _, _ => NaN
  end.

Definition mul (a b : Num) : Num :=
  match a, b with
  | Int x, Int y => Int (x * y)
  | _, _ => NaN
  end.

Definition dec (a : Num) : Num :=
  match a with
  | Int x => Int (x - 1)
  | NaN => NaN
  end.

(** [a <= 0]: every comparison with [NaN] is false. *)
Definition le_zero (a : Num) : bool :=
  match a with
  | Int x => (x <=? 0)%Z
  | NaN => false
  end.

(** [a || 0]: [NaN] and [0] are falsy. *)
Definition or_zero (a : Num) : Num :=
  match a with
  | Int 0 | NaN => Int 0
  | Int x => Int x
  end.

(** [Math.floor(a / 60)] and [a % 60]; the remainder of JavaScript has the
    sign of the dividend. *)
Definition floor_div60 (a : Num) : Num :=
  match a with
  | Int x => Int (x / 60)
  | NaN => NaN
  end.

Definition rem60 (a : Num) : Num :=
  match a with
  | Int x => Int (Z.rem x 60)
  | NaN => NaN
  end.

(** [a.toString()] *)
Definition toString (a : Num) : string :=
  match a with
  | Int x => pretty x
  | NaN => "NaN"
  end.

(** [s.padStart(target, c)] for a filler of one character. *)
Fixpoint pad (n : nat) (c : ascii) (s : string) : string :=
  match n with
  | O => s
  | S n => String c (pad n c s)
  end.

Definition padStart (target : nat) (c : ascii) (s : string) : string :=
  pad (target - String.length s) c s.

(** ** The timer object *)

Inductive Mode : Type :=
| pomodoro
| short_break
| long_break
| custom.

Record ModeInfo : Type := mkModeInfo {
  time : Z;
  color : string;
  text : string;
}.

(** [this.modes] *)
Definition modes (mode : Mode) : ModeInfo :=
  match mode with
  | pomodoro => mkModeInfo (25 * 60) "#4CAF50" "集中時間"
  | short_break => mkModeInfo (5 * 60) "#2196F3" "短い休憩"
  | long_break => mkModeInfo (15 * 60) "#9C27B0" "長い休憩"
  | custom => mkModeInfo (25 * 60) "#FF9800" "カスタム"
  end.

(** [this.programmingTips] *)
Definition programmingTips : list string :=
  [ "25分集中して、5分休憩。これを繰り返すことで効率的にコーディングできます。";
    "休憩時間には目を休ませ、軽いストレッチをしましょう。";
    "難しい問題は小さく分割して、一つずつ解決していきましょう。";
    "コードレビューは休憩時間に行うと、新鮮な視点で見直せます。";
    "デバッグは集中時間の最後に行い、休憩時間に解決策を考えましょう。";
    "定期的な休憩で集中力を維持し、バグを減らしましょう。";
    "コメントは休憩時間に書くと、より分かりやすくなります。";
    "テストコードは集中時間の途中で書くことで、品質が向上します。" ].

(** The fields of [this].  [interval] is the handle [setInterval]
    returned, [None] for [null]. *)
Record Timer : Type := mkTimer {
  timeLeft : Num;
  totalTime : Num;
  isRunning : bool;
  interval : option nat;
  currentMode : Mode;
  sessionCount : Z;
  totalSessions : Z;
  completedSessions : Z;
  todayFocusTime : Z;
}.

Definition set_timeLeft (v : Num) (t : Timer) : Timer :=
  mkTimer v (totalTime t) (isRunning t) (interval t) (currentMode t)
          (sessionCount t) (totalSessions t) (completedSessions t)
          (todayFocusTime t).

Definition set_totalTime (v : Num) (t : Timer) : Timer :=
  mkTimer (timeLeft t) v (isRunning t) (interval t) (currentMode t)
          (sessionCount t) (totalSessions t) (completedSessions t)
          (todayFocusTime t).

Definition set_isRunning (v : bool) (t : Timer) : Timer :=
  mkTimer (timeLeft t) (totalTime t) v (interval t) (currentMode t)
          (sessionCount t) (totalSessions t) (completedSessions t)
          (todayFocusTime t).

Definition set_interval (v : option nat) (t : Timer) : Timer :=
  mkTimer (timeLeft t) (totalTime t) (isRunning t) v (currentMode t)
          (sessionCount t) (totalSessions t) (completedSessions t)
          (todayFocusTime t).

Definition set_currentMode (v : Mode) (t : Timer) : Timer :=
  mkTimer (timeLeft t) (totalTime t) (isRunning t) (interval t) v
          (sessionCount t) (totalSessions t) (completedSessions t)
          (todayFocusTime t).

Definition set_sessionCount (v : Z) (t : Timer) : Timer :=
  mkTimer (timeLeft t) (totalTime t) (isRunning t) (interval t)
          (currentMode t) v (totalSessions t) (completedSessions t)
          (todayFocusTime t).

Definition set_completedSessions (v : Z) (t : Timer) : Timer :=
  mkTimer (timeLeft t) (totalTime t) (isRunning t) (interval t)
          (currentMode t) (sessionCount t) (totalSessions t) v
          (todayFocusTime t).

Definition set_todayFocusTime (v : Z) (t : Timer) : Timer :=
  mkTimer (timeLeft t) (totalTime t) (isRunning t) (interval t)
          (currentMode t) (sessionCount t) (totalSessions t)
          (completedSessions t) v.

(** ** The document *)

(** The [disabled] property of the three buttons the timer toggles and of
    the two fields. *)
Record Controls : Type := mkControls {
  startBtn_disabled : bool;
  pauseBtn_disabled : bool;
  skipBtn_disabled : bool;
  minuteInput_disabled : bool;
  secondInput_disabled : bool;
}.

(** [progressCircle.style.strokeDashoffset]: a text, or the number
    [c - (timeLeft / totalTime) * c] for the circumference
    [c = 2 * Math.PI * 90], kept as the two numbers it is computed from. *)
Inductive Offset : Type :=
| OffsetText (s : string)
| OffsetOf (timeLeft totalTime : Num).

Record Face : Type := mkFace {
  minutesDisplay : string;
  secondsDisplay : string;
  strokeDashoffset : Offset;
}.

(** What [setMode] styles: the modes of the buttons that carry the class
    [active], the [display] of the custom time row, the phase text and
    the stroke colour of the ring. *)
Record ModeView : Type := mkModeView {
  active : list Mode;
  customTimeInput_display : string;
  phaseTextElement : string;
  stroke : string;
}.

Record StatsView : Type := mkStatsView {
  sessionCountElement : string;
  totalSessionsElement : string;
  completedSessionsElement : string;
  todayFocusElement : string;
}.

(** [minuteInput] and [secondInput] hold what [parseInt] reads from the
    value of the field; the timer never writes a field. *)
Record Document : Type := mkDocument {
  controls : Controls;
  face : Face;
  modeView : ModeView;
  statsView : StatsView;
  currentTipElement : string;
  minuteInput : Num;
  secondInput : Num;
}.

Definition set_controls (v : Controls) (d : Document) : Document :=
  mkDocument v (face d) (modeView d) (statsView d) (currentTipElement d)
             (minuteInput d) (secondInput d).

Definition set_face (v : Face) (d : Document) : Document :=
  mkDocument (controls d) v (modeView d) (statsView d) (currentTipElement d)
             (minuteInput d) (secondInput d).

Definition set_modeView (v : ModeView) (d : Document) : Document :=
  mkDocument (controls d) (face d) v (statsView d) (currentTipElement d)
             (minuteInput d) (secondInput d).

Definition set_statsView (v : StatsView) (d : Document) : Document :=
  mkDocument (controls d) (face d) (modeView d) v (currentTipElement d)
             (minuteInput d) (secondInput d).

Definition set_currentTipElement (v : string) (d : Document) : Document :=
  mkDocument (controls d) (face d) (modeView d) (statsView d) v
             (minuteInput d) (secondInput d).

Definition set_minuteInput (v : Num) (d : Document) : Document :=
  mkDocument (controls d) (face d) (modeView d) (statsView d)
             (currentTipElement d) v (secondInput d).

Definition set_secondInput (v : Num) (d : Document) : Document :=
  mkDocument (controls d) (face d) (modeView d) (statsView d)
             (currentTipElement d) (minuteInput d) v.

(** ** The page *)

(** The item [programmerTimerStats] of the local storage, as [saveStats]
    writes it. *)
Record Stats : Type := mkStats {
  stats_date : string;
  stats_focusTime : Z;
  stats_completedSessions : Z;
}.

(** [Notification.permission]. *)
Inductive Permission : Type :=
| Default
| Granted
| Denied.

Inductive Effect : Type :=
| NewNotification (title body icon : string)
| PlaySound
| RequestPermission.

(** The timer with what surrounds it: the document, the stored item, the
    date of [new Date().toDateString()], the notification permission
    ([None] when the window has no [Notification]), the handles of the
    running intervals, how many handles and how many random numbers were
    handed out, and what the user was shown or played. *)
Record Page : Type := mkPage {
  this : Timer;
  doc : Document;
  localStorage : option Stats;
  today : string;
  notification : option Permission;
  timers : list nat;
  issued : nat;
  draws : nat;
  log : list Effect;
}.

Definition set_this (f : Timer -> Timer) (p : Page) : Page :=
  mkPage (f (this p)) (doc p) (localStorage p) (today p) (notification p)
         (timers p) (issued p) (draws p) (log p).

Definition set_doc (f : Document -> Document) (p : Page) : Page :=
  mkPage (this p) (f (doc p)) (localStorage p) (today p) (notification p)
         (timers p) (issued p) (draws p) (log p).

Definition set_localStorage (v : option Stats) (p : Page) : Page :=
  mkPage (this p) (doc p) v (today p) (notification p)
         (timers p) (issued p) (draws p) (log p).

Definition set_today (v : string) (p : Page) : Page :=
  mkPage (this p) (doc p) (localStorage p) v (notification p)
         (timers p) (issued p) (draws p) (log p).

Definition set_notification (v : option Permission) (p : Page) : Page :=
  mkPage (this p) (doc p) (localStorage p) (today p) v
         (timers p) (issued p) (draws p) (log p).

Definition emit (e : Effect) (p : Page) : Page :=
  mkPage (this p) (doc p) (localStorage p) (today p) (notification p)
         (timers p) (issued p) (draws p) (log p ++ [e]).

(** [setInterval(callback, 1000)]: a fresh handle, never [0]. *)
Definition setInterval (p : Page) : nat * Page :=
  let id := S (issued p) in
  (id, mkPage (this p) (doc p) (localStorage p) (today p) (notification p)
              (timers p ++ [id]) id (draws p) (log p)).

Definition clearInterval (id : nat) (p : Page) : Page :=
  mkPage (this p) (doc p) (localStorage p) (today p) (notification p)
         (List.filter (fun i => negb (Nat.eqb i id)) (timers p))
         (issued p) (draws p) (log p).

Section Methods.

(** [random n] is what [Math.floor(Math.random() * 8)] yields the [n]-th
    time it is evaluated. *)
Variable random : nat -> nat.

Definition updateProgressRing (p : Page) : Page :=
  let offset :=
    if le_zero (totalTime (this p)) then OffsetText "565.48"
    else OffsetOf (timeLeft (this p)) (totalTime (this p)) in
  set_doc (fun d => set_face (mkFace (minutesDisplay (face d))
                                     (secondsDisplay (face d)) offset) d) p.

Definition updateDisplay (p : Page) : Page :=
  let minutes := floor_div60 (timeLeft (this p)) in
  let seconds := rem60 (timeLeft (this p)) in
  let p := set_doc (fun d =>
             set_face (mkFace (padStart 2 "0" (toString minutes))
                              (padStart 2 "0" (toString seconds))
                              (strokeDashoffset (face d))) d) p in
  updateProgressRing p.

Definition updatePhaseText (p : Page) : Page :=
  set_doc (fun d =>
    set_modeView (mkModeView (active (modeView d))
                             (customTimeInput_display (modeView d))
                             (text (modes (currentMode (this p))))
                             (stroke (modeView d))) d) p.

Definition updateProgressColor (p : Page) : Page :=
  set_doc (fun d =>
    set_modeView (mkModeView (active (modeView d))
                             (customTimeInput_display (modeView d))
                             (phaseTextElement (modeView d))
                             (color (modes (currentMode (this p))))) d) p.

Definition stop (p : Page) : Page :=
  let p := set_this (set_isRunning false) p in
  let p := set_doc (set_controls (mkControls false true true false false)) p in
  match interval (this p) with
  | Some (S _ as id) => set_this (set_interval None) (clearInterval id p)
  | _ => p
  end.

Definition pause (p : Page) : Page :=
  let p := set_this (set_isRunning false) p in
  let p := set_doc (set_controls (mkControls false true true false false)) p in
  match interval (this p) with
  | Some (S _ as id) => set_this (set_interval None) (clearInterval id p)
  | _ => p
  end.

Definition reset (p : Page) : Page :=
  let p := stop p in
  let p :=
    match currentMode (this p) with
    | custom =>
        set_this (set_timeLeft (add (mul (minuteInput (doc p)) (Int 60))
                                    (secondInput (doc p)))) p
    | mode => set_this (set_timeLeft (Int (time (modes mode)))) p
    end in
  let p := set_this (fun t => set_totalTime (timeLeft t) t) p in
  updateDisplay p.

Definition setMode (mode : Mode) (p : Page) : Page :=
  let p := set_this (set_currentMode mode) p in
  let p := set_doc (fun d =>
             set_modeView (mkModeView [mode]
                                      (customTimeInput_display (modeView d))
                                      (phaseTextElement (modeView d))
                                      (stroke (modeView d))) d) p in
  let p :=
    match mode with
    | custom =>
        let p := set_doc (fun d =>
                   set_modeView (mkModeView (active (modeView d)) "flex"
                                            (phaseTextElement (modeView d))
                                            (stroke (modeView d))) d) p in
        set_this (set_timeLeft (add (mul (minuteInput (doc p)) (Int 60))
                                    (secondInput (doc p)))) p
    | _ =>
        let p := set_doc (fun d =>
                   set_modeView (mkModeView (active (modeView d)) "none"
                                            (phaseTextElement (modeView d))
                                            (stroke (modeView d))) d) p in
        set_this (set_timeLeft (Int (time (modes mode)))) p
    end in
  let p := set_this (fun t => set_totalTime (timeLeft t) t) p in
  let p := updatePhaseText p in
  let p := updateProgressColor p in
  let p := updateDisplay p in
  reset p.

Definition updateCustomTime (p : Page) : Page :=
  match currentMode (this p) with
  | custom =>
      let minutes := or_zero (minuteInput (doc p)) in
      let seconds := or_zero (secondInput (doc p)) in
      let p := set_this (set_timeLeft (add (mul minutes (Int 60)) seconds)) p in
      let p := set_this (fun t => set_totalTime (timeLeft t) t) p in
      updateDisplay p
  | _ => p
  end.

Definition updateStats (p : Page) : Page :=
  set_doc (set_statsView
    (mkStatsView (pretty (sessionCount (this p)))
                 (pretty (totalSessions (this p)))
                 (pretty (completedSessions (this p)))
                 (pretty (todayFocusTime (this p) / 60)%Z +:+ "分"))) p.

Definition updateTip (p : Page) : Page :=
  let randomIndex := random (draws p) in
  let p := mkPage (this p) (doc p) (localStorage p) (today p)
                  (notification p) (timers p) (issued p) (S (draws p))
                  (log p) in
  set_doc (set_currentTipElement (nth randomIndex programmingTips "")) p.

Definition saveStats (p : Page) : Page :=
  set_localStorage
    (Some (mkStats (today p) (todayFocusTime (this p))
                   (completedSessions (this p)))) p.

Definition loadStats (p : Page) : Page :=
  let p :=
    match localStorage p with
    | Some stats =>
        if String.eqb (stats_date stats) (today p)
        then set_this (fun t =>
               set_completedSessions (stats_completedSessions stats)
                 (set_todayFocusTime (stats_focusTime stats) t)) p
        else p
    | None => p
    end in
  updateStats p.

(** The sound is attempted inside [try]; a failure is only logged to the
    console. *)
Definition playSound (p : Page) : Page :=
  emit PlaySound p.

Definition showNotification (p : Page) : Page :=
  let message :=
    match currentMode (this p) with
    | pomodoro => "集中時間が終了しました！休憩を取りましょう。"
    | _ => "休憩時間が終了しました！次のセッションを開始しましょう。"
    end in
  let p :=
    match notification p with
    | Some Granted =>
        emit (NewNotification "プログラマータイマー" message "/favicon.ico") p
    | _ => p
    end in
  playSound p.

Definition completeSession (p : Page) : Page :=
  let p := stop p in
  let p := showNotification p in
  let p :=
    match currentMode (this p) with
    | pomodoro =>
        let p := set_this (fun t =>
                   set_completedSessions (completedSessions t + 1) t) p in
        let p := set_this (fun t =>
                   set_todayFocusTime
                     (todayFocusTime t + time (modes pomodoro)) t) p in
        let p := saveStats p in
        let p := updateStats p in
        if (Z.rem (completedSessions (this p)) 4 =? 0)%Z
        then setMode long_break p
        else setMode short_break p
    | _ =>
        let p := setMode pomodoro p in
        set_this (fun t => set_sessionCount (sessionCount t + 1) t) p
    end in
  updateTip p.

Definition skip (p : Page) : Page :=
  completeSession p.

(** The callback [start] hands to [setInterval]. *)
Definition tick (p : Page) : Page :=
  let p := set_this (fun t => set_timeLeft (dec (timeLeft t)) t) p in
  let p := updateDisplay p in
  if le_zero (timeLeft (this p)) then completeSession p else p.

Definition start (p : Page) : Page :=
  if le_zero (timeLeft (this p)) then p
  else
    let p := set_this (set_isRunning true) p in
    let p := set_doc (set_controls (mkControls true false false true true)) p in
    let (id, p) := setInterval p in
    set_this (set_interval (Some id)) p.

(** [new ProgrammerTimer()] in a freshly loaded page, followed by the rest
    of the [DOMContentLoaded] listener. *)
Definition new (d : Document) (stored : option Stats) (date : string)
    (permission : option Permission) : Page :=
  let p := mkPage (mkTimer (Int (25 * 60)) (Int (25 * 60)) false None
                           pomodoro 1 4 0 0)
                  d stored date permission [] 0 0 [] in
  let p := loadStats p in
  let p := updateDisplay p in
  updateTip p.

Definition DOMContentLoaded (d : Document) (stored : option Stats)
    (date : string) (permission : option Permission) : Page :=
  let p := new d stored date permission in
  match permission with
  | Some Default => emit RequestPermission p
  | _ => p
  end.

(** ** Events *)

Inductive Button : Type :=
| startBtn
| pauseBtn
| resetBtn
| skipBtn.

Inductive Field : Type :=
| minuteField
| secondField.

(** What reaches the page: a click on one of the four buttons or on the
    button of a mode, an edit of a field ([value] is what [parseInt] reads
    from the new text), the firing of an interval, and the two changes of
    the surroundings the timer reads: the date and the permission. *)
Inductive Event : Type :=
| Click (b : Button)
| ClickMode (mode : Mode)
| Input (f : Field) (value : Num)
| Tick (id : nat)
| NewDay (date : string)
| PermissionChange (permission : option Permission).

(** A disabled button or field dispatches nothing; the timer never
    disables the reset button or the mode buttons. *)
Definition disabled (b : Button) (c : Controls) : bool :=
  match b with
  | startBtn => startBtn_disabled c
  | pauseBtn => pauseBtn_disabled c
  | skipBtn => skipBtn_disabled c
  | resetBtn => false
  end.

Definition field_disabled (f : Field) (c : Controls) : bool :=
  match f with
  | minuteField => minuteInput_disabled c
  | secondField => secondInput_disabled c
  end.

Definition onclick (b : Button) (p : Page) : Page :=
  match b with
  | startBtn => start p
  | pauseBtn => pause p
  | resetBtn => reset p
  | skipBtn => skip p
  end.

Definition step (p : Page) (e : Event) : Page :=
  match e with
  | Click b =>
      if disabled b (controls (doc p)) then p else onclick b p
  | ClickMode mode => setMode mode p
  | Input f value =>
      if field_disabled f (controls (doc p)) then p
      else
        let p :=
          match f with
          | minuteField => set_doc (set_minuteInput value) p
          | secondField => set_doc (set_secondInput value) p
          end in
        updateCustomTime p
  | Tick id =>
      if existsb (Nat.eqb id) (timers p) then tick p else p
  | NewDay date => set_today date p
  | PermissionChange permission => set_notification permission p
  end.

Definition run (es : list Event) (p : Page) : Page :=
  fold_left step es p.

End Methods.

(** How many sessions ended, by the sounds played. *)
Definition sessions_ended (l : list Effect) : nat :=
  length (List.filter (fun e => match e with PlaySound => true | _ => false end) l).

(** What [loadStats] restores from a stored item on a given date. *)
Definition restored (stored : option Stats) (date : string) : Z * Z :=
  match stored with
  | Some stats =>
      if String.eqb (stats_date stats) date
      then (stats_focusTime stats, stats_completedSessions stats)
      else (0, 0)%Z
  | None => (0, 0)%Z
  end.

Definition is_NewDay (e : Event) : bool :=
  match e with
  | NewDay _ => true
  | _ => false
  end.

(** Two decimal digits. *)
Definition two_digits (n : Z) : string :=
  pretty (n / 10)%Z +:+ pretty (n mod 10)%Z.

(** While a countdown runs, its interval is the only one, it is the last
    one handed out and the start button is disabled; otherwise no interval
    runs. *)
Definition one_interval (p : Page) : Prop :=
  match interval (this p) with
  | Some id =>
      id = issued p /\ id <> O /\ timers p = [id] /\
      isRunning (this p) = true /\
      controls (doc p) = mkControls true false false true true
  | None => timers p = [] /\ isRunning (this p) = false
  end.

(** The clock face shows [timeLeft]; outside the custom mode the time left
    is positive and at most the time of the mode, which is [totalTime]. *)
Definition clock_ok (p : Page) : Prop :=
  minutesDisplay (face (doc p)) =
    padStart 2 "0" (toString (floor_div60 (timeLeft (this p)))) /\
  secondsDisplay (face (doc p)) =
    padStart 2 "0" (toString (rem60 (timeLeft (this p)))) /\
  match currentMode (this p) with
  | custom => True
  | mode =>
      exists z, timeLeft (this p) = Int z /\
                (0 < z <= time (modes mode))%Z /\
                totalTime (this p) = Int (time (modes mode))
  end.

(** The part of the page the statistics live in. *)
Definition statistics (p : Page)
    : Z * Z * Z * string * option Stats * string :=
  (todayFocusTime (this p), completedSessions (this p),
   sessionCount (this p), sessionCountElement (statsView (doc p)),
   localStorage p, today p).

(** A countdown is under way: the timer runs with [v] left, the interval
    [id] is among the running ones, and [shown] is all the user was shown
    or played so far. *)
Definition counting (id : nat) (shown : list Effect) (v : Num) (p : Page)
    : Prop :=
  isRunning (this p) = true /\
  timeLeft (this p) = v /\
  existsb (Nat.eqb id) (timers p) = true /\
  log p = shown.

(** A document as the page might ship it. *)
Definition blank : Document :=
  mkDocument (mkControls false true true false false)
             (mkFace "25" "00" (OffsetText "0"))
             (mkModeView [pomodoro] "none" "集中時間" "#4CAF50")
             (mkStatsView "1" "4" "0" "0分")
             "" NaN NaN.

End ProgrammerTimer.

(* ================================================================== *)
(** * The plain countdown timer ([src/unnamed/part_000], class [Timer]) *)
(* ================================================================== *)

Module CountdownTimer.

(** Numbers, texts, the ring, the permission and the effects are those of
    the Pomodoro timer. *)
Import ProgrammerTimer.

Record Timer : Type := mkTimer {
  timeLeft : Num;
  totalTime : Num;
  isRunning : bool;
  interval : option nat;
}.

(** The [disabled] property of the elements the timer toggles. *)
Record Controls : Type := mkControls {
  startBtn_disabled : bool;
  pauseBtn_disabled : bool;
  minuteInput_disabled : bool;
  secondInput_disabled : bool;
}.

(** The timer with what surrounds it.  [minuteInput] and [secondInput]
    hold what [parseInt] reads from the value of the field: the number
    itself after the timer wrote a number, [NaN] after it wrote the empty
    text. *)
Record Page : Type := mkPage {
  this : Timer;
  controls : Controls;
  minutesDisplay : string;
  secondsDisplay : string;
  strokeDashoffset : Offset;
  minuteInput : Num;
  secondInput : Num;
  notification : option Permission;
  timers : list nat;
  issued : nat;
  log : list Effect;
}.

Definition set_this (v : Timer) (p : Page) : Page :=
  mkPage v (controls p) (minutesDisplay p) (secondsDisplay p)
         (strokeDashoffset p) (minuteInput p) (secondInput p)
         (notification p) (timers p) (issued p) (log p).

Definition set_time (v : Num) (p : Page) : Page :=
  set_this (mkTimer v v (isRunning (this p)) (interval (this p))) p.

Definition set_controls (v : Controls) (p : Page) : Page :=
  mkPage (this p) v (minutesDisplay p) (secondsDisplay p)
         (strokeDashoffset p) (minuteInput p) (secondInput p)
         (notification p) (timers p) (issued p) (log p).

Definition set_inputs (minutes seconds : Num) (p : Page) : Page :=
  mkPage (this p) (controls p) (minutesDisplay p) (secondsDisplay p)
         (strokeDashoffset p) minutes seconds
         (notification p) (timers p) (issued p) (log p).

Definition set_notification (v : option Permission) (p : Page) : Page :=
  mkPage (this p) (controls p) (minutesDisplay p) (secondsDisplay p)
         (strokeDashoffset p) (minuteInput p) (secondInput p)
         v (timers p) (issued p) (log p).

Definition emit (e : Effect) (p : Page) : Page :=
  mkPage (this p) (controls p) (minutesDisplay p) (secondsDisplay p)
         (strokeDashoffset p) (minuteInput p) (secondInput p)
         (notification p) (timers p) (issued p) (log p ++ [e]).

Definition setInterval (p : Page) : nat * Page :=
  let id := S (issued p) in
  (id, mkPage (this p) (controls p) (minutesDisplay p) (secondsDisplay p)
              (strokeDashoffset p) (minuteInput p) (secondInput p)
              (notification p) (timers p ++ [id]) id (log p)).

Definition clearInterval (id : nat) (p : Page) : Page :=
  mkPage (this p) (controls p) (minutesDisplay p) (secondsDisplay p)
         (strokeDashoffset p) (minuteInput p) (secondInput p)
         (notification p)
         (List.filter (fun i => negb (Nat.eqb i id)) (timers p))
         (issued p) (log p).

Definition updateProgressRing (p : Page) : Page :=
  let offset :=
    if le_zero (totalTime (this p)) then OffsetText "565.48"
    else OffsetOf (timeLeft (this p)) (totalTime (this p)) in
  mkPage (this p) (controls p) (minutesDisplay p) (secondsDisplay p)
         offset (minuteInput p) (secondInput p)
         (notification p) (timers p) (issued p) (log p).

Definition updateDisplay (p : Page) : Page :=
  let minutes := floor_div60 (timeLeft (this p)) in
  let seconds := rem60 (timeLeft (this p)) in
  let p := mkPage (this p) (controls p)
                  (padStart 2 "0" (toString minutes))
                  (padStart 2 "0" (toString seconds))
                  (strokeDashoffset p) (minuteInput p) (secondInput p)
                  (notification p) (timers p) (issued p) (log p) in
  updateProgressRing p.

Definition updateTimeFromInput (p : Page) : Page :=
  let minutes := or_zero (minuteInput p) in
  let seconds := or_zero (secondInput p) in
  let p := set_time (add (mul minutes (Int 60)) seconds) p in
  updateDisplay p.

Definition setTime (seconds : Num) (p : Page) : Page :=
  let p := set_time seconds p in
  let p := set_inputs (floor_div60 seconds) (rem60 seconds) p in
  updateDisplay p.

Definition stop (p : Page) : Page :=
  let p := set_this (mkTimer (timeLeft (this p)) (totalTime (this p)) false
                             (interval (this p))) p in
  let p := set_controls (mkControls false true false false) p in
  match interval (this p) with
  | Some (S _ as id) =>
      set_this (mkTimer (timeLeft (this p)) (totalTime (this p))
                        (isRunning (this p)) None) (clearInterval id p)
  | _ => p
  end.

Definition pause (p : Page) : Page :=
  let p := set_this (mkTimer (timeLeft (this p)) (totalTime (this p)) false
                             (interval (this p))) p in
  let p := set_controls (mkControls false true false false) p in
  match interval (this p) with
  | Some (S _ as id) =>
      set_this (mkTimer (timeLeft (this p)) (totalTime (this p))
                        (isRunning (this p)) None) (clearInterval id p)
  | _ => p
  end.

Definition reset (p : Page) : Page :=
  let p := stop p in
  let p := set_time (Int 0) p in
  let p := set_inputs NaN NaN p in
  updateDisplay p.

(** The sound is attempted last and outside any [try]: a failure ends the
    callback with nothing left to do. *)
Definition playSound (p : Page) : Page :=
  emit PlaySound p.

Definition showNotification (p : Page) : Page :=
  let p :=
    match notification p with
    | Some Granted =>
        emit (NewNotification "タイマー完了" "設定した時間が経過しました！"
                              "/favicon.ico") p
    | _ => p
    end in
  playSound p.

(** The callback [start] hands to [setInterval]. *)
Definition tick (p : Page) : Page :=
  let p := set_this (mkTimer (dec (timeLeft (this p))) (totalTime (this p))
                             (isRunning (this p)) (interval (this p))) p in
  let p := updateDisplay p in
  if le_zero (timeLeft (this p)) then showNotification (stop p) else p.

Definition start (p : Page) : Page :=
  let p :=
    if le_zero (timeLeft (this p))
    then
      let minutes := or_zero (minuteInput p) in
      let seconds := or_zero (secondInput p) in
      set_time (add (mul minutes (Int 60)) seconds) p
    else p in
  if le_zero (timeLeft (this p)) then p
  else
    let p := set_this (mkTimer (timeLeft (this p)) (totalTime (this p)) true
                               (interval (this p))) p in
    let p := set_controls (mkControls true false true true) p in
    let (id, p) := setInterval p in
    set_this (mkTimer (timeLeft (this p)) (totalTime (this p))
                      (isRunning (this p)) (Some id)) p.

(** [new Timer()] in a freshly loaded page: [html] is the page as the
    document describes it. *)
Definition new (html : Page) : Page :=
  updateDisplay (set_this (mkTimer (Int 0) (Int 0) false None) html).

Inductive Button : Type :=
| startBtn
| pauseBtn
| resetBtn.

(** A click on one of the three buttons or on a preset button ([minutes]
    is what [parseInt] reads from its [data-minutes]), an edit of a field,
    the firing of an interval, a change of the permission. *)
Inductive Event : Type :=
| Click (b : Button)
| ClickPreset (minutes : Num)
| Input (f : Field) (value : Num)
| Tick (id : nat)
| PermissionChange (permission : option Permission).

Definition disabled (b : Button) (c : Controls) : bool :=
  match b with
  | startBtn => startBtn_disabled c
  | pauseBtn => pauseBtn_disabled c
  | resetBtn => false
  end.

Definition field_disabled (f : Field) (c : Controls) : bool :=
  match f with
  | minuteField => minuteInput_disabled c
  | secondField => secondInput_disabled c
  end.

Definition onclick (b : Button) (p : Page) : Page :=
  match b with
  | startBtn => start p
  | pauseBtn => pause p
  | resetBtn => reset p
  end.

Definition step (p : Page) (e : Event) : Page :=
  match e with
  | Click b => if disabled b (controls p) then p else onclick b p
  | ClickPreset minutes => setTime (mul minutes (Int 60)) p
  | Input f value =>
      if field_disabled f (controls p) then p
      else
        let p :=
          match f with
          | minuteField => set_inputs value (secondInput p) p
          | secondField => set_inputs (minuteInput p) value p
          end in
        updateTimeFromInput p
  | Tick id => if existsb (Nat.eqb id) (timers p) then tick p else p
  | PermissionChange permission => set_notification permission p
  end.

Definition run (es : list Event) (p : Page) : Page :=
  fold_left step es p.

(** A countdown is under way, as for the Pomodoro timer. *)
Definition counting (id : nat) (shown : list Effect) (v : Num) (p : Page)
    : Prop :=
  isRunning (this p) = true /\
  timeLeft (this p) = v /\
  existsb (Nat.eqb id) (timers p) = true /\
  log p = shown.

(** A page as the document might describe it. *)
Definition blank : Page :=
  mkPage (mkTimer NaN NaN false None) (mkControls false true false false)
         "00" "00" (OffsetText "0") NaN NaN None [] 0 [].

End CountdownTimer.

(* ================================================================== *)
(** * The settings store *)
(* ================================================================== *)

Section SettingsStore.
Variable plat : Platform.

Lemma defaults_match_preview : DEFAULTS = PREVIEW_SETTINGS.
Proof. reflexivity. Qed.

Lemma mount_resolved s :
  safeInvoke plat [] "settings_get" VUndefined = Resolved s ->
  settings (fst (mount plat)) = spread s ∪ DEFAULTS /\
  loading (fst (mount plat)) = false.
Proof. intros H. run_async. rewrite H. run_async. split; reflexivity. Qed.

Lemma mount_rejected :
  safeInvoke plat [] "settings_get" VUndefined = Rejected ->
  settings (fst (mount plat)) = DEFAULTS /\
  loading (fst (mount plat)) = false.
Proof. intros H. run_async. rewrite H. run_async. split; reflexivity. Qed.

(** The merge [{ ...base, ...over }], key by key. *)
Lemma spread_merge_lookup (over base : gmap string JsVal) k :
  (over ∪ base) !! k =
  match over !! k with
  | Some v => Some v
  | None => base !! k
  end.
Proof.
  destruct (over !! k) as [v|] eqn:E.
  - by apply lookup_union_Some_l.
  - by rewrite lookup_union_r.
Qed.

Lemma spread_merge_dom (over base : gmap string JsVal) :
  dom base ⊆ dom (over ∪ base).
Proof. rewrite dom_union. set_solver. Qed.

Lemma update_order (r : Render) (p : gmap string JsVal) w l :
  update plat r p (w, l) =
  swallow (invoke plat "settings_update" (obj [("partial", VObj p)]))
    (set_settings (p ∪ r_settings r) w, l).
Proof. reflexivity. Qed.

End SettingsStore.

(** C2.  Whatever record the backend returns for [settings_get], after
    the mount effect the store is ready, holds every key of [DEFAULTS],
    takes the backend's value for each key the backend supplied and the
    default for each key it did not; when the fetch fails the store holds
    [DEFAULTS] unchanged and is ready all the same. *)
Theorem load_merges_over_defaults (plat : Platform) (s : gmap string JsVal) :
  (safeInvoke plat [] "settings_get" VUndefined = Resolved (VObj s) ->
     loading (fst (mount plat)) = false /\
     dom DEFAULTS ⊆ dom (settings (fst (mount plat))) /\
     (forall k v, s !! k = Some v ->
                  settings (fst (mount plat)) !! k = Some v) /\
     (forall k, s !! k = None ->
                settings (fst (mount plat)) !! k = DEFAULTS !! k)) /\
  (safeInvoke plat [] "settings_get" VUndefined = Rejected ->
     settings (fst (mount plat)) = DEFAULTS /\
     loading (fst (mount plat)) = false).
Proof.
  split.
  - intros H. destruct (mount_resolved plat _ H) as [-> ->].
    change (spread (VObj s)) with s.
    split; [done|]. split; [apply spread_merge_dom|].
    split; intros k; [intros v Hk|intros Hk];
      by rewrite spread_merge_lookup, Hk.
  - apply mount_rejected.
Qed.

Lemma load_merges_over_defaults_witness :
  (loading (fst (mount (desktop (VObj only_maskPhone_off)))) = false /\
   dom DEFAULTS ⊆ dom (settings (fst (mount (desktop (VObj only_maskPhone_off))))) /\
   (forall k v, only_maskPhone_off !! k = Some v ->
      settings (fst (mount (desktop (VObj only_maskPhone_off)))) !! k = Some v) /\
   (forall k, only_maskPhone_off !! k = None ->
      settings (fst (mount (desktop (VObj only_maskPhone_off)))) !! k
      = DEFAULTS !! k)) /\
  (settings (fst (mount hostile)) = DEFAULTS /\
   loading (fst (mount hostile)) = false).
Proof.
  split.
  - apply (proj1 (load_merges_over_defaults
                    (desktop (VObj only_maskPhone_off)) only_maskPhone_off)).
    reflexivity.
  - apply (proj2 (load_merges_over_defaults hostile ∅)). reflexivity.
Defined.



(* ================================================================== *)
(** * The capture controller *)
(* ================================================================== *)

Lemma new_Blob_kept chunks : new_Blob (kept chunks) = new_Blob chunks.
Proof.
  induction chunks as [|c chunks IH]; [done|].
  cbn [kept List.filter]. destruct c as [|a c]; cbn [String.length Nat.ltb Nat.leb].
  - exact IH.
  - cbn [new_Blob foldr]. f_equal. exact IH.
Qed.

Section Capture.
Variable plat : Platform.
Implicit Types (rev : Revision) (w : World) (l : list Effect).

Lemma run_cons rev e es c :
  run rev plat (e :: es) c = run rev plat es (step rev plat c e).
Proof. reflexivity. Qed.

Lemma run_app rev es1 es2 c :
  run rev plat (es1 ++ es2) c = run rev plat es2 (run rev plat es1 c).
Proof. apply fold_left_app. Qed.

(** The guard of [startRecording]: a closure whose render did not see
    [idle] returns at once. *)
Lemma startRecording_guard rev r c :
  r_pttState r <> idle -> startRecording rev plat r c = (Fulfilled tt, c).
Proof.
  intros H. unfold startRecording.
  destruct (r_pttState r); [done|reflexivity..].
Qed.

(** From the button the guard sees the current state. *)
Lemma press_while_busy rev w l :
  pttState w <> idle -> settingsDirty w = false ->
  step rev plat (w, l) EvPress = (w, l).
Proof.
  intros Hp Hd. unfold step, handle, exec, commit.
  cbn [fst snd]. destruct (button_enabled w); cbn [when].
  - rewrite startRecording_guard by exact Hp. cbn [fst snd]. by rewrite Hd.
  - cbn [ret fst snd]. by rewrite Hd.
Qed.

Lemma run_data rev chunks w l :
  settingsDirty w = false ->
  run rev plat (map EvData chunks) (w, l) =
  (set_audioChunksRef (audioChunksRef w ++ kept chunks) w, l).
Proof.
  revert w. induction chunks as [|d chunks IH]; intros w Hd.
  - cbn [map kept List.filter run fold_left]. rewrite app_nil_r.
    by destruct w.
  - cbn [map]. rewrite run_cons.
    destruct w. cbn [settingsDirty] in Hd. subst.
    cbn [kept List.filter].
    destruct (0 <? String.length d)%nat eqn:E.
    + run_async. rewrite E. run_async. rewrite IH by reflexivity.
      run_async. by rewrite <- app_assoc.
    + run_async. rewrite E. run_async. rewrite IH by reflexivity.
      reflexivity.
Qed.


Ltac next_reply H :=
  match goal with
  | |- context [safeInvoke plat ?h ?cmd ?p] =>
      let v := fresh "v" in
      let E := fresh "E" in
      destruct (H h p) as [v E]; rewrite E; run_async
  end.

(** Evaluate the step taken from an explicit configuration. *)
Ltac eval_step tac :=
  match goal with
  | |- context [step ?rev plat (?w, ?l) ?e] =>
      let E := fresh "E" in
      eassert (E : step rev plat (w, l) e = _) by (tac; reflexivity);
      rewrite E; clear E
  end.

Lemma cycle_trace rev w l chunks stream url :
  loading w = false -> pttState w = idle -> stopQueue w = [] ->
  getUserMedia plat l = Some stream ->
  readAsDataURL plat (new_Blob chunks) = Some url ->
  resolves plat "stt_transcribe_once" ->
  resolves plat "nlp_gemini_format" ->
  resolves plat "clipboard_set" ->
  resolves plat "input_paste" ->
  exists raw formatted r1 r2 rc l' w',
    run rev plat (cycle chunks) (w, l) = (w', l ++ l') /\
    pttState w' = idle /\
    acquisitions l' = [Some stream] /\
    calls l' =
      [ ("stt_transcribe_once",
         obj [("settings", VObj (settings w));
              ("audioB64", at_index (split_commas "" url) 1)],
         Resolved raw);
        ("nlp_gemini_format",
         obj [("settings", VObj (settings w)); ("text", raw)],
         Resolved formatted);
        ("clipboard_set", obj [("text", formatted)], Resolved r1);
        ("input_paste", VUndefined, Resolved r2) ]
      ++ (if truthy (get (settings w) "autoClearClipboard")
          then [("clipboard_clear", VUndefined, rc)] else []).
Proof.
  intros Hl Hp Hq Hg Hr Hstt Hfmt Hset Hpaste.
  destruct w. cbn [loading pttState settings stopQueue] in *. subst.
  unfold cycle. rewrite run_cons.
  destruct rev, settingsDirty0.
  all: eval_step ltac:(run_async; rewrite Hg; run_async).
  all: rewrite run_app, run_data by reflexivity.
  all: rewrite run_cons; eval_step run_async.
  all: rewrite run_cons; cbn [app run fold_left].
  all: run_async; rewrite new_Blob_kept, Hr; run_async.
  all: next_reply Hstt; next_reply Hfmt; next_reply Hset; next_reply Hpaste.
  all: destruct (truthy (get settings0 "autoClearClipboard")); run_async.
  all: try match goal with
           | |- context [safeInvoke plat ?h "clipboard_clear" ?p] =>
               destruct (safeInvoke plat h "clipboard_clear" p); run_async
           end.
  all: do 5 eexists. all: try exact Rejected. all: do 2 eexists.
  all: (split; [rewrite <- !app_assoc; reflexivity|]).
  all: repeat split; reflexivity.
Qed.

End Capture.

(** C1 (as amended).  In a complete capture cycle started from the button,
    whatever the value of [enableGemini], the transcription is invoked once
    with the settings of the render that started the cycle, the formatter
    is invoked once with the same settings and the transcript the
    transcription returned, and the only text handed to [clipboard_set] is
    what the formatter returned. *)
Theorem cycle_pastes_formatter_reply (rev : Revision) (plat : Platform)
    (w : World) (l : list Effect) (chunks : list Blob)
    (stream : nat) (url : string) (b : bool) :
  loading w = false -> pttState w = idle -> stopQueue w = [] ->
  get (settings w) "enableGemini" = VBool b ->
  getUserMedia plat l = Some stream ->
  readAsDataURL plat (new_Blob chunks) = Some url ->
  resolves plat "stt_transcribe_once" ->
  resolves plat "nlp_gemini_format" ->
  resolves plat "clipboard_set" ->
  resolves plat "input_paste" ->
  exists raw formatted l' w',
    run rev plat (cycle chunks) (w, l) = (w', l ++ l') /\
    calls_of "stt_transcribe_once" l' =
      [("stt_transcribe_once",
        obj [("settings", VObj (settings w));
             ("audioB64", at_index (split_commas "" url) 1)],
        Resolved raw)] /\
    calls_of "nlp_gemini_format" l' =
      [("nlp_gemini_format",
        obj [("settings", VObj (settings w)); ("text", raw)],
        Resolved formatted)] /\
    clipboard_texts l' = [formatted].
Proof.
  intros Hl Hp Hq _ Hg Hr Hstt Hfmt Hset Hpaste.
  destruct (cycle_trace plat rev w l chunks stream url
              Hl Hp Hq Hg Hr Hstt Hfmt Hset Hpaste)
    as (raw & formatted & r1 & r2 & rc & l' & w' & Hrun & _ & _ & Hcalls).
  exists raw, formatted, l', w'. split; [exact Hrun|].
  unfold calls_of, clipboard_texts. rewrite Hcalls.
  destruct (truthy (get (settings w) "autoClearClipboard"));
    repeat split; reflexivity.
Qed.

Lemma cycle_pastes_formatter_reply_witness :
  let plat := desktop (VObj only_enableGemini_off) in
  let w := fst (mount plat) in
  let l := snd (mount plat) in
  (loading w = false /\ pttState w = idle /\ stopQueue w = [] /\
   get (settings w) "enableGemini" = VBool false) /\
  exists raw formatted l' w',
    run Part002 plat (cycle three_chunks) (w, l) = (w', l ++ l') /\
    calls_of "stt_transcribe_once" l' =
      [("stt_transcribe_once",
        obj [("settings", VObj (settings w));
             ("audioB64",
              at_index (split_commas "" "data:audio/webm;base64,QUJD") 1)],
        Resolved raw)] /\
    calls_of "nlp_gemini_format" l' =
      [("nlp_gemini_format",
        obj [("settings", VObj (settings w)); ("text", raw)],
        Resolved formatted)] /\
    clipboard_texts l' = [formatted].
Proof.
  intros plat w l.
  split; [repeat split; vm_compute; reflexivity|].
  apply (cycle_pastes_formatter_reply Part002 plat w l three_chunks 0
           "data:audio/webm;base64,QUJD" false);
    try (vm_compute; reflexivity);
    intros h p; eexists; reflexivity.
Defined.

(** C1, as stated, fails.  With [enableGemini: false] loaded from the
    backend, a complete cycle still invokes [nlp_gemini_format], and the
    clipboard receives the formatter's reply, not the transcript that
    [stt_transcribe_once] returned.  This is so in both revisions. *)
Lemma enableGemini_off_still_formats :
  let plat := desktop (VObj only_enableGemini_off) in
  let raw := VStr "uh send it monday" in
  let c1 := run AppTsx plat (cycle three_chunks) (mount plat) in
  let c2 := run Part002 plat (cycle three_chunks) (mount plat) in
  get (settings (fst (mount plat))) "enableGemini" = VBool false /\
  map snd (calls_of "stt_transcribe_once" (snd c1)) = [Resolved raw] /\
  map snd (calls_of "stt_transcribe_once" (snd c2)) = [Resolved raw] /\
  ~ (calls_of "nlp_gemini_format" (snd c1) = [] /\
     clipboard_texts (snd c1) = [raw]) /\
  ~ (calls_of "nlp_gemini_format" (snd c2) = [] /\
     clipboard_texts (snd c2) = [raw]).
Proof.
  intros plat raw c1 c2.
  split; [vm_compute; reflexivity|].
  split; [vm_compute; reflexivity|].
  split; [vm_compute; reflexivity|].
  split; intros [H _].
  all: match type of H with
       | ?t = [] =>
           assert (E : length t = 1%nat) by (vm_compute; reflexivity);
           rewrite H in E; discriminate E
       end.
Qed.

(** C7.  In a complete capture cycle, [clipboard_clear] is invoked exactly
    when [autoClearClipboard] is true, and then as the last call, after
    [clipboard_set] and [input_paste]; nothing is assumed of its reply, and
    the controller is back in [idle] either way. *)
Theorem clear_follows_autoClearClipboard (rev : Revision) (plat : Platform)
    (w : World) (l : list Effect) (chunks : list Blob)
    (stream : nat) (url : string) (b : bool) :
  loading w = false -> pttState w = idle -> stopQueue w = [] ->
  get (settings w) "autoClearClipboard" = VBool b ->
  getUserMedia plat l = Some stream ->
  readAsDataURL plat (new_Blob chunks) = Some url ->
  resolves plat "stt_transcribe_once" ->
  resolves plat "nlp_gemini_format" ->
  resolves plat "clipboard_set" ->
  resolves plat "input_paste" ->
  exists l' w',
    run rev plat (cycle chunks) (w, l) = (w', l ++ l') /\
    pttState w' = idle /\
    commands l' =
      ["stt_transcribe_once"; "nlp_gemini_format"; "clipboard_set";
       "input_paste"] ++ (if b then ["clipboard_clear"] else []).
Proof.
  intros Hl Hp Hq Hb Hg Hr Hstt Hfmt Hset Hpaste.
  destruct (cycle_trace plat rev w l chunks stream url
              Hl Hp Hq Hg Hr Hstt Hfmt Hset Hpaste)
    as (raw & formatted & r1 & r2 & rc & l' & w' & Hrun & Hidle & _ & Hcalls).
  exists l', w'. split; [exact Hrun|]. split; [exact Hidle|].
  unfold commands. rewrite Hcalls, Hb. by destruct b.
Qed.

Lemma clear_follows_autoClearClipboard_witness :
  let plat := desktop (VObj ∅) in
  let w := fst (mount plat) in
  let l := snd (mount plat) in
  (loading w = false /\ pttState w = idle /\ stopQueue w = [] /\
   get (settings w) "autoClearClipboard" = VBool true /\
   safeInvoke plat [] "clipboard_clear" VUndefined = Rejected) /\
  exists l' w',
    run AppTsx plat (cycle three_chunks) (w, l) = (w', l ++ l') /\
    pttState w' = idle /\
    commands l' =
      ["stt_transcribe_once"; "nlp_gemini_format"; "clipboard_set";
       "input_paste"] ++ (if true then ["clipboard_clear"] else []).
Proof.
  intros plat w l.
  split; [repeat split; vm_compute; reflexivity|].
  apply (clear_follows_autoClearClipboard AppTsx plat w l three_chunks 0
           "data:audio/webm;base64,QUJD" true);
    try (vm_compute; reflexivity);
    intros h p; eexists; reflexivity.
Defined.

(* ================================================================== *)
(** * Re-entrance and failure of the capture controller *)
(* ================================================================== *)

(** ** Invariants of handlers *)

Section Preservation.
Variable P : World -> Prop.

Lemma preserves_ret {A} (a : A) : preserves P (ret a).
Proof. by intros w l H. Qed.

Lemma preserves_throw {A} : preserves P (@throw World A).
Proof. by intros w l H. Qed.

Lemma preserves_bind {A B} (m : Async World A) (k : A -> Async World B) :
  preserves P m -> (forall a, preserves P (k a)) -> preserves P (bind m k).
Proof.
  intros Hm Hk w l H. unfold bind.
  specialize (Hm w l H). destruct (m (w, l)) as [[a|] [w' l']]; [|exact Hm].
  by apply Hk.
Qed.

Lemma preserves_swallow {A} (m : Async World A) :
  preserves P m -> preserves P (swallow m).
Proof.
  intros Hm w l H. unfold swallow.
  specialize (Hm w l H). by destruct (m (w, l)) as [o [w' l']].
Qed.

Lemma preserves_then_catch {A} (p : Async World A) ok ko :
  preserves P p -> (forall a, preserves P (ok a)) -> preserves P ko ->
  preserves P (then_catch p ok ko).
Proof.
  intros Hp Hok Hko w l H. unfold then_catch.
  pose proof (preserves_bind p ok Hp Hok w l H) as Hb.
  destruct (bind p ok (w, l)) as [[a|] [w' l']]; [exact Hb|].
  by apply Hko.
Qed.

Lemma preserves_when b (m : Async World unit) :
  preserves P m -> preserves P (when b m).
Proof. destruct b; [done|]. intros _. apply preserves_ret. Qed.

Lemma preserves_emit e : preserves P (emit e).
Proof. by intros w l H. Qed.

Lemma preserves_gets {A} (f : World -> A) : preserves P (gets f).
Proof. by intros w l H. Qed.

Lemma preserves_modify f :
  (forall w, P w -> P (f w)) -> preserves P (modify f).
Proof. intros Hf w l H. by apply Hf. Qed.

Lemma preserves_invoke plat cmd payload :
  preserves P (invoke plat cmd payload).
Proof.
  intros w l H. unfold invoke. cbn [fst snd].
  by destruct (safeInvoke plat l cmd payload).
Qed.

End Preservation.

(** The controller never reaches [error]: no handler assigns it. *)

Section NoError.
Variable rev : Revision.
Variable plat : Platform.

Create HintDb inv.
Local Hint Resolve preserves_ret preserves_throw preserves_swallow
  preserves_when preserves_emit preserves_gets preserves_invoke : inv.

Ltac inv_step :=
  first
    [ apply preserves_bind; [|intros ?]
    | apply preserves_then_catch; [|intros ?|]
    | apply preserves_when
    | apply preserves_swallow
    | apply preserves_modify; intros [] ?; assumption || discriminate
    | match goal with
      | |- preserves _ (match ?x with _ => _ end) => destruct x
      end
    | solve [auto with inv] ].

Lemma acquire_not_error : preserves not_error (acquire plat).
Proof.
  intros w l H. unfold acquire. cbn [fst snd].
  by destruct (getUserMedia plat l).
Qed.

Lemma setInterval_not_error : preserves not_error setInterval.
Proof. intros [] l H. exact H. Qed.

Lemma blobToBase64_not_error b : preserves not_error (blobToBase64 plat b).
Proof.
  intros w l H. unfold blobToBase64. cbn [fst snd].
  by destruct (readAsDataURL plat b).
Qed.

Local Hint Resolve acquire_not_error setInterval_not_error
  blobToBase64_not_error : inv.

Lemma startRecording_not_error r :
  preserves not_error (startRecording rev plat r).
Proof.
  unfold startRecording, setFinalText, setInterimText, setPttState.
  destruct (negb _); [auto with inv|].
  destruct rev; cbn [has_transcript]; repeat inv_step.
Qed.

Lemma stopRecording_not_error : preserves not_error stopRecording.
Proof. unfold stopRecording. repeat inv_step. Qed.

Lemma onstop_not_error mr : preserves not_error (onstop rev plat mr).
Proof.
  unfold onstop, clearInterval, setFinalText, setInterimText, setPttState.
  repeat inv_step.
Qed.

Lemma update_not_error r p : preserves not_error (update plat r p).
Proof. unfold update, setSettings. repeat inv_step. Qed.

Local Hint Resolve startRecording_not_error stopRecording_not_error
  onstop_not_error update_not_error : inv.

Lemma handle_not_error e w0 : preserves not_error (handle rev plat e w0).
Proof.
  destruct e; cbn [handle]; unfold ondataavailable, interimTick;
    repeat inv_step.
Qed.

Lemma step_not_error c e :
  not_error (fst c) -> not_error (fst (step rev plat c e)).
Proof.
  destruct c as [w l]. intros H. unfold step, exec, commit. cbn [fst snd].
  pose proof (handle_not_error e w w l H) as H'.
  destruct (settingsDirty _); [|exact H'].
  by destruct (fst (snd (handle rev plat e w (w, l)))).
Qed.

(** No run of the component ever shows [error]. *)
Lemma error_unreachable es :
  not_error (fst (run rev plat es (mount plat))).
Proof.
  assert (H0 : not_error (fst (mount plat))).
  { unfold mount, not_error, load, exec, then_catch, invoke, bind.
    cbn [fst snd]. destruct (safeInvoke _ _ _ _); unfold commit;
      cbn; by destruct (event_listen plat). }
  revert H0. generalize (mount plat).
  induction es as [|e es IH]; intros c H0; [exact H0|].
  cbn [run fold_left]. apply IH. by apply step_not_error.
Qed.

End NoError.

(** C6 (what the code does).  When the microphone request fails, the
    button's [startRecording] has already set [recording]; the rejection
    is not caught, the state stays [recording], no stream or recorder is
    stored, and the request was made once.  By [error_unreachable] the
    controller cannot show [error] afterwards either. *)
Theorem failed_acquisition_leaves_recording (rev : Revision)
    (plat : Platform) (w : World) (l : list Effect) :
  loading w = false -> pttState w = idle ->
  getUserMedia plat l = None ->
  let c := step rev plat (w, l) EvPress in
  pttState (fst c) = recording /\
  pttState (fst c) <> error /\
  snd c = l ++ [GetUserMedia None] /\
  mediaStreamRef (fst c) = mediaStreamRef w /\
  mediaRecorderRef (fst c) = mediaRecorderRef w.
Proof.
  intros Hl Hp Hg. destruct w. cbn [loading pttState] in *. subst.
  destruct rev, settingsDirty0; run_async; rewrite Hg; run_async;
    repeat split; (reflexivity || discriminate).
Qed.

Lemma failed_acquisition_leaves_recording_witness :
  let w := fst (mount hostile) in
  let l := snd (mount hostile) in
  (loading w = false /\ pttState w = idle /\ getUserMedia hostile l = None) /\
  let c := step Part002 hostile (w, l) EvPress in
  pttState (fst c) = recording /\
  pttState (fst c) <> error /\
  snd c = l ++ [GetUserMedia None] /\
  mediaStreamRef (fst c) = mediaStreamRef w /\
  mediaRecorderRef (fst c) = mediaRecorderRef w.
Proof.
  intros w l. split; [repeat split; vm_compute; reflexivity|].
  apply (failed_acquisition_leaves_recording Part002 hostile w l);
    vm_compute; reflexivity.
Defined.

(** After a failed microphone request nothing the button can do leaves
    [recording]: a press is stopped by the guard, and a release finds no
    recorder to stop. *)
Lemma stuck_after_failed_acquisition (rev : Revision) (plat : Platform)
    (es : list Event) (w : World) (l : list Effect) :
  Forall (fun e => e = EvPress \/ e = EvRelease) es ->
  pttState w = recording -> mediaRecorderRef w = None ->
  settingsDirty w = false ->
  pttState (fst (run rev plat es (w, l))) = recording.
Proof.
  intros Hes. revert w l.
  induction Hes as [|e es [-> | ->] _ IH]; intros w l Hp Hr Hd; [exact Hp| |].
  - rewrite run_cons, press_while_busy; [by apply IH| |exact Hd].
    rewrite Hp. discriminate.
  - rewrite run_cons. destruct w.
    cbn [pttState mediaRecorderRef settingsDirty] in *. subst.
    destruct loading0, mediaStreamRef0; run_async; by apply IH.
Qed.

(** C5 (what the code does).  The closure registered on the
    [ptt:stateChanged] channel belongs to the render in which [settings]
    last changed.  When that render saw [idle], a remote ["recording"]
    notification that arrives while the controller is recording or
    processing passes the guard: a new stream is requested and stored, a
    new recorder is constructed and started, the chunks are reset, the
    transcript is cleared where there is one, and the state is set to
    [recording]. *)
Theorem remote_start_bypasses_guard (rev : Revision) (plat : Platform)
    (w : World) (l : list Effect) (r : Render) (stream : nat) :
  listener w = Some r -> r_pttState r = idle ->
  pttState w = recording \/ pttState w = processing ->
  getUserMedia plat l = Some stream ->
  let c := step rev plat (w, l) (EvRemote (VStr "recording")) in
  acquisitions (snd c) = acquisitions l ++ [Some stream] /\
  (exists l', snd c = l ++ GetUserMedia (Some stream)
                          :: NewMediaRecorder stream :: l') /\
  mediaStreamRef (fst c) = Some stream /\
  (exists timer,
     mediaRecorderRef (fst c) =
       Some {| rec_stream := stream; rec_settings := r_settings r;
               rec_timer := timer; rec_active := true |}) /\
  audioChunksRef (fst c) = [] /\
  pttState (fst c) = recording /\
  (has_transcript rev = true ->
     finalText (fst c) = VStr "" /\ interimText (fst c) = "").
Proof.
  intros Hr Hi _ Hg. destruct w, r. cbn [listener r_pttState] in *. subst.
  unfold acquisitions.
  destruct rev, settingsDirty0; run_async.
  all: rewrite String.eqb_refl.
  all: change (String.eqb "recording" "processing") with false.
  all: run_async; rewrite Hg; run_async.
  all: rewrite <- ?app_assoc, ?omap_app; cbn [app omap list_omap].
  all: repeat split; try reflexivity; try discriminate; eauto.
Qed.

Lemma remote_start_bypasses_guard_witness :
  let plat := desktop (VObj ∅) in
  let c1 := run Part002 plat [EvRemote (VStr "recording")] (mount plat) in
  let w := fst c1 in
  let l := snd c1 in
  let r := {| r_settings := settings (fst (mount plat));
              r_pttState := idle |} in
  (listener w = Some r /\ pttState w = recording /\
   acquisitions l = [Some 0%nat] /\ getUserMedia plat l = Some 1%nat) /\
  let c := step Part002 plat (w, l) (EvRemote (VStr "recording")) in
  acquisitions (snd c) = acquisitions l ++ [Some 1%nat] /\
  (exists l', snd c = l ++ GetUserMedia (Some 1%nat)
                          :: NewMediaRecorder 1 :: l') /\
  mediaStreamRef (fst c) = Some 1%nat /\
  (exists timer,
     mediaRecorderRef (fst c) =
       Some {| rec_stream := 1; rec_settings := r_settings r;
               rec_timer := timer; rec_active := true |}) /\
  audioChunksRef (fst c) = [] /\
  pttState (fst c) = recording /\
  (has_transcript Part002 = true ->
     finalText (fst c) = VStr "" /\ interimText (fst c) = "").
Proof.
  intros plat c1 w l r.
  split; [repeat split; vm_compute; reflexivity|].
  apply (remote_start_bypasses_guard Part002 plat w l r 1%nat).
  - vm_compute; reflexivity.
  - reflexivity.
  - left. vm_compute; reflexivity.
  - vm_compute; reflexivity.
Defined.

(* ================================================================== *)
(** * The key panel *)
(* ================================================================== *)

Ltac run_keys :=
  cbv beta iota zeta delta
    [ret bind throw swallow then_catch gets modify emit when exec
     invoke read
     KeysPanelAppTsx.load KeysPanelAppTsx.save KeysPanelAppTsx.handle
     KeysPanelAppTsx.step KeysPanelAppTsx.mount KeysPanelAppTsx.init
     KeysPanelAppTsx.set_groq KeysPanelAppTsx.set_gemini
     KeysPanelAppTsx.groq KeysPanelAppTsx.gemini
     KeysPanelPart002.load KeysPanelPart002.save KeysPanelPart002.handle
     KeysPanelPart002.step KeysPanelPart002.mount KeysPanelPart002.init
     KeysPanelPart002.set_hasGroq KeysPanelPart002.set_hasGemini
     KeysPanelPart002.set_groq KeysPanelPart002.set_gemini
     KeysPanelPart002.hasGroq KeysPanelPart002.hasGemini
     KeysPanelPart002.groq KeysPanelPart002.gemini
     fst snd].

(** ** [part_002]: presence flags only *)

Section KeysPart002.
Import KeysPanelPart002.
Variable plat : Platform.

(** Whatever [keys_get] answers, the buffers are empty after the mount
    effect: the only strings the panel holds are the ones typed into it. *)
Lemma load_leaves_buffers_empty :
  groq (fst (mount plat)) = "" /\ gemini (fst (mount plat)) = "".
Proof.
  run_keys. destruct (safeInvoke plat [] "keys_get" VUndefined) as [k|];
    run_keys; [|done].
  destruct (prop k "hasGroq"); run_keys; [|done].
  destruct (prop k "hasGemini"); run_keys; done.
Qed.

(** The flags are the truthiness of the two fields of the reply, and
    nothing else of the reply is kept. *)
Lemma load_reads_presence k g m :
  safeInvoke plat [] "keys_get" VUndefined = Resolved k ->
  prop k "hasGroq" = Some g -> prop k "hasGemini" = Some m ->
  fst (mount plat) =
  {| hasGroq := truthy g; hasGemini := truthy m; groq := ""; gemini := "" |}.
Proof.
  intros Hk Hg Hm. run_keys. rewrite Hk. run_keys.
  rewrite Hg. run_keys. rewrite Hm. reflexivity.
Qed.

(** A successful [save]: each flag becomes true when its buffer was
    filled and is unchanged otherwise; an empty buffer is sent as
    [undefined]; both buffers are emptied. *)
Lemma save_resolved st l v :
  safeInvoke plat l "keys_set"
    (obj [("keys", obj [("groqApiKey", js_or (VStr (groq st)) VUndefined);
                        ("geminiApiKey",
                         js_or (VStr (gemini st)) VUndefined)])])
  = Resolved v ->
  fst (step plat (st, l) Save) =
  {| hasGroq := truthy (VStr (groq st)) || hasGroq st;
     hasGemini := truthy (VStr (gemini st)) || hasGemini st;
     groq := ""; gemini := "" |}.
Proof.
  intros H. destruct st. cbn [groq gemini hasGroq hasGemini] in *.
  run_keys. rewrite H. reflexivity.
Qed.

(** A rejected [save] changes nothing. *)
Lemma save_rejected st l :
  safeInvoke plat l "keys_set"
    (obj [("keys", obj [("groqApiKey", js_or (VStr (groq st)) VUndefined);
                        ("geminiApiKey",
                         js_or (VStr (gemini st)) VUndefined)])])
  = Rejected ->
  fst (step plat (st, l) Save) = st.
Proof.
  intros H. destruct st. cbn [groq gemini hasGroq hasGemini] in *.
  run_keys. rewrite H. reflexivity.
Qed.

(** The claim of C8, on this revision: with only the first field filled,
    only [hasGroq] is set, [hasGemini] is untouched, the empty field goes
    out as [undefined], and both buffers are emptied. *)
Lemma save_only_groq st l text v :
  groq st = text -> text <> "" -> gemini st = "" ->
  safeInvoke plat l "keys_set"
    (obj [("keys", obj [("groqApiKey", VStr text);
                        ("geminiApiKey", VUndefined)])]) = Resolved v ->
  step plat (st, l) Save =
  ({| hasGroq := true; hasGemini := hasGemini st; groq := ""; gemini := "" |},
   l ++ [Invoked "keys_set"
           (obj [("keys", obj [("groqApiKey", VStr text);
                               ("geminiApiKey", VUndefined)])])
           (Resolved v);
         Alert "Saved (stored values are hidden for security)"]).
Proof.
  intros Hg Hne Hm H. destruct st as [hg hm g m].
  cbn [groq gemini hasGemini] in *. subst g m.
  destruct text as [|a s]; [done|].
  run_keys. change (js_or (VStr (String a s)) VUndefined) with (VStr (String a s)).
  change (js_or (VStr "") VUndefined) with VUndefined.
  rewrite H. run_keys. by rewrite <- app_assoc.
Qed.

Lemma save_only_gemini st l text v :
  gemini st = text -> text <> "" -> groq st = "" ->
  safeInvoke plat l "keys_set"
    (obj [("keys", obj [("groqApiKey", VUndefined);
                        ("geminiApiKey", VStr text)])]) = Resolved v ->
  step plat (st, l) Save =
  ({| hasGroq := hasGroq st; hasGemini := true; groq := ""; gemini := "" |},
   l ++ [Invoked "keys_set"
           (obj [("keys", obj [("groqApiKey", VUndefined);
                               ("geminiApiKey", VStr text)])])
           (Resolved v);
         Alert "Saved (stored values are hidden for security)"]).
Proof.
  intros Hg Hne Hm H. destruct st as [hg hm g m].
  cbn [groq gemini hasGroq] in *. subst g m.
  destruct text as [|a s]; [done|].
  run_keys. change (js_or (VStr (String a s)) VUndefined) with (VStr (String a s)).
  change (js_or (VStr "") VUndefined) with VUndefined.
  rewrite H. run_keys. by rewrite <- app_assoc.
Qed.

(** A save that settles before anything else happens never turns a flag
    off. *)
Lemma step_monotone c e :
  (hasGroq (fst c) = true -> hasGroq (fst (step plat c e)) = true) /\
  (hasGemini (fst c) = true -> hasGemini (fst (step plat c e)) = true).
Proof.
  destruct c as [[hg hm g m] l], e; run_keys; try done.
  destruct (safeInvoke _ _ _ _); run_keys; [|done].
  split; intros ->; [|apply orb_true_r]. apply orb_true_r.
Qed.

(** Over saves that each settle before the next event, a flag that is
    true stays true. *)
Lemma settled_saves_monotone es c :
  (hasGroq (fst c) = true -> hasGroq (fst (run plat es c)) = true) /\
  (hasGemini (fst c) = true -> hasGemini (fst (run plat es c)) = true).
Proof.
  revert c. induction es as [|e es IH]; intros c; [done|].
  cbn [run fold_left].
  destruct (step_monotone c e) as [Hg Hm].
  destruct (IH (step plat c e)) as [IHg IHm].
  split; intros H; [apply IHg, Hg, H|apply IHm, Hm, H].
Qed.

End KeysPart002.

(** ** [part_002]: saves that overlap *)

Ltac run_pending :=
  cbv beta iota zeta delta
    [ret bind throw swallow then_catch gets modify emit when exec
     invoke read
     KeysPanelPart002.load KeysPanelPart002.save KeysPanelPart002.handle
     KeysPanelPart002.step KeysPanelPart002.mount KeysPanelPart002.init
     KeysPanelPart002.set_hasGroq KeysPanelPart002.set_hasGemini
     KeysPanelPart002.set_groq KeysPanelPart002.set_gemini
     KeysPanelPart002.hasGroq KeysPanelPart002.hasGemini
     KeysPanelPart002.groq KeysPanelPart002.gemini
     KeysPanelPart002.settle KeysPanelPart002.save_payload
     KeysPanelPart002.save_then KeysPanelPart002.load_then
     KeysPanelPart002.continuation KeysPanelPart002.panel
     KeysPanelPart002.pending KeysPanelPart002.asked
     KeysPanelPart002.call KeysPanelPart002.resume
     KeysPanelPart002.advance KeysPanelPart002.play
     KeysPanelPart002.mounting
     fold_left lookup list_lookup delete list_delete
     fst snd].

Section PendingSaves.
Import KeysPanelPart002.
Variable plat : Platform.

(** [step] is [advance] with the call settled at once. *)
Lemma save_settled_at_once st l :
  advance plat (advance plat (mkConfig st [] l) (Handle Save)) (Settle 0) =
  mkConfig (fst (step plat (st, l) Save)) [] (snd (step plat (st, l) Save)).
Proof.
  destruct st as [hg hm g m]. run_pending. cbn [app]. run_pending.
  destruct (safeInvoke _ _ _ _); reflexivity.
Qed.

Lemma mount_settled_at_once :
  advance plat (mounting plat) (Settle 0) =
  mkConfig (fst (mount plat)) [] (snd (mount plat)).
Proof.
  run_pending. cbn [app]. run_pending.
  destruct (safeInvoke _ _ _ _) as [k|]; run_pending; [|done].
  destruct (prop k "hasGroq"); run_pending; [|done].
  destruct (prop k "hasGemini"); run_pending; done.
Qed.

(** The same between a save and the mount effect: a save clicked before
    [keys_get] has settled writes, once it settles itself, the flags of
    the first render over the ones just loaded. *)
Lemma save_before_load_settles k g m text :
  safeInvoke plat [] "keys_get" VUndefined = Resolved k ->
  prop k "hasGroq" = Some g -> truthy g = true ->
  prop k "hasGemini" = Some m ->
  text <> "" ->
  resolves plat "keys_set" ->
  let c1 := play plat [Handle (TypeGemini text); Handle Save; Settle 0]
                 (mounting plat) in
  let c2 := advance plat c1 (Settle 0) in
  hasGroq (panel c1) = true /\
  hasGroq (panel c2) = false /\ pending c2 = [].
Proof.
  intros Hk Hg Htrue Hm Htext Hres c1 c2. subst c2 c1.
  destruct text as [|a text]; [done|].
  run_pending. cbn [app]. run_pending. rewrite Hk. cbn [app]. run_pending.
  match goal with
  | |- context [safeInvoke plat ?h "keys_set" ?p] =>
      destruct (Hres h p) as [v E]; rewrite E
  end.
  cbn [app]. run_pending. rewrite Hg. run_pending. rewrite Hm.
  run_pending. rewrite Htrue. done.
Qed.

End PendingSaves.

(** C9 (what the code does).  In the panel of [part_002] the code after
    [await invoke('keys_set', ...)] writes the flags from the render in
    which Save was clicked.  When a second save is clicked before the
    first has settled, with the first buffer emptied in between, the first
    save sets [hasGroq] and the second, which sent no key for it, sets it
    back to false. *)
Theorem overlapping_saves_lose_presence_flag (plat : Platform)
    (st : KeysPanelPart002.State) (l : list Effect) :
  resolves plat "keys_set" ->
  KeysPanelPart002.groq st <> "" ->
  KeysPanelPart002.hasGroq st = false ->
  let c0 := KeysPanelPart002.mkConfig st [] l in
  let c1 :=
    KeysPanelPart002.play plat
      [KeysPanelPart002.Handle KeysPanelPart002.Save;
       KeysPanelPart002.Handle (KeysPanelPart002.TypeGroq "");
       KeysPanelPart002.Handle KeysPanelPart002.Save;
       KeysPanelPart002.Settle 0] c0 in
  let c2 := KeysPanelPart002.advance plat c1 (KeysPanelPart002.Settle 0) in
  let first :=
    obj [("keys",
          obj [("groqApiKey", VStr (KeysPanelPart002.groq st));
               ("geminiApiKey",
                js_or (VStr (KeysPanelPart002.gemini st)) VUndefined)])] in
  let second :=
    obj [("keys",
          obj [("groqApiKey", VUndefined);
               ("geminiApiKey",
                js_or (VStr (KeysPanelPart002.gemini st)) VUndefined)])] in
  KeysPanelPart002.hasGroq (KeysPanelPart002.panel c1) = true /\
  (exists reply,
     KeysPanelPart002.pending c1 =
       [KeysPanelPart002.KeysSet (KeysPanelPart002.set_groq "" st) reply]) /\
  KeysPanelPart002.hasGroq (KeysPanelPart002.panel c2) = false /\
  KeysPanelPart002.pending c2 = [] /\
  exists v1 v2,
    calls (KeysPanelPart002.asked c2) =
      calls l ++ [("keys_set", first, Resolved v1);
                  ("keys_set", second, Resolved v2)].
Proof.
  intros Hres Hkey Hflag c0 c1 c2 first second.
  destruct st as [hg hm g m].
  cbn [KeysPanelPart002.groq KeysPanelPart002.hasGroq
       KeysPanelPart002.gemini] in *.
  subst hg. destruct g as [|a g]; [done|].
  subst c2 c1 c0 first second. run_pending. cbn [app]. run_pending.
  change (js_or (VStr (String a g)) VUndefined) with (VStr (String a g)).
  change (js_or (VStr "") VUndefined) with VUndefined.
  change (truthy (VStr (String a g))) with true.
  change (truthy (VStr "")) with false.
  set (p1 := obj [("keys", obj [("groqApiKey", VStr (String a g));
                                ("geminiApiKey", js_or (VStr m) VUndefined)])]).
  set (p2 := obj [("keys", obj [("groqApiKey", VUndefined);
                                ("geminiApiKey", js_or (VStr m) VUndefined)])]).
  destruct (Hres l p1) as [v1 E1]. rewrite E1.
  destruct (Hres (l ++ [Invoked "keys_set" p1 (Resolved v1)]) p2) as [v2 E2].
  rewrite E2. cbn [app]. run_pending. cbn [app]. run_pending.
  repeat split; try reflexivity; eauto.
  exists v1, v2. unfold calls. rewrite <- !app_assoc, !omap_app.
  cbn [omap list_omap app]. reflexivity.
Qed.

Lemma overlapping_saves_lose_presence_flag_witness :
  let plat := vault_host (VObj ∅) in
  let st := {| KeysPanelPart002.hasGroq := false;
               KeysPanelPart002.hasGemini := false;
               KeysPanelPart002.groq := "gsk_live_51";
               KeysPanelPart002.gemini := "" |} in
  let c0 := KeysPanelPart002.mkConfig st [] [] in
  let c1 :=
    KeysPanelPart002.play plat
      [KeysPanelPart002.Handle KeysPanelPart002.Save;
       KeysPanelPart002.Handle (KeysPanelPart002.TypeGroq "");
       KeysPanelPart002.Handle KeysPanelPart002.Save;
       KeysPanelPart002.Settle 0] c0 in
  let c2 := KeysPanelPart002.advance plat c1 (KeysPanelPart002.Settle 0) in
  let first :=
    obj [("keys",
          obj [("groqApiKey", VStr (KeysPanelPart002.groq st));
               ("geminiApiKey",
                js_or (VStr (KeysPanelPart002.gemini st)) VUndefined)])] in
  let second :=
    obj [("keys",
          obj [("groqApiKey", VUndefined);
               ("geminiApiKey",
                js_or (VStr (KeysPanelPart002.gemini st)) VUndefined)])] in
  (resolves plat "keys_set" /\
   KeysPanelPart002.groq st <> "" /\
   KeysPanelPart002.hasGroq st = false) /\
  KeysPanelPart002.hasGroq (KeysPanelPart002.panel c1) = true /\
  (exists reply,
     KeysPanelPart002.pending c1 =
       [KeysPanelPart002.KeysSet (KeysPanelPart002.set_groq "" st) reply]) /\
  KeysPanelPart002.hasGroq (KeysPanelPart002.panel c2) = false /\
  KeysPanelPart002.pending c2 = [] /\
  exists v1 v2,
    calls (KeysPanelPart002.asked c2) =
      calls [] ++ [("keys_set", first, Resolved v1);
                   ("keys_set", second, Resolved v2)].
Proof.
  intros plat st c0 c1 c2 first second.
  assert (resolves plat "keys_set") as Hres
    by (intros h payload; eexists; reflexivity).
  split; [split; [exact Hres|split; [discriminate|reflexivity]]|].
  exact (overlapping_saves_lose_presence_flag plat st [] Hres
           ltac:(discriminate) eq_refl).
Defined.

(** ** [App.tsx]: the stored values themselves *)

(** C3 (what [App.tsx] does).  Its panel asks [keys_get] for the stored
    keys and puts whatever non-empty strings come back into the two input
    buffers. *)
Theorem apptsx_load_holds_stored_secrets (plat : Platform)
    (k : gmap string JsVal) (groqKey geminiKey : string) :
  safeInvoke plat [] "keys_get" VUndefined = Resolved (VObj k) ->
  k !! "groqApiKey" = Some (VStr groqKey) -> groqKey <> "" ->
  k !! "geminiApiKey" = Some (VStr geminiKey) -> geminiKey <> "" ->
  fst (KeysPanelAppTsx.mount plat) =
  {| KeysPanelAppTsx.groq := VStr groqKey;
     KeysPanelAppTsx.gemini := VStr geminiKey |}.
Proof.
  intros Hk Hg Hgne Hm Hmne. run_keys. rewrite Hk. run_keys.
  unfold prop, get. rewrite Hg, Hm. run_keys.
  destruct groqKey; [done|]. destruct geminiKey; [done|]. reflexivity.
Qed.

Lemma apptsx_load_holds_stored_secrets_witness :
  let plat := vault_host (VObj stored_secrets) in
  (safeInvoke plat [] "keys_get" VUndefined = Resolved (VObj stored_secrets)) /\
  fst (KeysPanelAppTsx.mount plat) =
  {| KeysPanelAppTsx.groq := VStr "gsk_live_51";
     KeysPanelAppTsx.gemini := VStr "AIza_live_77" |}.
Proof.
  intros plat. split; [reflexivity|].
  apply (apptsx_load_holds_stored_secrets plat stored_secrets);
    (reflexivity || discriminate).
Defined.

(** C8 (what [App.tsx] does).  Its [save] sends an empty buffer as [null]
    and changes nothing in the panel: the buffers keep what they held,
    whatever the backend replies. *)
Theorem apptsx_save_keeps_buffers (plat : Platform)
    (st : KeysPanelAppTsx.State) (l : list Effect) :
  let c := KeysPanelAppTsx.step plat (st, l) KeysPanelAppTsx.Save in
  fst c = st /\
  commands (snd c) = commands l ++ ["keys_set"] /\
  exists reply tail,
    snd c = l ++ Invoked "keys_set"
                   (obj [("keys",
                          obj [("groqApiKey",
                                js_or (KeysPanelAppTsx.groq st) VNull);
                               ("geminiApiKey",
                                js_or (KeysPanelAppTsx.gemini st) VNull)])])
                   reply :: tail.
Proof.
  destruct st. unfold commands, calls. run_keys.
  destruct (safeInvoke _ _ _ _); run_keys.
  all: rewrite <- ?app_assoc, ?omap_app, ?map_app; cbn [app omap list_omap map].
  all: rewrite ?app_nil_r; repeat split; eauto.
Qed.

(** The input of the claim on [App.tsx]: the first buffer filled, the
    second empty.  After a successful [save] the first buffer still holds
    the key. *)
Lemma apptsx_save_example :
  let plat := vault_host (VObj ∅) in
  let st := {| KeysPanelAppTsx.groq := VStr "gsk_new_02";
               KeysPanelAppTsx.gemini := VStr "" |} in
  let c := KeysPanelAppTsx.step plat (st, []) KeysPanelAppTsx.Save in
  KeysPanelAppTsx.groq (fst c) = VStr "gsk_new_02" /\
  snd c = [Invoked "keys_set"
             (obj [("keys", obj [("groqApiKey", VStr "gsk_new_02");
                                 ("geminiApiKey", VNull)])])
             (Resolved VUndefined);
           Alert "Saved keys locally"].
Proof. split; vm_compute; reflexivity. Qed.

(* ================================================================== *)
(** * The service worker *)
(* ================================================================== *)

Section FetchHandler.
Import ServiceWorker.
Variable scope : Scope.

Lemma on_fetch_not_get req :
  method req <> "GET" -> on_fetch scope req = (NotIntercepted, []).
Proof.
  intros H. unfold on_fetch.
  destruct (String.eqb_spec (method req) "GET"); [done|reflexivity].
Qed.

Lemma on_fetch_online req res :
  method req = "GET" -> network scope req = Some res ->
  on_fetch scope req = (Responds res, [NetworkFetch req (Some res)]).
Proof. intros Hm Hn. unfold on_fetch. by rewrite Hm, Hn. Qed.

Lemma on_fetch_offline req :
  method req = "GET" -> network scope req = None ->
  on_fetch scope req =
  (match default ∅ (caches scope !! "ptt-cache-v1") !! url req with
   | Some res => Responds res
   | None => Fails "offline"
   end,
   [NetworkFetch req None; CachesOpen "ptt-cache-v1";
    CacheMatch req (default ∅ (caches scope !! "ptt-cache-v1") !! url req)]).
Proof.
  intros Hm Hn. unfold on_fetch. rewrite Hm, Hn. cbn [String.eqb negb].
  change (String.eqb "GET" "GET") with true. cbn [negb].
  by destruct (default ∅ (caches scope !! "ptt-cache-v1") !! url req).
Qed.

End FetchHandler.

(** C10.  The fetch handler leaves every request that is not a GET alone,
    without touching network or cache.  For a GET it asks the network
    first; it looks into the cache exactly when the network fetch throws;
    a response from the network is passed on as it is; and it fails, with
    the error [offline], exactly when the network throws and the cache has
    no match. *)
Theorem fetch_handler_network_first (scope : ServiceWorker.Scope)
    (req : ServiceWorker.Request) :
  let verdict := fst (ServiceWorker.on_fetch scope req) in
  let trace := snd (ServiceWorker.on_fetch scope req) in
  let hit := default ∅ (ServiceWorker.caches scope !! "ptt-cache-v1")
               !! ServiceWorker.url req in
  (ServiceWorker.method req <> "GET" ->
     verdict = ServiceWorker.NotIntercepted /\ trace = []) /\
  (ServiceWorker.method req = "GET" ->
     verdict <> ServiceWorker.NotIntercepted /\
     (exists rest,
        trace = ServiceWorker.NetworkFetch req
                  (ServiceWorker.network scope req) :: rest) /\
     (ServiceWorker.consulted_cache trace = true <->
        ServiceWorker.network scope req = None) /\
     (forall res, ServiceWorker.network scope req = Some res ->
                  verdict = ServiceWorker.Responds res) /\
     (ServiceWorker.network scope req = None ->
        verdict = match hit with
                  | Some res => ServiceWorker.Responds res
                  | None => ServiceWorker.Fails "offline"
                  end) /\
     (forall msg, verdict = ServiceWorker.Fails msg <->
        msg = "offline" /\ ServiceWorker.network scope req = None /\
        hit = None)).
Proof.
  intros verdict trace hit. split.
  - intros H. subst verdict trace. by rewrite on_fetch_not_get.
  - intros Hm. subst verdict trace.
    destruct (ServiceWorker.network scope req) as [res|] eqn:Hn.
    + rewrite (on_fetch_online scope req res Hm Hn). cbn [fst snd].
      split; [discriminate|]. split; [eauto|].
      split; [split; discriminate|].
      split; [by intros ? [= <-]|].
      split; [discriminate|].
      intros msg. split; [discriminate|]. by intros (_ & ? & _).
    + rewrite (on_fetch_offline scope req Hm Hn). fold hit. cbn [fst snd].
      split; [by destruct hit|]. split; [eauto|].
      split; [done|]. split; [discriminate|]. split; [done|].
      intros msg. destruct hit as [res|].
      * split; [discriminate|]. by intros (_ & _ & ?).
      * split; [by intros [= <-]|]. by intros (-> & _).
Qed.

Lemma fetch_handler_network_first_witness :
  let post := {| ServiceWorker.method := "POST";
                 ServiceWorker.url := "/index.html" |} in
  let page := {| ServiceWorker.method := "GET";
                 ServiceWorker.url := "/index.html" |} in
  let other := {| ServiceWorker.method := "GET";
                  ServiceWorker.url := "/missing.js" |} in
  ServiceWorker.on_fetch ServiceWorker.offline_scope post
    = (ServiceWorker.NotIntercepted, []) /\
  fst (ServiceWorker.on_fetch ServiceWorker.offline_scope page)
    = ServiceWorker.Responds
        {| ServiceWorker.status := 200; ServiceWorker.body := "<html>" |} /\
  fst (ServiceWorker.on_fetch ServiceWorker.offline_scope other)
    = ServiceWorker.Fails "offline".
Proof.
  intros post page other.
  pose proof (fetch_handler_network_first ServiceWorker.offline_scope post)
    as [Hpost _].
  pose proof (fetch_handler_network_first ServiceWorker.offline_scope page)
    as [_ Hpage].
  pose proof (fetch_handler_network_first ServiceWorker.offline_scope other)
    as [_ Hother].
  split; [|split].
  - destruct Hpost as [Hv Ht]; [discriminate|].
    apply injective_projections; assumption.
  - destruct Hpage as (_ & _ & _ & _ & H & _); [reflexivity|].
    exact (H eq_refl).
  - destruct Hother as (_ & _ & _ & _ & H & _); [reflexivity|].
    exact (H eq_refl).
Defined.

(* ================================================================== *)
(** * What a capture cycle leaves behind *)
(* ================================================================== *)

Section CycleEffect.
Variable plat : Platform.

Ltac eval_step' tac :=
  match goal with
  | |- context [step ?rev plat (?w, ?l) ?e] =>
      let E := fresh "E" in
      eassert (E : step rev plat (w, l) e = _) by (tac; reflexivity);
      rewrite E; clear E
  end.

Ltac reply_of H cmd :=
  match goal with
  | |- context [safeInvoke plat ?h cmd ?p] =>
      let v := fresh "v" in
      let E := fresh "E" in
      destruct (H h p) as [v E]; rewrite E; run_async
  end.

(** The whole effect of a complete cycle: the final state, and the
    replies that became the transcript and the pasted text. *)
Lemma cycle_effect rev w l chunks stream url :
  loading w = false -> pttState w = idle -> stopQueue w = [] ->
  getUserMedia plat l = Some stream ->
  readAsDataURL plat (new_Blob chunks) = Some url ->
  resolves plat "stt_transcribe_once" ->
  resolves plat "nlp_gemini_format" ->
  resolves plat "clipboard_set" ->
  resolves plat "input_paste" ->
  exists raw formatted h1 h2 l',
    safeInvoke plat h1 "stt_transcribe_once"
      (obj [("settings", VObj (settings w));
            ("audioB64", at_index (split_commas "" url) 1)])
      = Resolved raw /\
    safeInvoke plat h2 "nlp_gemini_format"
      (obj [("settings", VObj (settings w)); ("text", raw)])
      = Resolved formatted /\
    run rev plat (cycle chunks) (w, l) =
      (after_cycle rev plat w l chunks stream raw, l ++ l') /\
    clipboard_texts l' = [formatted].
Proof.
  intros Hl Hp Hq Hg Hr Hstt Hfmt Hset Hpaste.
  unfold after_cycle.
  destruct w as [st ld ps it ft msr mrr acr ls sd sq iv].
  cbn [loading pttState settings stopQueue interimText finalText
       listener settingsDirty intervals] in *. subst.
  unfold cycle. rewrite run_cons.
  destruct rev, sd.
  all: eval_step' ltac:(run_async; rewrite Hg; run_async).
  all: rewrite run_app, run_data by reflexivity.
  all: rewrite run_cons; eval_step' run_async.
  all: rewrite run_cons; cbn [app run fold_left].
  all: run_async; rewrite new_Blob_kept, Hr; run_async.
  all: reply_of Hstt "stt_transcribe_once".
  all: reply_of Hfmt "nlp_gemini_format".
  all: reply_of Hset "clipboard_set".
  all: reply_of Hpaste "input_paste".
  all: destruct (truthy (get st "autoClearClipboard")); run_async.
  all: try match goal with
           | |- context [safeInvoke plat ?h "clipboard_clear" ?p] =>
               destruct (safeInvoke plat h "clipboard_clear" p); run_async
           end.
  all: rewrite ?length_app; cbn [length]; rewrite ?Nat.add_1_r.
  all: do 5 eexists.
  all: (split; [eassumption|]); (split; [eassumption|]).
  all: (split; [rewrite <- !app_assoc; cbn [has_transcript]; reflexivity|]).
  all: reflexivity.
Qed.

End CycleEffect.

(** X1.  A complete capture cycle keeps what it used: afterwards the
    chunks of the cycle that were not empty are still in
    [audioChunksRef], [mediaStreamRef] still holds the stopped stream and
    [mediaRecorderRef] the stopped recorder; the settings are untouched,
    no stop event is pending, and the interval timer the cycle started
    (in [part_002]) is no longer running. *)
Theorem cycle_keeps_chunks_and_handles (rev : Revision) (plat : Platform)
    (w : World) (l : list Effect) (chunks : list Blob)
    (stream : nat) (url : string) :
  loading w = false -> pttState w = idle -> stopQueue w = [] ->
  getUserMedia plat l = Some stream ->
  readAsDataURL plat (new_Blob chunks) = Some url ->
  resolves plat "stt_transcribe_once" ->
  resolves plat "nlp_gemini_format" ->
  resolves plat "clipboard_set" ->
  resolves plat "input_paste" ->
  let w' := fst (run rev plat (cycle chunks) (w, l)) in
  audioChunksRef w' = kept chunks /\
  mediaStreamRef w' = Some stream /\
  (exists timer,
     mediaRecorderRef w' =
       Some {| rec_stream := stream; rec_settings := settings w;
               rec_timer := timer; rec_active := false |} /\
     forall id, timer = Some id -> id ∉ intervals w') /\
  settings w' = settings w /\
  stopQueue w' = [] /\
  (has_transcript rev = false -> intervals w' = intervals w).
Proof.
  intros Hl Hp Hq Hg Hr Hstt Hfmt Hset Hpaste w'.
  destruct (cycle_effect plat rev w l chunks stream url
              Hl Hp Hq Hg Hr Hstt Hfmt Hset Hpaste)
    as (raw & formatted & h1 & h2 & l' & _ & _ & Hrun & _).
  subst w'. rewrite Hrun. cbn [fst]. unfold after_cycle.
  cbn [audioChunksRef mediaStreamRef mediaRecorderRef settings stopQueue
       intervals].
  repeat split; try reflexivity.
  - eexists. split; [reflexivity|].
    intros id Hid. destruct rev; cbn [has_transcript] in *; [done|].
    injection Hid as <-. rewrite list_elem_of_filter. tauto.
  - by intros ->.
Qed.

Lemma cycle_keeps_chunks_and_handles_witness :
  let plat := desktop (VObj ∅) in
  let w := fst (mount plat) in
  let l := snd (mount plat) in
  let chunks := ["RIFF"; ""; "tail"] in
  let w' := fst (run Part002 plat (cycle chunks) (w, l)) in
  (loading w = false /\ pttState w = idle /\ stopQueue w = []) /\
  audioChunksRef w' = ["RIFF"; "tail"] /\
  mediaStreamRef w' = Some 0%nat /\
  (exists timer,
     mediaRecorderRef w' =
       Some {| rec_stream := 0; rec_settings := settings w;
               rec_timer := timer; rec_active := false |} /\
     forall id, timer = Some id -> id ∉ intervals w') /\
  settings w' = settings w /\
  stopQueue w' = [] /\
  (has_transcript Part002 = false -> intervals w' = intervals w).
Proof.
  intros plat w l chunks w'.
  split; [repeat split; vm_compute; reflexivity|].
  apply (cycle_keeps_chunks_and_handles Part002 plat w l chunks 0
           "data:audio/webm;base64,QUJD");
    try (vm_compute; reflexivity);
    intros h p; eexists; reflexivity.
Defined.

(** X2.  In [part_002], after a complete cycle the Final box holds the
    transcript as [stt_transcribe_once] returned it, not the text that
    [nlp_gemini_format] returned and that was pasted, and the interim text
    is empty; the Copy button then hands that unformatted transcript to
    [clipboard_set] (or the empty string when the transcript is falsy). *)
Theorem final_box_keeps_unformatted_transcript (plat : Platform)
    (w : World) (l : list Effect) (chunks : list Blob)
    (stream : nat) (url : string) :
  loading w = false -> pttState w = idle -> stopQueue w = [] ->
  getUserMedia plat l = Some stream ->
  readAsDataURL plat (new_Blob chunks) = Some url ->
  resolves plat "stt_transcribe_once" ->
  resolves plat "nlp_gemini_format" ->
  resolves plat "clipboard_set" ->
  resolves plat "input_paste" ->
  let c := run Part002 plat (cycle chunks) (w, l) in
  exists raw formatted h1 h2 l' reply,
    safeInvoke plat h1 "stt_transcribe_once"
      (obj [("settings", VObj (settings w));
            ("audioB64", at_index (split_commas "" url) 1)])
      = Resolved raw /\
    safeInvoke plat h2 "nlp_gemini_format"
      (obj [("settings", VObj (settings w)); ("text", raw)])
      = Resolved formatted /\
    snd c = l ++ l' /\
    clipboard_texts l' = [formatted] /\
    finalText (fst c) = raw /\
    interimText (fst c) = "" /\
    snd (exec (copyTranscript plat (transcript_of (fst c))) c) =
      snd c ++ [Invoked "clipboard_set"
                  (obj [("text", js_or raw (VStr ""))]) reply].
Proof.
  intros Hl Hp Hq Hg Hr Hstt Hfmt Hset Hpaste c.
  destruct (cycle_effect plat Part002 w l chunks stream url
              Hl Hp Hq Hg Hr Hstt Hfmt Hset Hpaste)
    as (raw & formatted & h1 & h2 & l' & H1 & H2 & Hrun & Htexts).
  subst c. rewrite Hrun. unfold after_cycle. cbn [has_transcript fst snd].
  exists raw, formatted, h1, h2, l'.
  exists (safeInvoke plat (l ++ l') "clipboard_set"
            (obj [("text", js_or raw (VStr ""))])).
  split; [exact H1|]. split; [exact H2|]. split; [reflexivity|].
  split; [exact Htexts|]. split; [reflexivity|]. split; [reflexivity|].
  unfold copyTranscript, transcript_of, shown_text, exec, invoke, bind, ret.
  cbn [fst snd t_finalText t_interimText finalText interimText].
  destruct (safeInvoke plat (l ++ l') _ _); reflexivity.
Qed.

Lemma final_box_keeps_unformatted_transcript_witness :
  let plat := desktop (VObj ∅) in
  let w := fst (mount plat) in
  let l := snd (mount plat) in
  let c := run Part002 plat (cycle three_chunks) (w, l) in
  (loading w = false /\ pttState w = idle /\ stopQueue w = []) /\
  exists raw formatted h1 h2 l' reply,
    safeInvoke plat h1 "stt_transcribe_once"
      (obj [("settings", VObj (settings w));
            ("audioB64",
             at_index (split_commas "" "data:audio/webm;base64,QUJD") 1)])
      = Resolved raw /\
    safeInvoke plat h2 "nlp_gemini_format"
      (obj [("settings", VObj (settings w)); ("text", raw)])
      = Resolved formatted /\
    snd c = l ++ l' /\
    clipboard_texts l' = [formatted] /\
    finalText (fst c) = raw /\
    interimText (fst c) = "" /\
    snd (exec (copyTranscript plat (transcript_of (fst c))) c) =
      snd c ++ [Invoked "clipboard_set"
                  (obj [("text", js_or raw (VStr ""))]) reply].
Proof.
  intros plat w l c.
  split; [repeat split; vm_compute; reflexivity|].
  apply (final_box_keeps_unformatted_transcript plat w l three_chunks 0
           "data:audio/webm;base64,QUJD");
    try (vm_compute; reflexivity);
    intros h p; eexists; reflexivity.
Defined.



(* ================================================================== *)
(** * Failure and idle edges of the capture controller *)
(* ================================================================== *)


(** X5.  While the controller is [processing] the push-to-talk button is
    disabled: no sequence of presses and releases changes the state or
    reaches the host.  Together with X4, a failed chain cannot be left
    from the button. *)
Theorem processing_ignores_button (rev : Revision) (plat : Platform)
    (es : list Event) (w : World) (l : list Effect) :
  Forall button_event es ->
  pttState w = processing -> settingsDirty w = false ->
  run rev plat es (w, l) = (w, l).
Proof.
  intros Hes Hp Hd. induction Hes as [|e es [-> | ->] _ IH]; [done| |].
  - rewrite run_cons, press_while_busy; [exact IH| |exact Hd].
    rewrite Hp. discriminate.
  - rewrite run_cons.
    replace (step rev plat (w, l) EvRelease) with (w, l); [exact IH|].
    destruct w as [st ld ps it ft msr mrr acr ls sd sq iv].
    cbn [pttState settingsDirty] in *. subst. by destruct ld.
Qed.

Lemma processing_ignores_button_witness :
  let plat := unreachable_backend in
  let c := run Part002 plat (cycle three_chunks) (mount plat) in
  (pttState (fst c) = processing /\ settingsDirty (fst c) = false) /\
  run Part002 plat [EvPress; EvRelease; EvPress] (fst c, snd c)
    = (fst c, snd c).
Proof.
  intros plat c. split; [split; vm_compute; reflexivity|].
  apply (processing_ignores_button Part002 plat).
  - repeat first [ apply List.Forall_nil
                   | apply List.Forall_cons; [unfold button_event; auto|] ].
  - vm_compute; reflexivity.
  - vm_compute; reflexivity.
Defined.

(** X6.  [stopRecording] before anything was started does nothing at all;
    called twice on a running recorder it stops the recorder and queues
    its stop event once, and stops the tracks of the stream on each call.
    It never changes [pttState]. *)
Theorem release_stops_recorder_once (w : World) (l : list Effect) :
  (mediaRecorderRef w = None -> mediaStreamRef w = None ->
     exec stopRecording (w, l) = (w, l)) /\
  (forall mr s,
     mediaRecorderRef w = Some mr -> rec_active mr = true ->
     mediaStreamRef w = Some s ->
     exec stopRecording (exec stopRecording (w, l)) =
       (set_stopQueue (stopQueue w ++ [mr])
          (set_mediaRecorderRef (Some (deactivate mr)) w),
        l ++ [RecorderStop (rec_stream mr); TrackStop s; TrackStop s])) /\
  pttState (fst (exec stopRecording (w, l))) = pttState w.
Proof.
  destruct w as [st ld ps it ft msr mrr acr ls sd sq iv].
  cbn [mediaRecorderRef mediaStreamRef pttState].
  split; [|split].
  - intros -> ->. reflexivity.
  - intros mr s -> Hact ->. destruct mr as [ms mst tm act].
    cbn [rec_active] in Hact. subst act. run_async.
    by rewrite <- !app_assoc.
  - destruct mrr as [[ms mst tm [|]]|], msr; reflexivity.
Qed.

Lemma release_stops_recorder_once_witness :
  let plat := desktop (VObj ∅) in
  let c0 := mount plat in
  let c1 := run AppTsx plat [EvPress] c0 in
  let mr := {| rec_stream := 0; rec_settings := settings (fst c0);
               rec_timer := None; rec_active := true |} in
  exec stopRecording (fst c0, snd c0) = (fst c0, snd c0) /\
  exec stopRecording (exec stopRecording (fst c1, snd c1)) =
    (set_stopQueue (stopQueue (fst c1) ++ [mr])
       (set_mediaRecorderRef (Some (deactivate mr)) (fst c1)),
     snd c1 ++ [RecorderStop 0; TrackStop 0; TrackStop 0]).
Proof.
  intros plat c0 c1 mr. split.
  - apply (proj1 (release_stops_recorder_once (fst c0) (snd c0)));
      vm_compute; reflexivity.
  - apply (proj1 (proj2 (release_stops_recorder_once (fst c1) (snd c1)))
             mr 0%nat); vm_compute; reflexivity.
Defined.

Lemma append_assoc_blob (x y z : string) :
  x +:+ (y +:+ z) = (x +:+ y) +:+ z.
Proof.
  induction x as [|c x IH]; [done|].
  change (String c (x +:+ (y +:+ z)) = String c ((x +:+ y) +:+ z)).
  by rewrite IH.
Qed.

Lemma new_Blob_app a b : new_Blob (a ++ b) = new_Blob a +:+ new_Blob b.
Proof.
  induction a as [|x a IH]; [done|].
  change (new_Blob ((x :: a) ++ b)) with (x +:+ new_Blob (a ++ b)).
  change (new_Blob (x :: a)) with (x +:+ new_Blob a).
  by rewrite IH, append_assoc_blob.
Qed.

(** X7.  Data events only collect audio: a run of them appends the chunks
    that are not empty, in arrival order, to [audioChunksRef], so that the
    blob assembled later is the concatenation of everything delivered; the
    controller state and the settings stay as they are and the host is
    not called. *)
Theorem data_events_only_collect (rev : Revision) (plat : Platform)
    (chunks : list Blob) (w : World) (l : list Effect) :
  let c := run rev plat (map EvData chunks) (w, l) in
  audioChunksRef (fst c) = audioChunksRef w ++ kept chunks /\
  new_Blob (audioChunksRef (fst c))
    = new_Blob (audioChunksRef w) +:+ new_Blob chunks /\
  snd c = l /\
  pttState (fst c) = pttState w /\
  settings (fst c) = settings w /\
  stopQueue (fst c) = stopQueue w.
Proof.
  intros c.
  assert (H : audioChunksRef (fst c) = audioChunksRef w ++ kept chunks /\
              snd c = l /\ pttState (fst c) = pttState w /\
              settings (fst c) = settings w /\
              stopQueue (fst c) = stopQueue w).
  { subst c. destruct chunks as [|d chunks].
    - cbn. by rewrite app_nil_r.
    - cbn [map]. rewrite run_cons.
      destruct w as [st ld ps it ft msr mrr acr ls sd sq iv].
      cbn [kept List.filter].
      destruct (0 <? String.length d)%nat eqn:E, sd; run_async;
        rewrite E; run_async; rewrite run_data by reflexivity;
        cbn [fst snd audioChunksRef pttState settings stopQueue
             set_audioChunksRef];
        rewrite <- ?app_assoc; done. }
  destruct H as (Ha & Hl & Hp & Hs & Hq).
  rewrite Ha, new_Blob_app, new_Blob_kept. done.
Qed.

(* ================================================================== *)
(** * Invariants of the component over every run *)
(* ================================================================== *)

Section RunInvariants.
Variable rev : Revision.
Variable plat : Platform.

(** Handlers that leave [settings], [listener] and [settingsDirty] alone
    keep any property of those three. *)
Section Frame.
Variable P : World -> Prop.
Hypothesis P_settings :
  forall w1 w2, settings w1 = settings w2 -> listener w1 = listener w2 ->
                settingsDirty w1 = settingsDirty w2 -> P w1 -> P w2.

Lemma acquire_frame : preserves P (acquire plat).
Proof.
  intros w l H. unfold acquire. cbn [fst snd].
  by destruct (getUserMedia plat l).
Qed.

Lemma setInterval_frame : preserves P setInterval.
Proof using P_settings. intros [] l H. revert H. by apply P_settings. Qed.

Lemma blobToBase64_frame b : preserves P (blobToBase64 plat b).
Proof.
  intros w l H. unfold blobToBase64. cbn [fst snd].
  by destruct (readAsDataURL plat b).
Qed.

Lemma frame_modify_ok f :
  (forall w, settings (f w) = settings w /\ listener (f w) = listener w /\
             settingsDirty (f w) = settingsDirty w) ->
  preserves P (modify f).
Proof using P_settings.
  intros Hf. apply preserves_modify. intros w H.
  destruct (Hf w) as (H1 & H2 & H3). revert H. by apply P_settings.
Qed.

Ltac frame_leaf :=
  first [ apply acquire_frame | apply setInterval_frame
        | apply blobToBase64_frame
        | apply frame_modify_ok; intros []; repeat split ].

Ltac frame_walk :=
  repeat first
    [ apply preserves_bind; [|intros ?]
    | apply preserves_when
    | apply preserves_swallow
    | apply preserves_ret
    | apply preserves_throw
    | apply preserves_emit
    | apply preserves_gets
    | apply preserves_invoke
    | match goal with
      | |- preserves _ (match ?x with _ => _ end) => destruct x
      end
    | frame_leaf ].

Lemma startRecording_frame r : preserves P (startRecording rev plat r).
Proof using P_settings.
  unfold startRecording, setFinalText, setInterimText, setPttState.
  destruct (negb _); [apply preserves_ret|].
  destruct rev; cbn [has_transcript]; frame_walk.
Qed.

Lemma stopRecording_frame : preserves P stopRecording.
Proof using P_settings. unfold stopRecording. frame_walk. Qed.

Lemma onstop_frame mr : preserves P (onstop rev plat mr).
Proof using P_settings.
  unfold onstop, clearInterval, setFinalText, setInterimText, setPttState.
  frame_walk.
Qed.

Lemma ondataavailable_frame d : preserves P (ondataavailable d).
Proof using P_settings. unfold ondataavailable. frame_walk. Qed.

Lemma interimTick_frame : preserves P interimTick.
Proof using P_settings. unfold interimTick. frame_walk. Qed.

(** Every handler but [update] is such a handler. *)
Lemma handle_frame e w0 :
  (forall p, e <> EvUpdate p) -> preserves P (handle rev plat e w0).
Proof using P_settings.
  intros He. destruct e; cbn [handle].
  - apply preserves_when, startRecording_frame.
  - apply preserves_when, stopRecording_frame.
  - destruct (listener w0); [|apply preserves_ret].
    apply preserves_bind; [|intros _].
    + apply preserves_when, preserves_swallow, startRecording_frame.
    + apply preserves_when, stopRecording_frame.
  - apply ondataavailable_frame.
  - destruct (stopQueue w0); [apply preserves_ret|].
    apply preserves_bind; [|intros _; apply onstop_frame].
    apply frame_modify_ok. intros []. repeat split.
  - apply preserves_when, interimTick_frame.
  - by destruct (He partial).
Qed.

End Frame.

Lemma has_defaults_frame w1 w2 :
  settings w1 = settings w2 -> listener w1 = listener w2 ->
  settingsDirty w1 = settingsDirty w2 -> has_defaults w1 -> has_defaults w2.
Proof. unfold has_defaults. by intros ->. Qed.

Lemma update_has_defaults w0 p :
  has_defaults w0 -> preserves has_defaults (update plat (render_of w0) p).
Proof.
  intros H0. unfold update, setSettings.
  apply preserves_bind; [|intros _; apply preserves_swallow, preserves_invoke].
  apply preserves_modify.
  intros [st ld ps it ft msr mrr acr ls sd sq iv] _. unfold has_defaults in *.
  cbn [settings set_settings r_settings render_of].
  etrans; [exact H0|]. apply spread_merge_dom.
Qed.

Lemma step_has_defaults c e :
  has_defaults (fst c) -> has_defaults (fst (step rev plat c e)).
Proof.
  destruct c as [w l]. intros H. unfold step, exec. cbn [fst snd].
  assert (H' : has_defaults (fst (snd (handle rev plat e w (w, l))))).
  { destruct e; try (apply handle_frame;
                     [apply has_defaults_frame|discriminate|exact H]).
    cbn [handle].
    exact (preserves_when _ _ _ (update_has_defaults w partial H) w l H). }
  unfold commit. destruct (settingsDirty _); [|exact H'].
  by destruct (fst (snd (handle rev plat e w (w, l)))).
Qed.

Lemma mount_has_defaults : has_defaults (fst (mount plat)).
Proof.
  unfold mount, load, exec, then_catch, invoke, bind, has_defaults.
  cbn [fst snd]. destruct (safeInvoke _ _ _ _); unfold commit;
    cbn [setSettings setLoading modify bind fst snd settingsDirty
         set_settings set_loading set_listener settings init];
    [apply spread_merge_dom|done].
Qed.

End RunInvariants.

(** X8.  From mount on, over every sequence of events and whatever the
    host replies, the in-memory settings record contains every key of
    [DEFAULTS]: neither [load] nor [update] ever removes a key. *)
Theorem settings_always_cover_defaults (rev : Revision) (plat : Platform)
    (es : list Event) :
  dom DEFAULTS ⊆ dom (settings (fst (run rev plat es (mount plat)))).
Proof.
  change (has_defaults (fst (run rev plat es (mount plat)))).
  pose proof (mount_has_defaults plat) as H0.
  revert H0. generalize (mount plat).
  induction es as [|e es IH]; intros c H0; [exact H0|].
  rewrite run_cons. apply IH. by apply step_has_defaults.
Qed.

(* ================================================================== *)
(** * Successive updates *)
(* ================================================================== *)

(** X10.  Two [update] calls from the controls compose: the record ends
    as the old record overlaid first with [p], then with [q] (the later
    one wins a shared key), and the backend is sent each partial record on
    its own, in order, never the merged record.  In particular repeating
    an update changes nothing further. *)
Theorem updates_compose (rev : Revision) (plat : Platform)
    (w : World) (l : list Effect) (p q : gmap string JsVal) :
  loading w = false ->
  let c := run rev plat [EvUpdate p; EvUpdate q] (w, l) in
  settings (fst c) = q ∪ (p ∪ settings w) /\
  (forall k,
     settings (fst c) !! k =
       match q !! k with
       | Some v => Some v
       | None => match p !! k with
                 | Some v => Some v
                 | None => settings w !! k
                 end
       end) /\
  (p = q -> settings (fst c) = p ∪ settings w) /\
  exists r1 r2,
    snd c = l ++ [Invoked "settings_update"
                    (obj [("partial", VObj p)]) r1;
                  Invoked "settings_update"
                    (obj [("partial", VObj q)]) r2].
Proof.
  intros Hl c.
  assert (Hc : exists r1 r2,
             c = (set_listener
                    (if event_listen plat
                     then Some {| r_settings := q ∪ (p ∪ settings w);
                                  r_pttState := pttState w |}
                     else None)
                    (set_settings (q ∪ (p ∪ settings w)) w),
                  l ++ [Invoked "settings_update"
                          (obj [("partial", VObj p)]) r1;
                        Invoked "settings_update"
                          (obj [("partial", VObj q)]) r2])).
  { subst c. destruct w as [st ld ps it ft msr mrr acr ls sd sq iv].
    cbn [loading] in Hl. subst ld.
    cbn [run fold_left]. run_async.
    destruct (safeInvoke plat l _ _) as [v1|] eqn:E1; run_async.
    all: match goal with
         | |- context [safeInvoke ?pl ?h "settings_update" ?x] =>
             destruct (safeInvoke pl h "settings_update" x) as [v2|] eqn:E2
         end; run_async.
    all: do 2 eexists; rewrite <- !app_assoc; reflexivity. }
  destruct Hc as (r1 & r2 & ->).
  cbn [fst snd settings set_listener set_settings].
  split; [reflexivity|].
  split; [intros k; by rewrite !spread_merge_lookup|].
  split; [intros ->; by rewrite (assoc_L (∪)), (idemp_L (∪))|].
  by exists r1, r2.
Qed.

Lemma updates_compose_witness :
  let plat := hostile in
  let w := fst (mount plat) in
  let l := snd (mount plat) in
  let p := only_maskPhone_off in
  let q := only_enableGemini_off in
  loading w = false /\
  let c := run AppTsx plat [EvUpdate p; EvUpdate q] (w, l) in
  settings (fst c) = q ∪ (p ∪ settings w) /\
  (forall k,
     settings (fst c) !! k =
       match q !! k with
       | Some v => Some v
       | None => match p !! k with
                 | Some v => Some v
                 | None => settings w !! k
                 end
       end) /\
  (p = q -> settings (fst c) = p ∪ settings w) /\
  exists r1 r2,
    snd c = l ++ [Invoked "settings_update"
                    (obj [("partial", VObj p)]) r1;
                  Invoked "settings_update"
                    (obj [("partial", VObj q)]) r2].
Proof.
  intros plat w l p q. split; [vm_compute; reflexivity|].
  apply (updates_compose AppTsx plat w l p q). vm_compute; reflexivity.
Defined.

(* ================================================================== *)
(** * The service worker and its cache *)
(* ================================================================== *)

(** X11.  The fetch handler reads one cache only, [ptt-cache-v1]: two
    scopes with the same network and the same content of that cache give
    the same verdict and the same trace, whatever their other caches
    hold.  With that cache missing or empty, every GET whose network
    fetch throws fails with [offline]. *)
Theorem fetch_reads_one_cache (scope scope' : ServiceWorker.Scope)
    (req : ServiceWorker.Request) :
  (ServiceWorker.network scope req = ServiceWorker.network scope' req ->
   default ∅ (ServiceWorker.caches scope !! "ptt-cache-v1")
     = default ∅ (ServiceWorker.caches scope' !! "ptt-cache-v1") ->
   ServiceWorker.on_fetch scope req = ServiceWorker.on_fetch scope' req) /\
  (ServiceWorker.method req = "GET" ->
   ServiceWorker.network scope req = None ->
   default ∅ (ServiceWorker.caches scope !! "ptt-cache-v1") = ∅ ->
   fst (ServiceWorker.on_fetch scope req) = ServiceWorker.Fails "offline").
Proof.
  split.
  - intros Hn Hc. unfold ServiceWorker.on_fetch. by rewrite Hn, Hc.
  - intros Hm Hn Hc. rewrite (on_fetch_offline scope req Hm Hn), Hc.
    cbn [fst]. by rewrite lookup_empty.
Qed.

Lemma fetch_reads_one_cache_witness :
  let scope := {| ServiceWorker.network := fun _ => None;
                  ServiceWorker.caches := ∅ |} in
  let scope' := {| ServiceWorker.network := fun _ => None;
                   ServiceWorker.caches :=
                     {[ "other-cache" :=
                          {[ "/index.html" :=
                               {| ServiceWorker.status := 200;
                                  ServiceWorker.body := "<html>" |} ]} ]} |} in
  let req := {| ServiceWorker.method := "GET";
                ServiceWorker.url := "/index.html" |} in
  ServiceWorker.on_fetch scope req = ServiceWorker.on_fetch scope' req /\
  fst (ServiceWorker.on_fetch scope' req) = ServiceWorker.Fails "offline".
Proof.
  intros scope scope' req. split.
  - apply (proj1 (fetch_reads_one_cache scope scope' req)); reflexivity.
  - apply (proj2 (fetch_reads_one_cache scope' scope req)); reflexivity.
Defined.

(* ================================================================== *)
(** * The key panels: loading, failing and re-sending *)
(* ================================================================== *)

(** X12.  In the panel of [part_002], whatever [keys_get] answers, the
    mount effect leaves both input buffers empty; each flag becomes the
    truthiness of its field of the reply, and nothing else of the reply
    is kept.  A rejected call, or a reply of [null] or [undefined], leaves
    the panel as it was created, and nothing is thrown out of the
    effect. *)
Theorem presence_load_keeps_only_flags (plat : Platform) :
  let res := KeysPanelPart002.load plat (KeysPanelPart002.init, []) in
  let st := fst (KeysPanelPart002.mount plat) in
  fst res = Fulfilled tt /\
  KeysPanelPart002.groq st = "" /\
  KeysPanelPart002.gemini st = "" /\
  match safeInvoke plat [] "keys_get" VUndefined with
  | Resolved k =>
      match prop k "hasGroq", prop k "hasGemini" with
      | Some g, Some m =>
          KeysPanelPart002.hasGroq st = truthy g /\
          KeysPanelPart002.hasGemini st = truthy m
      | _, _ => st = KeysPanelPart002.init
      end
  | Rejected => st = KeysPanelPart002.init
  end.
Proof.
  run_keys. destruct (safeInvoke plat [] "keys_get" VUndefined) as [k|];
    run_keys; [|done].
  destruct k; cbn [prop]; run_keys; done.
Qed.


(** X14.  In the panel of [App.tsx], pressing Save right after the mount
    effect sends the stored keys back as they were loaded: for a reply
    holding two non-empty keys, the [keys_set] payload carries exactly
    those two strings. *)
Theorem apptsx_save_resends_loaded_keys (plat : Platform)
    (k : gmap string JsVal) (groqKey geminiKey : string) :
  safeInvoke plat [] "keys_get" VUndefined = Resolved (VObj k) ->
  k !! "groqApiKey" = Some (VStr groqKey) -> groqKey <> "" ->
  k !! "geminiApiKey" = Some (VStr geminiKey) -> geminiKey <> "" ->
  let c := KeysPanelAppTsx.run plat [KeysPanelAppTsx.Save]
             (KeysPanelAppTsx.mount plat) in
  calls_of "keys_set" (snd c) =
    [("keys_set",
      obj [("keys", obj [("groqApiKey", VStr groqKey);
                         ("geminiApiKey", VStr geminiKey)])],
      safeInvoke plat
        [Invoked "keys_get" VUndefined (Resolved (VObj k))]
        "keys_set"
        (obj [("keys", obj [("groqApiKey", VStr groqKey);
                            ("geminiApiKey", VStr geminiKey)])]))].
Proof.
  intros Hk Hg Hgne Hm Hmne.
  cbn [KeysPanelAppTsx.run fold_left]. run_keys. rewrite Hk. run_keys.
  unfold prop, get. rewrite Hg, Hm. run_keys.
  destruct groqKey as [|a1 s1]; [done|].
  destruct geminiKey as [|a2 s2]; [done|].
  change (js_or (js_or (VStr (String a1 s1)) (VStr "")) VNull)
    with (VStr (String a1 s1)).
  change (js_or (js_or (VStr (String a2 s2)) (VStr "")) VNull)
    with (VStr (String a2 s2)).
  destruct (safeInvoke plat _ "keys_set" _); reflexivity.
Qed.

Lemma apptsx_save_resends_loaded_keys_witness :
  let plat := vault_host (VObj stored_secrets) in
  let c := KeysPanelAppTsx.run plat [KeysPanelAppTsx.Save]
             (KeysPanelAppTsx.mount plat) in
  safeInvoke plat [] "keys_get" VUndefined = Resolved (VObj stored_secrets) /\
  calls_of "keys_set" (snd c) =
    [("keys_set",
      obj [("keys", obj [("groqApiKey", VStr "gsk_live_51");
                         ("geminiApiKey", VStr "AIza_live_77")])],
      safeInvoke plat
        [Invoked "keys_get" VUndefined (Resolved (VObj stored_secrets))]
        "keys_set"
        (obj [("keys", obj [("groqApiKey", VStr "gsk_live_51");
                            ("geminiApiKey", VStr "AIza_live_77")])]))].
Proof.
  intros plat c. split; [reflexivity|].
  apply (apptsx_save_resends_loaded_keys plat stored_secrets);
    (reflexivity || discriminate).
Defined.

(* ================================================================== *)
(** * The Android voice keyboard *)
(* ================================================================== *)

Section VoiceKeyboard.
Import VoiceIme.

Lemma ime_run_cons e es c : run (e :: es) c = run es (step c e).
Proof. reflexivity. Qed.

Lemma ime_run_snoc es e c : run (es ++ [e]) c = step (run es c) e.
Proof. unfold run. by rewrite fold_left_app. Qed.

(** Once a controller exists, one exists. *)
Lemma step_keeps_controller c e :
  is_Some (speech (fst c)) -> is_Some (speech (fst (step c e))).
Proof.
  destruct c as [[sp pv n] l]. cbn [fst speech]. intros [id ->].
  destruct e; unfold step, handle, onFinal, onPartial, onError, set_preview;
    cbn [fst snd speech]; repeat case_match; simplify_eq; by eexists.
Qed.

Lemma step_committed c e :
  is_Some (speech (fst c)) ->
  committed (snd (step c e)) =
  committed (snd c) ++ option_list (final_text e).
Proof.
  destruct c as [[sp pv n] l]. cbn [fst snd speech]. intros [id ->].
  destruct e; unfold step, handle, onFinal, onPartial, onError, final_text,
                committed;
    cbn [fst snd speech]; repeat case_match; simplify_eq;
    cbn [snd]; by rewrite ?omap_app, ?app_nil_r.
Qed.

Lemma step_preview c e :
  is_Some (speech (fst c)) ->
  preview (fst (step c e)) = default (preview (fst c)) (shown e).
Proof.
  destruct c as [[sp pv n] l]. cbn [fst speech preview]. intros [id ->].
  destruct e; unfold step, handle, onFinal, onPartial, onError, shown,
                set_preview;
    cbn [fst snd speech preview]; repeat case_match; simplify_eq;
    reflexivity.
Qed.

End VoiceKeyboard.

(** X15.  The Android keyboard commits text only from final results:
    over any sequence of callbacks and touches, the texts passed to
    [commitText] are, in order, the first candidate of each final result
    received while an input connection existed (the empty string when the
    result had no candidate); partial results, errors and touches never
    commit anything. *)
Theorem ime_commits_only_final_results (es : list VoiceIme.Event)
    (c : VoiceIme.Service * list VoiceIme.Call) :
  is_Some (VoiceIme.speech (fst c)) ->
  VoiceIme.committed (snd (VoiceIme.run es c)) =
  VoiceIme.committed (snd c) ++ omap VoiceIme.final_text es.
Proof.
  revert c. induction es as [|e es IH]; intros c Hc.
  - cbn. by rewrite app_nil_r.
  - rewrite ime_run_cons, IH by (by apply step_keeps_controller).
    rewrite step_committed by exact Hc.
    rewrite <- app_assoc. f_equal. cbn [omap list_omap].
    by destruct (VoiceIme.final_text e).
Qed.

Lemma ime_commits_only_final_results_witness :
  let c := VoiceIme.run [VoiceIme.CreateInputView ""] VoiceIme.fresh in
  let es := [VoiceIme.Touch 0;
             VoiceIme.PartialResults (Some ["こん"]);
             VoiceIme.RecognizerError 7;
             VoiceIme.Results (Some ["こんにちは"; "今日は"]) true;
             VoiceIme.Results None true;
             VoiceIme.Results (Some ["x"]) false] in
  is_Some (VoiceIme.speech (fst c)) /\
  VoiceIme.committed (snd (VoiceIme.run es c)) = ["こんにちは"; ""].
Proof.
  intros c es. split; [by eexists|].
  apply (ime_commits_only_final_results es c). by eexists.
Defined.

(** X16.  The preview of the Android keyboard always shows what the last
    showing event wrote: the layout text of a new input view, the first
    candidate of a final result (even an empty one), the first candidate
    of a partial result unless it is empty, or the error code after the
    error prefix.  Empty partial results, touches and the other callbacks
    leave it as it is. *)
Theorem ime_preview_shows_last_result (es : list VoiceIme.Event)
    (c : VoiceIme.Service * list VoiceIme.Call) :
  is_Some (VoiceIme.speech (fst c)) ->
  VoiceIme.preview (fst (VoiceIme.run es c)) =
  default (VoiceIme.preview (fst c)) (last (omap VoiceIme.shown es)).
Proof.
  revert c. induction es as [|e es IH] using rev_ind; intros c Hc; [done|].
  rewrite ime_run_snoc.
  assert (Hrun : is_Some (VoiceIme.speech (fst (VoiceIme.run es c)))).
  { clear IH. revert c Hc. induction es as [|x es IH]; intros c Hc; [done|].
    rewrite ime_run_cons. by apply IH, step_keeps_controller. }
  rewrite step_preview by exact Hrun. rewrite IH by exact Hc.
  rewrite omap_app. cbn [omap list_omap].
  destruct (VoiceIme.shown e) as [t|]; cbn.
  - by rewrite last_snoc.
  - by rewrite app_nil_r.
Qed.

Lemma ime_preview_shows_last_result_witness :
  let c := VoiceIme.run [VoiceIme.CreateInputView "…"] VoiceIme.fresh in
  let es := [VoiceIme.PartialResults (Some ["こん"]);
             VoiceIme.PartialResults (Some []);
             VoiceIme.Touch 1] in
  is_Some (VoiceIme.speech (fst c)) /\
  VoiceIme.preview (fst (VoiceIme.run es c)) = "こん".
Proof.
  intros c es. split; [by eexists|].
  apply (ime_preview_shows_last_result es c). by eexists.
Defined.

Section Recognizers.
Import VoiceIme.

Lemma run_without_destroy es c :
  forallb (fun e => negb (is_destroy e)) es = true ->
  let c' := run es c in
  created (fst c') = (created (fst c) + creations es)%nat /\
  speech (fst c') =
    match creations es with
    | O => speech (fst c)
    | S k => Some (created (fst c) + k)%nat
    end /\
  created_ids (snd c') =
    created_ids (snd c) ++ seq (created (fst c)) (creations es) /\
  destroyed_ids (snd c') = destroyed_ids (snd c).
Proof.
  revert c. induction es as [|e es IH]; intros c Hes.
  - cbn. rewrite Nat.add_0_r, app_nil_r. done.
  - cbn [forallb] in Hes. apply andb_true_iff in Hes as [He Hes].
    cbn zeta. rewrite ime_run_cons.
    destruct (IH (step c e) Hes) as (IH1 & IH2 & IH3 & IH4).
    rewrite IH1, IH2, IH3, IH4. clear IH IH1 IH2 IH3 IH4.
    destruct c as [[sp pv n] l].
    destruct e; try discriminate He; unfold step, handle, onFinal, onPartial,
      onError, set_preview, creations, created_ids, destroyed_ids;
      cbn [fst snd speech created List.filter is_create length];
      repeat case_match; simplify_eq;
      cbn [fst snd speech created seq];
      rewrite ?omap_app, ?app_nil_r, <- ?app_assoc, ?Nat.add_0_r,
              ?Nat.add_succ_r;
      try done.
Qed.

End Recognizers.

(** X17.  Every call of [onCreateInputView] creates a speech recognizer,
    and [onDestroy] destroys only the one of the last input view: when the
    view was created [n] times before the service is destroyed, [n]
    recognizers were created and all but the last are never destroyed. *)
Theorem ime_destroys_last_recognizer_only (es : list VoiceIme.Event) :
  forallb (fun e => negb (VoiceIme.is_destroy e)) es = true ->
  let c := VoiceIme.run (es ++ [VoiceIme.Destroy]) VoiceIme.fresh in
  VoiceIme.created_ids (snd c) = seq 0 (VoiceIme.creations es) /\
  VoiceIme.destroyed_ids (snd c) =
    match VoiceIme.creations es with
    | O => []
    | S k => [k]
    end.
Proof.
  intros Hes c. subst c. rewrite ime_run_snoc.
  destruct (run_without_destroy es VoiceIme.fresh Hes) as (_ & H2 & H3 & H4).
  destruct (VoiceIme.run es VoiceIme.fresh) as [[sp pv n] l].
  cbn [fst snd VoiceIme.speech VoiceIme.created VoiceIme.fresh] in *.
  unfold VoiceIme.step, VoiceIme.handle. cbn [fst snd VoiceIme.speech].
  unfold VoiceIme.created_ids, VoiceIme.destroyed_ids in *.
  destruct (VoiceIme.creations es); subst sp; cbn [snd];
    rewrite ?omap_app, ?app_nil_r, H3, H4; done.
Qed.

Lemma ime_destroys_last_recognizer_only_witness :
  let es := [VoiceIme.CreateInputView ""; VoiceIme.Touch 0;
             VoiceIme.CreateInputView ""; VoiceIme.Touch 1] in
  let c := VoiceIme.run (es ++ [VoiceIme.Destroy]) VoiceIme.fresh in
  VoiceIme.created_ids (snd c) = [0; 1]%nat /\
  VoiceIme.destroyed_ids (snd c) = [1%nat] /\
  snd c = [VoiceIme.CreateSpeechRecognizer 0; VoiceIme.StartListening 0;
           VoiceIme.CreateSpeechRecognizer 1; VoiceIme.StopListening 1;
           VoiceIme.DestroyRecognizer 1].
Proof.
  intros es c.
  destruct (ime_destroys_last_recognizer_only es eq_refl) as [H1 H2].
  split; [exact H1|]. split; [exact H2|reflexivity].
Defined.

(* ================================================================== *)
(** * The Pomodoro timer: properties *)
(* ================================================================== *)

Ltac timer_cbv :=
  cbv beta iota zeta delta
    [ProgrammerTimer.timeLeft ProgrammerTimer.totalTime
     ProgrammerTimer.isRunning ProgrammerTimer.interval
     ProgrammerTimer.currentMode ProgrammerTimer.sessionCount
     ProgrammerTimer.totalSessions ProgrammerTimer.completedSessions
     ProgrammerTimer.todayFocusTime
     ProgrammerTimer.set_timeLeft ProgrammerTimer.set_totalTime
     ProgrammerTimer.set_isRunning ProgrammerTimer.set_interval
     ProgrammerTimer.set_currentMode ProgrammerTimer.set_sessionCount
     ProgrammerTimer.set_completedSessions ProgrammerTimer.set_todayFocusTime
     ProgrammerTimer.startBtn_disabled ProgrammerTimer.pauseBtn_disabled
     ProgrammerTimer.skipBtn_disabled ProgrammerTimer.minuteInput_disabled
     ProgrammerTimer.secondInput_disabled
     ProgrammerTimer.minutesDisplay ProgrammerTimer.secondsDisplay
     ProgrammerTimer.strokeDashoffset
     ProgrammerTimer.active ProgrammerTimer.customTimeInput_display
     ProgrammerTimer.phaseTextElement ProgrammerTimer.stroke
     ProgrammerTimer.sessionCountElement ProgrammerTimer.totalSessionsElement
     ProgrammerTimer.completedSessionsElement ProgrammerTimer.todayFocusElement
     ProgrammerTimer.controls ProgrammerTimer.face ProgrammerTimer.modeView
     ProgrammerTimer.statsView ProgrammerTimer.currentTipElement
     ProgrammerTimer.minuteInput ProgrammerTimer.secondInput
     ProgrammerTimer.set_controls ProgrammerTimer.set_face
     ProgrammerTimer.set_modeView ProgrammerTimer.set_statsView
     ProgrammerTimer.set_currentTipElement ProgrammerTimer.set_minuteInput
     ProgrammerTimer.set_secondInput
     ProgrammerTimer.stats_date ProgrammerTimer.stats_focusTime
     ProgrammerTimer.stats_completedSessions
     ProgrammerTimer.this ProgrammerTimer.doc ProgrammerTimer.localStorage
     ProgrammerTimer.today ProgrammerTimer.notification ProgrammerTimer.timers
     ProgrammerTimer.issued ProgrammerTimer.draws ProgrammerTimer.log
     ProgrammerTimer.set_this ProgrammerTimer.set_doc
     ProgrammerTimer.set_localStorage ProgrammerTimer.set_today
     ProgrammerTimer.set_notification ProgrammerTimer.emit
     ProgrammerTimer.setInterval ProgrammerTimer.clearInterval
     ProgrammerTimer.time ProgrammerTimer.color ProgrammerTimer.text
     ProgrammerTimer.modes
     ProgrammerTimer.add ProgrammerTimer.mul ProgrammerTimer.dec
     ProgrammerTimer.le_zero ProgrammerTimer.or_zero
     ProgrammerTimer.floor_div60 ProgrammerTimer.rem60
     ProgrammerTimer.toString
     ProgrammerTimer.updateProgressRing ProgrammerTimer.updateDisplay
     ProgrammerTimer.updatePhaseText ProgrammerTimer.updateProgressColor
     ProgrammerTimer.stop ProgrammerTimer.pause ProgrammerTimer.reset
     ProgrammerTimer.setMode ProgrammerTimer.updateCustomTime
     ProgrammerTimer.updateStats ProgrammerTimer.updateTip
     ProgrammerTimer.saveStats ProgrammerTimer.loadStats
     ProgrammerTimer.playSound ProgrammerTimer.showNotification
     ProgrammerTimer.completeSession ProgrammerTimer.skip
     ProgrammerTimer.tick ProgrammerTimer.start ProgrammerTimer.new
     ProgrammerTimer.DOMContentLoaded
     ProgrammerTimer.disabled ProgrammerTimer.field_disabled
     ProgrammerTimer.onclick ProgrammerTimer.step
     fst snd].

Ltac timer_cbv_in H :=
  cbv beta iota zeta delta
    [ProgrammerTimer.timeLeft ProgrammerTimer.totalTime
     ProgrammerTimer.isRunning ProgrammerTimer.interval
     ProgrammerTimer.currentMode ProgrammerTimer.sessionCount
     ProgrammerTimer.totalSessions ProgrammerTimer.completedSessions
     ProgrammerTimer.todayFocusTime
     ProgrammerTimer.startBtn_disabled ProgrammerTimer.pauseBtn_disabled
     ProgrammerTimer.skipBtn_disabled ProgrammerTimer.minuteInput_disabled
     ProgrammerTimer.secondInput_disabled
     ProgrammerTimer.minutesDisplay ProgrammerTimer.secondsDisplay
     ProgrammerTimer.strokeDashoffset
     ProgrammerTimer.active ProgrammerTimer.customTimeInput_display
     ProgrammerTimer.phaseTextElement ProgrammerTimer.stroke
     ProgrammerTimer.sessionCountElement ProgrammerTimer.totalSessionsElement
     ProgrammerTimer.completedSessionsElement ProgrammerTimer.todayFocusElement
     ProgrammerTimer.controls ProgrammerTimer.face ProgrammerTimer.modeView
     ProgrammerTimer.statsView ProgrammerTimer.currentTipElement
     ProgrammerTimer.minuteInput ProgrammerTimer.secondInput
     ProgrammerTimer.stats_date ProgrammerTimer.stats_focusTime
     ProgrammerTimer.stats_completedSessions
     ProgrammerTimer.this ProgrammerTimer.doc ProgrammerTimer.localStorage
     ProgrammerTimer.today ProgrammerTimer.notification ProgrammerTimer.timers
     ProgrammerTimer.issued ProgrammerTimer.draws ProgrammerTimer.log
     ProgrammerTimer.time ProgrammerTimer.color ProgrammerTimer.text
     ProgrammerTimer.modes
     ProgrammerTimer.add ProgrammerTimer.mul ProgrammerTimer.dec
     ProgrammerTimer.le_zero ProgrammerTimer.or_zero
     ProgrammerTimer.floor_div60 ProgrammerTimer.rem60
     ProgrammerTimer.toString
     ProgrammerTimer.disabled ProgrammerTimer.field_disabled
     fst snd] in H.

Section TimerInvariants.
Import ProgrammerTimer.

Variable random : nat -> nat.

Lemma timer_run_cons e es p :
  run random (e :: es) p = run random es (step random p e).
Proof. reflexivity. Qed.

Lemma timer_run_snoc es e p :
  run random (es ++ [e]) p = step random (run random es p) e.
Proof. unfold run. now rewrite fold_left_app. Qed.

(** An invariant of [step] that holds when the page is loaded holds after
    every sequence of events. *)
Lemma timer_run_invariant (P : Page -> Prop) :
  (forall p e, P p -> P (step random p e)) ->
  forall es p, P p -> P (run random es p).
Proof.
  intros Hstep es. induction es as [|e es IH]; intros p Hp; [exact Hp|].
  rewrite timer_run_cons. apply IH, Hstep, Hp.
Qed.

(** What the end of a session does to each part of the page. *)
Lemma completeSession_fields p :
  let q := completeSession random p in
  let focus := match currentMode (this p) with
               | pomodoro => true
               | _ => false
               end in
  interval (this q) =
    match interval (this p) with Some O => Some O | _ => None end /\
  isRunning (this q) = false /\
  timers q =
    match interval (this p) with
    | Some (S k) => List.filter (fun i => negb (Nat.eqb i (S k))) (timers p)
    | _ => timers p
    end /\
  issued q = issued p /\
  controls (doc q) = mkControls false true true false false /\
  today q = today p /\
  notification q = notification p /\
  minuteInput (doc q) = minuteInput (doc p) /\
  secondInput (doc q) = secondInput (doc p) /\
  currentMode (this q) =
    match currentMode (this p) with
    | pomodoro =>
        if (Z.rem (completedSessions (this p) + 1) 4 =? 0)%Z
        then long_break else short_break
    | _ => pomodoro
    end /\
  timeLeft (this q) = Int (time (modes (currentMode (this q)))) /\
  totalTime (this q) = Int (time (modes (currentMode (this q)))) /\
  minutesDisplay (face (doc q)) =
    padStart 2 "0" (toString (floor_div60 (timeLeft (this q)))) /\
  secondsDisplay (face (doc q)) =
    padStart 2 "0" (toString (rem60 (timeLeft (this q)))) /\
  completedSessions (this q) =
    (if focus then completedSessions (this p) + 1
     else completedSessions (this p))%Z /\
  todayFocusTime (this q) =
    (if focus then todayFocusTime (this p) + 25 * 60
     else todayFocusTime (this p))%Z /\
  localStorage q =
    (if focus
     then Some (mkStats (today p) (todayFocusTime (this p) + 25 * 60)
                        (completedSessions (this p) + 1))
     else localStorage p) /\
  sessionCount (this q) =
    (if focus then sessionCount (this p) else sessionCount (this p) + 1)%Z /\
  sessionCountElement (statsView (doc q)) =
    (if focus then pretty (sessionCount (this p))
     else sessionCountElement (statsView (doc p))) /\
  sessions_ended (log q) = S (sessions_ended (log p)).
Proof.
  destruct p as [[tl tt ir iv cm sc ts cs tf] [c f mv sv tip mi si]
                   st td nt tm isd dr lg].
  destruct iv as [[|k]|], cm, nt as [[]|]; timer_cbv;
    try destruct (Z.rem (cs + 1) 4 =? 0)%Z;
    unfold sessions_ended; rewrite ?List.filter_app, ?length_app;
    cbn [List.filter length]; rewrite ?Nat.add_0_r, ?Nat.add_1_r;
    repeat split; reflexivity.
Qed.

Ltac one_interval_cases p H :=
  destruct p as [[tl tt ir iv cm sc ts cs tf] [c f mv sv tip mi si]
                   st td nt tm isd dr lg];
  unfold one_interval in H; timer_cbv_in H;
  destruct iv as [[|k]|];
  [ destruct H as (_ & [] & _); reflexivity
  | destruct H as (<- & _ & -> & -> & ->)
  | destruct H as (-> & ->) ];
  unfold one_interval.

Ltac list_cbv :=
  cbv beta iota delta [existsb List.filter negb orb app];
  rewrite ?Nat.eqb_refl.

Lemma one_interval_completeSession p :
  one_interval p -> one_interval (completeSession random p).
Proof.
  intros H.
  destruct (completeSession_fields p) as (E1 & E2 & E3 & _).
  unfold one_interval in *. rewrite E1, E2, E3.
  destruct (interval (this p)) as [[|k]|].
  - destruct H as (_ & [] & _); reflexivity.
  - destruct H as (_ & _ & -> & _). list_cbv. done.
  - destruct H as (-> & _). done.
Qed.

Lemma one_interval_tick p :
  one_interval p -> one_interval (tick random p).
Proof.
  intros H. unfold tick. cbv zeta.
  destruct (le_zero _); [apply one_interval_completeSession|];
    one_interval_cases p H; timer_cbv; done.
Qed.

Lemma one_interval_setMode mode p :
  one_interval p -> one_interval (setMode mode p).
Proof.
  intros H. one_interval_cases p H; destruct mode; timer_cbv; list_cbv; done.
Qed.

Lemma one_interval_step p e :
  one_interval p -> one_interval (step random p e).
Proof.
  intros H. destruct e as [b|mode|fld v|id|date|permission]; unfold step.
  - destruct (disabled _ _) eqn:Hd; [exact H|].
    destruct b; unfold onclick, skip.
    4: now apply one_interval_completeSession.
    all: one_interval_cases p H; timer_cbv_in Hd; try discriminate Hd.
    + destruct tl as [|z]; timer_cbv; [|destruct (z <=? 0)%Z];
        list_cbv; done.
    + timer_cbv; list_cbv; done.
    + timer_cbv; done.
    + destruct cm; timer_cbv; list_cbv; done.
    + destruct cm; timer_cbv; done.
  - now apply one_interval_setMode.
  - destruct (field_disabled _ _); [exact H|].
    one_interval_cases p H; destruct fld, cm; timer_cbv; done.
  - destruct (existsb _ _); [|exact H]. now apply one_interval_tick.
  - one_interval_cases p H; timer_cbv; done.
  - one_interval_cases p H; timer_cbv; done.
Qed.

Lemma one_interval_new d stored date permission :
  one_interval (DOMContentLoaded random d stored date permission).
Proof.
  unfold one_interval.
  destruct d as [c f mv sv tip mi si], stored as [[sdate sf sc]|],
    permission as [[]|]; timer_cbv; try destruct (String.eqb _ _); done.
Qed.

(** ** The clock face *)

Ltac clock_cases p H :=
  destruct p as [[tl tt ir iv cm sc ts cs tf] [c [fm fs fo] mv sv tip mi si]
                   st td nt tm isd dr lg];
  unfold clock_ok in H; timer_cbv_in H;
  destruct H as (-> & -> & H);
  destruct iv as [[|k]|].

Lemma mode_time_positive mode : (0 < time (modes mode))%Z.
Proof. destruct mode; reflexivity. Qed.

Lemma clock_ok_completeSession p : clock_ok (completeSession random p).
Proof.
  destruct (completeSession_fields p)
    as (_ & _ & _ & _ & _ & _ & _ & _ & _ & E1 & E2 & E3 & E4 & E5 & _).
  unfold clock_ok. split; [exact E4|]. split; [exact E5|].
  rewrite E2, E3.
  assert (currentMode (this (completeSession random p)) <> custom) as Hm.
  { rewrite E1. repeat case_match; discriminate. }
  destruct (currentMode (this (completeSession random p))); try done;
    eexists; (split; [reflexivity|]); (split; [|reflexivity]);
    timer_cbv; lia.
Qed.

Lemma clock_ok_setMode mode p : clock_ok (setMode mode p).
Proof.
  destruct p as [[tl tt ir iv cm sc ts cs tf] [c [fm fs fo] mv sv tip mi si]
                   st td nt tm isd dr lg].
  unfold clock_ok.
  destruct iv as [[|k]|], mode; timer_cbv; (split; [done|]); (split; [done|]);
    try done; eexists; (split; [reflexivity|]); (split; [|reflexivity]); lia.
Qed.

Lemma clock_ok_tick p : clock_ok p -> clock_ok (tick random p).
Proof.
  intros H. unfold tick. cbv zeta.
  destruct (le_zero _) eqn:Hz; [apply clock_ok_completeSession|].
  revert Hz. clock_cases p H.
  all: destruct cm; timer_cbv; intros Hz; (split; [done|]); (split; [done|]);
    try done.
  all: destruct H as (z & -> & Hz' & ->); timer_cbv_in Hz;
    apply Z.leb_gt in Hz;
    eexists; (split; [reflexivity|]); (split; [|reflexivity]);
    timer_cbv_in Hz'; timer_cbv; lia.
Qed.

Lemma clock_ok_step p e : clock_ok p -> clock_ok (step random p e).
Proof.
  intros H. destruct e as [b|mode|fld v|id|date|permission]; unfold step.
  - destruct (disabled _ _) eqn:Hd; [exact H|].
    destruct b; unfold onclick, skip.
    4: now apply clock_ok_completeSession.
    all: clock_cases p H; unfold clock_ok.
    all: destruct cm; timer_cbv.
    all: try (destruct tl as [|z]; [|try destruct (z <=? 0)%Z]).
    all: (split; [done|]); (split; [done|]); try done.
    all: try (destruct H as (z' & Hz1 & Hz2 & ->); simplify_eq).
    all: eexists; (split; [reflexivity|]); (split; [|reflexivity]);
      timer_cbv_in Hz2; timer_cbv; lia.
  - apply clock_ok_setMode.
  - destruct (field_disabled _ _); [exact H|].
    clock_cases p H; unfold clock_ok.
    all: destruct fld, cm; timer_cbv; (split; [done|]); (split; [done|]);
      done.
  - destruct (existsb _ _); [|exact H]. now apply clock_ok_tick.
  - clock_cases p H; unfold clock_ok; timer_cbv; done.
  - clock_cases p H; unfold clock_ok; timer_cbv; done.
Qed.

Lemma clock_ok_new d stored date permission :
  clock_ok (DOMContentLoaded random d stored date permission).
Proof.
  unfold clock_ok.
  destruct d as [c [fm fs fo] mv sv tip mi si], stored as [[sdate sf sc]|],
    permission as [[]|]; timer_cbv; try destruct (String.eqb _ _);
    (split; [done|]); (split; [done|]);
    eexists; (split; [reflexivity|]); (split; [|reflexivity]); lia.
Qed.

End TimerInvariants.

Section TimerStatistics.
Import ProgrammerTimer.

Variable random : nat -> nat.

(** ** The statistics *)

Lemma completeSession_statistics p :
  statistics (completeSession random p) =
    match currentMode (this p) with
    | pomodoro =>
        ((todayFocusTime (this p) + 25 * 60)%Z,
         (completedSessions (this p) + 1)%Z,
         sessionCount (this p), pretty (sessionCount (this p)),
         Some (mkStats (today p) (todayFocusTime (this p) + 25 * 60)
                       (completedSessions (this p) + 1)),
         today p)
    | _ =>
        (todayFocusTime (this p), completedSessions (this p),
         (sessionCount (this p) + 1)%Z,
         sessionCountElement (statsView (doc p)), localStorage p, today p)
    end.
Proof.
  destruct (completeSession_fields random p)
    as (_ & _ & _ & _ & _ & E1 & _ & _ & _ & _ & _ & _ & _ & _
        & E2 & E3 & E4 & E5 & E6 & _).
  unfold statistics. rewrite E1, E2, E3, E4, E5, E6.
  destruct (currentMode (this p)); reflexivity.
Qed.

(** One event leaves the statistics alone, ends a pomodoro, ends another
    session, or changes the date. *)
Lemma step_statistics p e :
  statistics (step random p e) = statistics p \/
  statistics (step random p e) =
    ((todayFocusTime (this p) + 25 * 60)%Z,
     (completedSessions (this p) + 1)%Z,
     sessionCount (this p), pretty (sessionCount (this p)),
     Some (mkStats (today p) (todayFocusTime (this p) + 25 * 60)
                   (completedSessions (this p) + 1)),
     today p) \/
  statistics (step random p e) =
    (todayFocusTime (this p), completedSessions (this p),
     (sessionCount (this p) + 1)%Z,
     sessionCountElement (statsView (doc p)), localStorage p, today p) \/
  exists date, e = NewDay date /\
    statistics (step random p e) =
      (todayFocusTime (this p), completedSessions (this p),
       sessionCount (this p), sessionCountElement (statsView (doc p)),
       localStorage p, date).
Proof.
  assert (forall q, statistics q = statistics p ->
            statistics (completeSession random q) =
              ((todayFocusTime (this p) + 25 * 60)%Z,
               (completedSessions (this p) + 1)%Z,
               sessionCount (this p), pretty (sessionCount (this p)),
               Some (mkStats (today p) (todayFocusTime (this p) + 25 * 60)
                             (completedSessions (this p) + 1)),
               today p) \/
            statistics (completeSession random q) =
              (todayFocusTime (this p), completedSessions (this p),
               (sessionCount (this p) + 1)%Z,
               sessionCountElement (statsView (doc p)), localStorage p,
               today p)) as Hend.
  { intros q Hq. rewrite completeSession_statistics.
    unfold statistics in Hq. simplify_eq.
    destruct (currentMode (this q)); [left|right..]; congruence. }
  destruct e as [b|mode|fld v|id|date|permission]; unfold step.
  - destruct (disabled _ _); [now left|].
    destruct b; unfold onclick, skip.
    4: { right. destruct (Hend p eq_refl); [left|right; left]; done. }
    all: left.
    all: destruct p as [[tl tt ir iv cm sc ts cs tf]
                          [c fc mv sv tip mi si] st td nt tm isd dr lg].
    all: destruct iv as [[|k]|], cm; timer_cbv; try reflexivity.
    all: destruct tl as [|z]; [|try destruct (z <=? 0)%Z]; reflexivity.
  - left.
    destruct p as [[tl tt ir iv cm sc ts cs tf]
                     [c fc mv sv tip mi si] st td nt tm isd dr lg].
    destruct iv as [[|k]|], mode; timer_cbv; reflexivity.
  - destruct (field_disabled _ _); [now left|]. left.
    destruct p as [[tl tt ir iv cm sc ts cs tf]
                     [c fc mv sv tip mi si] st td nt tm isd dr lg].
    destruct fld, cm; timer_cbv; reflexivity.
  - destruct (existsb _ _); [|now left].
    unfold tick. cbv zeta.
    destruct (le_zero _).
    + right.
      match goal with
      | |- context [completeSession random ?q] =>
          destruct (Hend q) as [E|E]; [|left; exact E|right; left; exact E]
      end.
      destruct p as [[tl tt ir iv cm sc ts cs tf]
                       [c fc mv sv tip mi si] st td nt tm isd dr lg].
      timer_cbv; reflexivity.
    + left.
      destruct p as [[tl tt ir iv cm sc ts cs tf]
                       [c fc mv sv tip mi si] st td nt tm isd dr lg].
      timer_cbv; reflexivity.
  - right; right; right. exists date. split; reflexivity.
  - now left.
Qed.

(** What a freshly loaded page starts from. *)
Lemma new_statistics d stored date permission :
  statistics (DOMContentLoaded random d stored date permission) =
    (fst (restored stored date), snd (restored stored date), 1%Z, "1",
     stored, date).
Proof.
  destruct d as [c fc mv sv tip mi si], stored as [[sdate sf sc]|],
    permission as [[]|]; unfold restored; timer_cbv;
    try destruct (String.eqb _ _); reflexivity.
Qed.

End TimerStatistics.

Section TimerCountdown.
Import ProgrammerTimer.

Variable random : nat -> nat.

(** ** Counting down *)

Lemma counting_start p :
  startBtn_disabled (controls (doc p)) = false ->
  le_zero (timeLeft (this p)) = false ->
  counting (S (issued p)) (log p) (timeLeft (this p))
           (step random p (Click startBtn)).
Proof.
  destruct p as [[tl tt ir iv cm sc ts cs tf]
                   [[sd pd kd md sd'] fc mv sv tip mi si]
                   st td nt tm isd dr lg].
  cbv beta iota delta [doc controls startBtn_disabled this timeLeft].
  intros -> Hz. unfold counting.
  destruct tl as [|z]; timer_cbv; timer_cbv_in Hz; [|rewrite Hz];
    rewrite existsb_app; cbn [existsb]; rewrite Nat.eqb_refl;
    rewrite orb_true_r; done.
Qed.

Lemma tick_time p :
  timeLeft (this (updateDisplay
     (set_this (fun t => set_timeLeft (dec (timeLeft t)) t) p))) =
  dec (timeLeft (this p)).
Proof.
  destruct p as [[tl tt ir iv cm sc ts cs tf] [c fc mv sv tip mi si]
                   st td nt tm isd dr lg].
  reflexivity.
Qed.

Lemma counting_tick id shown v p :
  counting id shown v p -> le_zero (dec v) = false ->
  counting id shown (dec v) (step random p (Tick id)).
Proof.
  intros (Hr & Hv & Hid & Hlog) Hz. unfold step. rewrite Hid.
  unfold tick. cbv zeta. rewrite tick_time, Hv, Hz.
  destruct p as [[tl tt ir iv cm sc ts cs tf] [c fc mv sv tip mi si]
                   st td nt tm isd dr lg].
  revert Hr Hv Hid Hlog. timer_cbv. intros -> -> Hid ->.
  unfold counting. timer_cbv. done.
Qed.

Lemma counting_last id shown v p :
  counting id shown v p -> le_zero (dec v) = true ->
  isRunning (this (step random p (Tick id))) = false /\
  sessions_ended (log (step random p (Tick id))) = S (sessions_ended shown).
Proof.
  intros (Hr & Hv & Hid & Hlog) Hz. unfold step. rewrite Hid.
  unfold tick. cbv zeta. rewrite tick_time, Hv, Hz.
  match goal with
  | |- context [completeSession random ?q] =>
      destruct (completeSession_fields random q)
        as (_ & E1 & _ & _ & _ & _ & _ & _ & _ & _ & _ & _ & _ & _
            & _ & _ & _ & _ & _ & E2)
  end.
  rewrite E1, E2. split; [reflexivity|].
  destruct p as [[tl tt ir iv cm sc ts cs tf] [c fc mv sv tip mi si]
                   st td nt tm isd dr lg].
  revert Hlog. timer_cbv. now intros ->.
Qed.

Lemma counting_down id shown n p k :
  counting id shown (Int n) p -> (Z.of_nat k < n)%Z ->
  counting id shown (Int (n - Z.of_nat k))
           (run random (repeat (Tick id) k) p).
Proof.
  intros Hp. induction k as [|k IH]; intros Hk.
  - cbn [repeat run fold_left]. now rewrite Z.sub_0_r.
  - cbn [repeat]. rewrite repeat_cons, timer_run_snoc.
    replace (Int (n - Z.of_nat (S k))) with (dec (Int (n - Z.of_nat k)))
      by (timer_cbv; f_equal; lia).
    apply counting_tick; [apply IH; lia|].
    timer_cbv. apply Z.leb_gt. lia.
Qed.

Lemma counting_forever id shown p k :
  counting id shown NaN p ->
  counting id shown NaN (run random (repeat (Tick id) k) p).
Proof.
  intros Hp. induction k as [|k IH]; [exact Hp|].
  cbn [repeat]. rewrite repeat_cons, timer_run_snoc.
  now apply (counting_tick id shown NaN).
Qed.

(** After the custom mode was chosen with a field [parseInt] cannot read,
    the start button is enabled and the time left is not a number. *)
Lemma custom_NaN p :
  minuteInput (doc p) = NaN \/ secondInput (doc p) = NaN ->
  let q := step random p (ClickMode custom) in
  startBtn_disabled (controls (doc q)) = false /\
  timeLeft (this q) = NaN /\
  issued q = issued p /\ log q = log p.
Proof.
  destruct p as [[tl tt ir iv cm sc ts cs tf] [c fc mv sv tip mi si]
                   st td nt tm isd dr lg].
  intros H q. subst q. revert H.
  cbv beta iota delta [doc minuteInput secondInput]. intros H.
  destruct H as [-> | ->]; [|destruct mi as [|x]];
    destruct iv as [[|k]|]; timer_cbv; done.
Qed.

End TimerCountdown.

Section TimerFacts.
Import ProgrammerTimer.

Lemma padStart_two_digits n :
  (0 <= n < 100)%Z -> padStart 2 "0" (pretty n) = two_digits n.
Proof.
  intros Hn.
  assert (forallb (fun k => String.eqb (padStart 2 "0" (pretty (Z.of_nat k)))
                                       (two_digits (Z.of_nat k)))
                  (seq 0 100) = true) as H by (vm_compute; reflexivity).
  rewrite forallb_forall in H.
  specialize (H (Z.to_nat n)). rewrite Z2Nat.id in H by lia.
  apply String.eqb_eq, H, in_seq. lia.
Qed.

End TimerFacts.

(** X18.  However the page is loaded and whatever the user does, the
    timer never has two countdowns at once: while it is running exactly
    one interval is active, the one handed out last, and while it is not
    running no interval is active. *)
Theorem timer_runs_one_interval (random : nat -> nat)
    (es : list ProgrammerTimer.Event) (d : ProgrammerTimer.Document)
    (stored : option ProgrammerTimer.Stats) (date : string)
    (permission : option ProgrammerTimer.Permission) :
  let p := ProgrammerTimer.run random es
             (ProgrammerTimer.DOMContentLoaded random d stored date
                                               permission) in
  ProgrammerTimer.timers p =
    if ProgrammerTimer.isRunning (ProgrammerTimer.this p)
    then [ProgrammerTimer.issued p] else [].
Proof.
  intros p.
  assert (ProgrammerTimer.one_interval p) as H.
  { apply timer_run_invariant.
    - intros q e. apply one_interval_step.
    - apply one_interval_new. }
  unfold ProgrammerTimer.one_interval in H.
  destruct (ProgrammerTimer.interval (ProgrammerTimer.this p)).
  - destruct H as (-> & _ & -> & -> & _). reflexivity.
  - destruct H as (-> & ->). reflexivity.
Qed.

(** X19.  Outside the custom mode the clock face always shows the time
    left as two digits of minutes and two digits of seconds: the time left
    is a whole number of seconds between one and the time of the mode, and
    the two texts are its quotient and remainder by sixty. *)
Theorem clock_shows_time_left (random : nat -> nat)
    (es : list ProgrammerTimer.Event) (d : ProgrammerTimer.Document)
    (stored : option ProgrammerTimer.Stats) (date : string)
    (permission : option ProgrammerTimer.Permission) :
  let p := ProgrammerTimer.run random es
             (ProgrammerTimer.DOMContentLoaded random d stored date
                                               permission) in
  ProgrammerTimer.currentMode (ProgrammerTimer.this p)
    <> ProgrammerTimer.custom ->
  exists z : Z,
    ProgrammerTimer.timeLeft (ProgrammerTimer.this p)
      = ProgrammerTimer.Int z /\
    (0 < z <= ProgrammerTimer.time
                (ProgrammerTimer.modes
                   (ProgrammerTimer.currentMode (ProgrammerTimer.this p))))%Z /\
    ProgrammerTimer.minutesDisplay
      (ProgrammerTimer.face (ProgrammerTimer.doc p))
      = ProgrammerTimer.two_digits (z / 60) /\
    ProgrammerTimer.secondsDisplay
      (ProgrammerTimer.face (ProgrammerTimer.doc p))
      = ProgrammerTimer.two_digits (z mod 60).
Proof.
  intros p Hmode.
  assert (ProgrammerTimer.clock_ok p) as (Hm & Hs & H).
  { apply timer_run_invariant.
    - intros q e. apply clock_ok_step.
    - apply clock_ok_new. }
  assert (exists z,
    ProgrammerTimer.timeLeft (ProgrammerTimer.this p)
      = ProgrammerTimer.Int z /\
    (0 < z <= ProgrammerTimer.time
                (ProgrammerTimer.modes
                   (ProgrammerTimer.currentMode (ProgrammerTimer.this p))))%Z)
    as (z & Hz & Hr).
  { destruct (ProgrammerTimer.currentMode (ProgrammerTimer.this p));
      try done; destruct H as (z & ? & ? & _); by exists z. }
  exists z. split; [exact Hz|]. split; [exact Hr|].
  assert (z <= 1500)%Z as Hle.
  { destruct (ProgrammerTimer.currentMode (ProgrammerTimer.this p));
      cbn in Hr; lia. }
  rewrite Hm, Hs, Hz.
  cbn [ProgrammerTimer.floor_div60 ProgrammerTimer.rem60
       ProgrammerTimer.toString].
  rewrite Z.rem_mod_nonneg by lia.
  split; apply padStart_two_digits.
  - split; [apply Z.div_pos; lia|]. apply Z.div_lt_upper_bound; lia.
  - pose proof (Z.mod_pos_bound z 60). lia.
Qed.

Lemma clock_shows_time_left_witness :
  let p := ProgrammerTimer.run (fun n => n)
             [ProgrammerTimer.Click ProgrammerTimer.startBtn;
              ProgrammerTimer.Tick 1]
             (ProgrammerTimer.DOMContentLoaded (fun n => n)
                ProgrammerTimer.blank None "Tue Nov 03 2026" None) in
  ProgrammerTimer.currentMode (ProgrammerTimer.this p)
    <> ProgrammerTimer.custom /\
  ProgrammerTimer.minutesDisplay
    (ProgrammerTimer.face (ProgrammerTimer.doc p)) = "24" /\
  ProgrammerTimer.secondsDisplay
    (ProgrammerTimer.face (ProgrammerTimer.doc p)) = "59" /\
  exists z : Z,
    ProgrammerTimer.timeLeft (ProgrammerTimer.this p)
      = ProgrammerTimer.Int z /\
    (0 < z <= ProgrammerTimer.time
                (ProgrammerTimer.modes
                   (ProgrammerTimer.currentMode (ProgrammerTimer.this p))))%Z /\
    ProgrammerTimer.minutesDisplay
      (ProgrammerTimer.face (ProgrammerTimer.doc p))
      = ProgrammerTimer.two_digits (z / 60) /\
    ProgrammerTimer.secondsDisplay
      (ProgrammerTimer.face (ProgrammerTimer.doc p))
      = ProgrammerTimer.two_digits (z mod 60).
Proof.
  intros p.
  assert (ProgrammerTimer.currentMode (ProgrammerTimer.this p)
            <> ProgrammerTimer.custom) as Hmode
    by (vm_compute; discriminate).
  split; [exact Hmode|].
  split; [vm_compute; reflexivity|].
  split; [vm_compute; reflexivity|].
  exact (clock_shows_time_left (fun n => n)
           [ProgrammerTimer.Click ProgrammerTimer.startBtn;
            ProgrammerTimer.Tick 1]
           ProgrammerTimer.blank None "Tue Nov 03 2026" None Hmode).
Defined.

Section TimerStatisticsRun.
Import ProgrammerTimer.

Variable random : nat -> nat.

(** A property of the statistics that survives the end of a pomodoro, the
    end of another session and the changes of date that occur holds after
    every sequence of events. *)
Lemma statistics_run
    (P : Z * Z * Z * string * option Stats * string -> Prop) es :
  (forall f c s se ls td, P (f, c, s, se, ls, td) ->
     P ((f + 25 * 60)%Z, (c + 1)%Z, s, pretty s,
        Some (mkStats td (f + 25 * 60) (c + 1)), td)) ->
  (forall f c s se ls td, P (f, c, s, se, ls, td) ->
     P (f, c, (s + 1)%Z, se, ls, td)) ->
  (forall f c s se ls td date, In (NewDay date) es ->
     P (f, c, s, se, ls, td) -> P (f, c, s, se, ls, date)) ->
  forall p, P (statistics p) -> P (statistics (run random es p)).
Proof.
  intros Hfocus Hother. induction es as [|e es IH]; intros Hdate p Hp.
  - exact Hp.
  - rewrite timer_run_cons. apply IH.
    + intros f c s se ls td date Hin. apply Hdate. now right.
    + destruct (step_statistics random p e)
        as [E | [E | [E | (date & -> & E)]]]; rewrite E.
      * exact Hp.
      * exact (Hfocus _ _ _ _ _ _ Hp).
      * exact (Hother _ _ _ _ _ _ Hp).
      * exact (Hdate _ _ _ _ _ _ date (or_introl eq_refl) Hp).
Qed.

End TimerStatisticsRun.

(** X20.  The focus time of the day is twenty-five minutes for every
    pomodoro completed since the page was loaded, whether the pomodoro ran
    to its end or was skipped, on top of what was restored at loading; the
    number of completed pomodoros never goes down. *)
Theorem focus_time_counts_completed_pomodoros (random : nat -> nat)
    (es : list ProgrammerTimer.Event) (d : ProgrammerTimer.Document)
    (stored : option ProgrammerTimer.Stats) (date : string)
    (permission : option ProgrammerTimer.Permission) :
  let p0 := ProgrammerTimer.DOMContentLoaded random d stored date
                                             permission in
  let p := ProgrammerTimer.run random es p0 in
  let completed0 :=
    ProgrammerTimer.completedSessions (ProgrammerTimer.this p0) in
  let completed :=
    ProgrammerTimer.completedSessions (ProgrammerTimer.this p) in
  (completed0 <= completed)%Z /\
  ProgrammerTimer.todayFocusTime (ProgrammerTimer.this p) =
    (ProgrammerTimer.todayFocusTime (ProgrammerTimer.this p0)
     + 25 * 60 * (completed - completed0))%Z.
Proof.
  intros p0 p completed0 completed.
  pose (P := fun s : Z * Z * Z * string * option ProgrammerTimer.Stats
                     * string =>
    let '(f, c, _, _, _, _) := s in
    (completed0 <= c)%Z /\
    f = (ProgrammerTimer.todayFocusTime (ProgrammerTimer.this p0)
         + 25 * 60 * (c - completed0))%Z).
  assert (P (ProgrammerTimer.statistics p)) as H.
  { apply statistics_run; unfold P.
    - intros; lia.
    - intros; lia.
    - intros; lia.
    - unfold ProgrammerTimer.statistics, completed0. lia. }
  exact H.
Qed.

(** X21.  While the date does not change, the stored statistics keep up
    with the timer: a page loaded again on the same day from what the
    first left in the local storage starts with the same focus time and
    the same number of completed pomodoros. *)
Theorem statistics_survive_reload (random random' : nat -> nat)
    (es : list ProgrammerTimer.Event) (d d' : ProgrammerTimer.Document)
    (stored : option ProgrammerTimer.Stats) (date : string)
    (permission permission' : option ProgrammerTimer.Permission) :
  forallb (fun e => negb (ProgrammerTimer.is_NewDay e)) es = true ->
  let p := ProgrammerTimer.run random es
             (ProgrammerTimer.DOMContentLoaded random d stored date
                                               permission) in
  let q := ProgrammerTimer.DOMContentLoaded random' d'
             (ProgrammerTimer.localStorage p) date permission' in
  ProgrammerTimer.todayFocusTime (ProgrammerTimer.this q)
    = ProgrammerTimer.todayFocusTime (ProgrammerTimer.this p) /\
  ProgrammerTimer.completedSessions (ProgrammerTimer.this q)
    = ProgrammerTimer.completedSessions (ProgrammerTimer.this p).
Proof.
  intros Hes p q.
  pose (P := fun s : Z * Z * Z * string * option ProgrammerTimer.Stats
                     * string =>
    let '(f, c, _, _, ls, td) := s in
    td = date /\ ProgrammerTimer.restored ls td = (f, c)).
  assert (P (ProgrammerTimer.statistics p)) as H.
  { apply statistics_run; unfold P.
    - intros f c s se ls td [-> _]. split; [reflexivity|].
      unfold ProgrammerTimer.restored. cbn.
      now rewrite String.eqb_refl.
    - intros; done.
    - intros f c s se ls td date' Hin _.
      rewrite forallb_forall in Hes. specialize (Hes _ Hin).
      discriminate Hes.
    - rewrite new_statistics. split; [reflexivity|].
      now destruct (ProgrammerTimer.restored stored date). }
  destruct H as [Htd H].
  pose proof (new_statistics random' d' (ProgrammerTimer.localStorage p)
                date permission') as Hq.
  fold q in Hq. unfold ProgrammerTimer.statistics in Hq.
  rewrite Htd in H. rewrite H in Hq. cbn [fst snd] in Hq.
  by simplify_eq.
Qed.

Lemma statistics_survive_reload_witness :
  let es := [ProgrammerTimer.Click ProgrammerTimer.startBtn;
             ProgrammerTimer.Click ProgrammerTimer.skipBtn;
             ProgrammerTimer.ClickMode ProgrammerTimer.pomodoro;
             ProgrammerTimer.Click ProgrammerTimer.startBtn;
             ProgrammerTimer.Click ProgrammerTimer.skipBtn] in
  let p := ProgrammerTimer.run (fun n => n) es
             (ProgrammerTimer.DOMContentLoaded (fun n => n)
                ProgrammerTimer.blank None "Tue Nov 03 2026" None) in
  let q := ProgrammerTimer.DOMContentLoaded (fun n => n)
             ProgrammerTimer.blank
             (ProgrammerTimer.localStorage p) "Tue Nov 03 2026" None in
  forallb (fun e => negb (ProgrammerTimer.is_NewDay e)) es = true /\
  ProgrammerTimer.completedSessions (ProgrammerTimer.this p) = 2%Z /\
  ProgrammerTimer.todayFocusTime (ProgrammerTimer.this q)
    = ProgrammerTimer.todayFocusTime (ProgrammerTimer.this p) /\
  ProgrammerTimer.completedSessions (ProgrammerTimer.this q)
    = ProgrammerTimer.completedSessions (ProgrammerTimer.this p).
Proof.
  intros es p q.
  split; [reflexivity|]. split; [vm_compute; reflexivity|].
  apply (statistics_survive_reload (fun n => n) (fun n => n) es
           ProgrammerTimer.blank ProgrammerTimer.blank None
           "Tue Nov 03 2026" None None).
  reflexivity.
Defined.

(** X22.  The session number on the page is refreshed only when a
    pomodoro ends.  When the user skips a session that is not a pomodoro,
    the counter goes up by one and the page keeps the old number, so the
    page shows a session number that is behind the counter. *)
Theorem session_number_stale_after_break (random : nat -> nat)
    (es : list ProgrammerTimer.Event) (d : ProgrammerTimer.Document)
    (stored : option ProgrammerTimer.Stats) (date : string)
    (permission : option ProgrammerTimer.Permission) :
  let p := ProgrammerTimer.run random es
             (ProgrammerTimer.DOMContentLoaded random d stored date
                                               permission) in
  let q := ProgrammerTimer.step random p
             (ProgrammerTimer.Click ProgrammerTimer.skipBtn) in
  ProgrammerTimer.currentMode (ProgrammerTimer.this p)
    <> ProgrammerTimer.pomodoro ->
  ProgrammerTimer.skipBtn_disabled
    (ProgrammerTimer.controls (ProgrammerTimer.doc p)) = false ->
  ProgrammerTimer.sessionCount (ProgrammerTimer.this q)
    = (ProgrammerTimer.sessionCount (ProgrammerTimer.this p) + 1)%Z /\
  ProgrammerTimer.sessionCountElement
    (ProgrammerTimer.statsView (ProgrammerTimer.doc q))
    = ProgrammerTimer.sessionCountElement
        (ProgrammerTimer.statsView (ProgrammerTimer.doc p)) /\
  ProgrammerTimer.sessionCountElement
    (ProgrammerTimer.statsView (ProgrammerTimer.doc q))
    <> pretty (ProgrammerTimer.sessionCount (ProgrammerTimer.this q)).
Proof.
  intros p q Hmode Hskip.
  pose (P := fun s : Z * Z * Z * string * option ProgrammerTimer.Stats
                     * string =>
    let '(_, _, n, se, _, _) := s in
    exists k : Z, se = pretty k /\ (k <= n)%Z).
  assert (P (ProgrammerTimer.statistics p)) as (k & Hk & Hle).
  { apply statistics_run; unfold P.
    - intros f c s se ls td _. exists s. split; [reflexivity|lia].
    - intros f c s se ls td (k & -> & Hle). exists k.
      split; [reflexivity|lia].
    - intros; done.
    - rewrite new_statistics. exists 1%Z. split; [reflexivity|lia]. }
  assert (ProgrammerTimer.statistics q =
            ProgrammerTimer.statistics
              (ProgrammerTimer.completeSession random p)) as E.
  { unfold q, ProgrammerTimer.step, ProgrammerTimer.disabled.
    now rewrite Hskip. }
  rewrite completeSession_statistics in E.
  unfold ProgrammerTimer.statistics in E.
  destruct (ProgrammerTimer.currentMode (ProgrammerTimer.this p));
    try done; simplify_eq.
  all: match goal with
       | H1 : ProgrammerTimer.sessionCount _ = _,
         H2 : ProgrammerTimer.sessionCountElement _ = _ |- _ =>
           rewrite H1, H2
       end.
  all: split; [reflexivity|]; split; [reflexivity|].
  all: rewrite Hk; intros Heq; apply (inj pretty) in Heq; lia.
Qed.

Lemma session_number_stale_after_break_witness :
  let p := ProgrammerTimer.run (fun n => n)
             [ProgrammerTimer.Click ProgrammerTimer.startBtn;
              ProgrammerTimer.Click ProgrammerTimer.skipBtn;
              ProgrammerTimer.Click ProgrammerTimer.startBtn]
             (ProgrammerTimer.DOMContentLoaded (fun n => n)
                ProgrammerTimer.blank None "Tue Nov 03 2026" None) in
  let q := ProgrammerTimer.step (fun n => n) p
             (ProgrammerTimer.Click ProgrammerTimer.skipBtn) in
  (ProgrammerTimer.currentMode (ProgrammerTimer.this p)
     = ProgrammerTimer.short_break /\
   ProgrammerTimer.currentMode (ProgrammerTimer.this q)
     = ProgrammerTimer.pomodoro /\
   ProgrammerTimer.sessionCount (ProgrammerTimer.this q) = 2%Z /\
   ProgrammerTimer.sessionCountElement
     (ProgrammerTimer.statsView (ProgrammerTimer.doc q)) = "1") /\
  ProgrammerTimer.sessionCount (ProgrammerTimer.this q)
    = (ProgrammerTimer.sessionCount (ProgrammerTimer.this p) + 1)%Z /\
  ProgrammerTimer.sessionCountElement
    (ProgrammerTimer.statsView (ProgrammerTimer.doc q))
    = ProgrammerTimer.sessionCountElement
        (ProgrammerTimer.statsView (ProgrammerTimer.doc p)) /\
  ProgrammerTimer.sessionCountElement
    (ProgrammerTimer.statsView (ProgrammerTimer.doc q))
    <> pretty (ProgrammerTimer.sessionCount (ProgrammerTimer.this q)).
Proof.
  intros p q. split; [vm_compute; repeat split; reflexivity|].
  apply (session_number_stale_after_break (fun n => n)
           [ProgrammerTimer.Click ProgrammerTimer.startBtn;
            ProgrammerTimer.Click ProgrammerTimer.skipBtn;
            ProgrammerTimer.Click ProgrammerTimer.startBtn]
           ProgrammerTimer.blank None "Tue Nov 03 2026" None).
  - vm_compute; discriminate.
  - vm_compute; reflexivity.
Defined.

(** X23.  A countdown that is started with a positive whole number of
    seconds left, a safe integer (below 2^53, where decrementing a double
    is exact), keeps running, shows and plays nothing, and has one second
    less after each firing of its interval; the firing that brings the
    time left to zero ends the session: the timer stops and the sound is
    played once. *)
Theorem countdown_ends_on_time (random : nat -> nat)
    (p : ProgrammerTimer.Page) (n : Z) :
  ProgrammerTimer.startBtn_disabled
    (ProgrammerTimer.controls (ProgrammerTimer.doc p)) = false ->
  ProgrammerTimer.timeLeft (ProgrammerTimer.this p)
    = ProgrammerTimer.Int n ->
  (0 < n)%Z ->
  ProgrammerTimer.safe_integer n ->
  let after k :=
    ProgrammerTimer.run random
      (ProgrammerTimer.Click ProgrammerTimer.startBtn
       :: repeat (ProgrammerTimer.Tick (S (ProgrammerTimer.issued p))) k)
      p in
  (forall k : nat, (Z.of_nat k < n)%Z ->
     ProgrammerTimer.isRunning (ProgrammerTimer.this (after k)) = true /\
     ProgrammerTimer.timeLeft (ProgrammerTimer.this (after k))
       = ProgrammerTimer.Int (n - Z.of_nat k) /\
     ProgrammerTimer.log (after k) = ProgrammerTimer.log p) /\
  ProgrammerTimer.isRunning
    (ProgrammerTimer.this (after (Z.to_nat n))) = false /\
  ProgrammerTimer.sessions_ended
    (ProgrammerTimer.log (after (Z.to_nat n)))
    = S (ProgrammerTimer.sessions_ended (ProgrammerTimer.log p)).
Proof.
  intros Hstart Hn Hpos _ after.
  assert (ProgrammerTimer.counting (S (ProgrammerTimer.issued p))
            (ProgrammerTimer.log p) (ProgrammerTimer.Int n)
            (ProgrammerTimer.step random p
               (ProgrammerTimer.Click ProgrammerTimer.startBtn))) as H0.
  { rewrite <- Hn. apply counting_start; [exact Hstart|].
    rewrite Hn. apply Z.leb_gt, Hpos. }
  assert (forall k : nat, (Z.of_nat k < n)%Z ->
            ProgrammerTimer.counting (S (ProgrammerTimer.issued p))
              (ProgrammerTimer.log p)
              (ProgrammerTimer.Int (n - Z.of_nat k)) (after k)) as H.
  { intros k Hk. unfold after. rewrite timer_run_cons.
    now apply counting_down. }
  split.
  - intros k Hk. destruct (H k Hk) as (? & ? & _ & ?). done.
  - destruct (Z.to_nat n) as [|k] eqn:Ek; [lia|].
    unfold after. cbn [repeat]. rewrite repeat_cons, app_comm_cons.
    rewrite timer_run_snoc.
    apply (counting_last random _ _ (ProgrammerTimer.Int (n - Z.of_nat k))).
    + apply H. lia.
    + cbn. apply Z.leb_le. lia.
Qed.

Lemma countdown_ends_on_time_witness :
  let p := ProgrammerTimer.DOMContentLoaded (fun n => n)
             ProgrammerTimer.blank None "Tue Nov 03 2026" None in
  let after k :=
    ProgrammerTimer.run (fun n => n)
      (ProgrammerTimer.Click ProgrammerTimer.startBtn
       :: repeat (ProgrammerTimer.Tick (S (ProgrammerTimer.issued p))) k)
      p in
  (ProgrammerTimer.startBtn_disabled
     (ProgrammerTimer.controls (ProgrammerTimer.doc p)) = false /\
   ProgrammerTimer.timeLeft (ProgrammerTimer.this p)
     = ProgrammerTimer.Int 1500 /\
   (0 < 1500)%Z /\
   ProgrammerTimer.safe_integer 1500) /\
  (forall k : nat, (Z.of_nat k < 1500)%Z ->
     ProgrammerTimer.isRunning (ProgrammerTimer.this (after k)) = true /\
     ProgrammerTimer.timeLeft (ProgrammerTimer.this (after k))
       = ProgrammerTimer.Int (1500 - Z.of_nat k) /\
     ProgrammerTimer.log (after k) = ProgrammerTimer.log p) /\
  ProgrammerTimer.isRunning
    (ProgrammerTimer.this (after (Z.to_nat 1500))) = false /\
  ProgrammerTimer.sessions_ended
    (ProgrammerTimer.log (after (Z.to_nat 1500)))
    = S (ProgrammerTimer.sessions_ended (ProgrammerTimer.log p)).
Proof.
  intros p after.
  assert (ProgrammerTimer.safe_integer 1500) as Hsafe
    by (vm_compute; discriminate).
  split; [split; [reflexivity|split; [reflexivity|split; [lia|exact Hsafe]]]|].
  apply (countdown_ends_on_time (fun n => n) p 1500);
    [reflexivity|reflexivity|lia|exact Hsafe].
Defined.

(** X24.  When the custom mode is chosen while [parseInt] cannot read one
    of the two fields, the time left is not a number: the start button
    still starts a countdown, and that countdown never ends.  However
    often its interval fires, the timer keeps running, the clock face
    shows "NaN" twice and nothing is shown or played. *)
Theorem custom_countdown_without_number_never_ends (random : nat -> nat)
    (p : ProgrammerTimer.Page) (k : nat) :
  ProgrammerTimer.minuteInput (ProgrammerTimer.doc p)
    = ProgrammerTimer.NaN \/
  ProgrammerTimer.secondInput (ProgrammerTimer.doc p)
    = ProgrammerTimer.NaN ->
  let q :=
    ProgrammerTimer.run random
      (ProgrammerTimer.ClickMode ProgrammerTimer.custom
       :: ProgrammerTimer.Click ProgrammerTimer.startBtn
       :: repeat (ProgrammerTimer.Tick (S (ProgrammerTimer.issued p))) k)
      p in
  ProgrammerTimer.isRunning (ProgrammerTimer.this q) = true /\
  ProgrammerTimer.timeLeft (ProgrammerTimer.this q) = ProgrammerTimer.NaN /\
  ProgrammerTimer.minutesDisplay
    (ProgrammerTimer.face (ProgrammerTimer.doc q)) = "NaN" /\
  ProgrammerTimer.secondsDisplay
    (ProgrammerTimer.face (ProgrammerTimer.doc q)) = "NaN" /\
  ProgrammerTimer.log q = ProgrammerTimer.log p.
Proof.
  intros Hfield q.
  destruct (custom_NaN random p Hfield) as (Hstart & Htime & Hid & Hlog).
  assert (ProgrammerTimer.counting (S (ProgrammerTimer.issued p))
            (ProgrammerTimer.log p) ProgrammerTimer.NaN q)
    as (Hr & Ht & _ & Hl).
  { unfold q. rewrite 2 timer_run_cons. apply counting_forever.
    rewrite <- Hid, <- Hlog, <- Htime.
    apply counting_start; [exact Hstart|]. now rewrite Htime. }
  assert (ProgrammerTimer.clock_ok q) as (Hm & Hs & _).
  { unfold q. rewrite timer_run_cons.
    apply timer_run_invariant; [|apply clock_ok_setMode].
    intros r e. apply clock_ok_step. }
  rewrite Hm, Hs, Ht. done.
Qed.

Lemma custom_countdown_without_number_never_ends_witness :
  let p := ProgrammerTimer.DOMContentLoaded (fun n => n)
             ProgrammerTimer.blank None "Tue Nov 03 2026"
             (Some ProgrammerTimer.Granted) in
  let q :=
    ProgrammerTimer.run (fun n => n)
      (ProgrammerTimer.ClickMode ProgrammerTimer.custom
       :: ProgrammerTimer.Click ProgrammerTimer.startBtn
       :: repeat (ProgrammerTimer.Tick (S (ProgrammerTimer.issued p))) 5)
      p in
  (ProgrammerTimer.minuteInput (ProgrammerTimer.doc p)
     = ProgrammerTimer.NaN \/
   ProgrammerTimer.secondInput (ProgrammerTimer.doc p)
     = ProgrammerTimer.NaN) /\
  ProgrammerTimer.isRunning (ProgrammerTimer.this q) = true /\
  ProgrammerTimer.timeLeft (ProgrammerTimer.this q) = ProgrammerTimer.NaN /\
  ProgrammerTimer.minutesDisplay
    (ProgrammerTimer.face (ProgrammerTimer.doc q)) = "NaN" /\
  ProgrammerTimer.secondsDisplay
    (ProgrammerTimer.face (ProgrammerTimer.doc q)) = "NaN" /\
  ProgrammerTimer.log q = ProgrammerTimer.log p.
Proof.
  intros p q. split; [left; reflexivity|].
  apply (custom_countdown_without_number_never_ends (fun n => n) p 5).
  left; reflexivity.
Defined.

(** X25.  In the custom mode, typing into a field and pressing reset read
    the fields differently: typing takes a field [parseInt] cannot read
    as zero, reset does not.  With an empty seconds field, typing [m]
    minutes (with [m * 60] a safe integer, so that the product is exact)
    sets the time left to [m] minutes, and a reset right after makes the
    time left not a number and the clock face show "NaN". *)
Theorem reset_disagrees_with_typing (random : nat -> nat)
    (p : ProgrammerTimer.Page) (m : Z) :
  ProgrammerTimer.safe_integer (m * 60) ->
  ProgrammerTimer.currentMode (ProgrammerTimer.this p)
    = ProgrammerTimer.custom ->
  ProgrammerTimer.minuteInput_disabled
    (ProgrammerTimer.controls (ProgrammerTimer.doc p)) = false ->
  ProgrammerTimer.secondInput (ProgrammerTimer.doc p)
    = ProgrammerTimer.NaN ->
  let q := ProgrammerTimer.step random p
             (ProgrammerTimer.Input ProgrammerTimer.minuteField
                                    (ProgrammerTimer.Int m)) in
  let r := ProgrammerTimer.step random q
             (ProgrammerTimer.Click ProgrammerTimer.resetBtn) in
  ProgrammerTimer.timeLeft (ProgrammerTimer.this q)
    = ProgrammerTimer.Int (m * 60) /\
  ProgrammerTimer.timeLeft (ProgrammerTimer.this r)
    = ProgrammerTimer.NaN /\
  ProgrammerTimer.minutesDisplay
    (ProgrammerTimer.face (ProgrammerTimer.doc r)) = "NaN" /\
  ProgrammerTimer.secondsDisplay
    (ProgrammerTimer.face (ProgrammerTimer.doc r)) = "NaN".
Proof.
  destruct p as [[tl tt ir iv cm sc ts cs tf]
                   [[sd pd kd md sd'] fc mv sv tip mi si]
                   st td nt tm isd dr lg].
  cbv beta iota delta [ProgrammerTimer.this ProgrammerTimer.currentMode
    ProgrammerTimer.doc ProgrammerTimer.controls
    ProgrammerTimer.minuteInput_disabled ProgrammerTimer.secondInput].
  intros _ -> -> -> q r. subst q r.
  destruct iv as [[|k]|], m as [|m|m]; timer_cbv;
    rewrite ?Z.add_0_r; done.
Qed.

Lemma reset_disagrees_with_typing_witness :
  let p := ProgrammerTimer.step (fun n => n)
             (ProgrammerTimer.DOMContentLoaded (fun n => n)
                ProgrammerTimer.blank None "Tue Nov 03 2026" None)
             (ProgrammerTimer.ClickMode ProgrammerTimer.custom) in
  let q := ProgrammerTimer.step (fun n => n) p
             (ProgrammerTimer.Input ProgrammerTimer.minuteField
                                    (ProgrammerTimer.Int 10)) in
  let r := ProgrammerTimer.step (fun n => n) q
             (ProgrammerTimer.Click ProgrammerTimer.resetBtn) in
  (ProgrammerTimer.safe_integer (10 * 60) /\
   ProgrammerTimer.currentMode (ProgrammerTimer.this p)
     = ProgrammerTimer.custom /\
   ProgrammerTimer.minuteInput_disabled
     (ProgrammerTimer.controls (ProgrammerTimer.doc p)) = false /\
   ProgrammerTimer.secondInput (ProgrammerTimer.doc p)
     = ProgrammerTimer.NaN /\
   ProgrammerTimer.minutesDisplay
     (ProgrammerTimer.face (ProgrammerTimer.doc q)) = "10" /\
   ProgrammerTimer.secondsDisplay
     (ProgrammerTimer.face (ProgrammerTimer.doc q)) = "00") /\
  ProgrammerTimer.timeLeft (ProgrammerTimer.this q)
    = ProgrammerTimer.Int (10 * 60) /\
  ProgrammerTimer.timeLeft (ProgrammerTimer.this r)
    = ProgrammerTimer.NaN /\
  ProgrammerTimer.minutesDisplay
    (ProgrammerTimer.face (ProgrammerTimer.doc r)) = "NaN" /\
  ProgrammerTimer.secondsDisplay
    (ProgrammerTimer.face (ProgrammerTimer.doc r)) = "NaN".
Proof.
  intros p q r.
  assert (ProgrammerTimer.safe_integer (10 * 60)) as Hsafe
    by (vm_compute; discriminate).
  split; [split; [exact Hsafe|vm_compute; repeat split; reflexivity]|].
  apply (reset_disagrees_with_typing (fun n => n) p 10);
    [exact Hsafe|reflexivity..].
Defined.

(** X26.  Pause really pauses: when the timer is running, the pause
    button is enabled, pressing it keeps the time left and stops the
    timer, and afterwards no firing of any interval changes the page. *)
Theorem pause_stops_the_clock (random : nat -> nat)
    (es : list ProgrammerTimer.Event) (d : ProgrammerTimer.Document)
    (stored : option ProgrammerTimer.Stats) (date : string)
    (permission : option ProgrammerTimer.Permission) (ids : list nat) :
  let p := ProgrammerTimer.run random es
             (ProgrammerTimer.DOMContentLoaded random d stored date
                                               permission) in
  let q := ProgrammerTimer.step random p
             (ProgrammerTimer.Click ProgrammerTimer.pauseBtn) in
  ProgrammerTimer.isRunning (ProgrammerTimer.this p) = true ->
  ProgrammerTimer.isRunning (ProgrammerTimer.this q) = false /\
  ProgrammerTimer.timeLeft (ProgrammerTimer.this q)
    = ProgrammerTimer.timeLeft (ProgrammerTimer.this p) /\
  ProgrammerTimer.run random (map ProgrammerTimer.Tick ids) q = q.
Proof.
  intros p q Hrun.
  assert (ProgrammerTimer.one_interval p) as H.
  { apply timer_run_invariant.
    - intros r e. apply one_interval_step.
    - apply one_interval_new. }
  assert (ProgrammerTimer.isRunning (ProgrammerTimer.this q) = false /\
          ProgrammerTimer.timeLeft (ProgrammerTimer.this q)
            = ProgrammerTimer.timeLeft (ProgrammerTimer.this p) /\
          ProgrammerTimer.timers q = []) as (H1 & H2 & H3).
  { unfold q. clearbody p. clear q.
    destruct p as [[tl tt ir iv cm sc ts cs tf]
                     [c fc mv sv tip mi si] st td nt tm isd dr lg].
    unfold ProgrammerTimer.one_interval in H. timer_cbv_in H.
    timer_cbv_in Hrun. subst ir.
    destruct iv as [[|k]|];
      [ destruct H as (_ & [] & _); reflexivity
      | destruct H as (<- & _ & -> & _ & ->)
      | destruct H as (_ & [=]) ].
    timer_cbv. cbv beta iota delta [List.filter negb].
    rewrite Nat.eqb_refl. done. }
  split; [exact H1|]. split; [exact H2|].
  clear -H3. induction ids as [|id ids IH]; [reflexivity|].
  cbn [map]. rewrite timer_run_cons.
  replace (ProgrammerTimer.step random q (ProgrammerTimer.Tick id)) with q;
    [exact IH|].
  unfold ProgrammerTimer.step. now rewrite H3.
Qed.

Lemma pause_stops_the_clock_witness :
  let p := ProgrammerTimer.run (fun n => n)
             [ProgrammerTimer.Click ProgrammerTimer.startBtn;
              ProgrammerTimer.Tick 1; ProgrammerTimer.Tick 1]
             (ProgrammerTimer.DOMContentLoaded (fun n => n)
                ProgrammerTimer.blank None "Tue Nov 03 2026" None) in
  let q := ProgrammerTimer.step (fun n => n) p
             (ProgrammerTimer.Click ProgrammerTimer.pauseBtn) in
  ProgrammerTimer.isRunning (ProgrammerTimer.this p) = true /\
  ProgrammerTimer.timeLeft (ProgrammerTimer.this q)
    = ProgrammerTimer.Int 1498 /\
  ProgrammerTimer.isRunning (ProgrammerTimer.this q) = false /\
  ProgrammerTimer.timeLeft (ProgrammerTimer.this q)
    = ProgrammerTimer.timeLeft (ProgrammerTimer.this p) /\
  ProgrammerTimer.run (fun n => n)
    (map ProgrammerTimer.Tick [1; 1; 2]%nat) q = q.
Proof.
  intros p q. split; [reflexivity|]. split; [vm_compute; reflexivity|].
  apply (pause_stops_the_clock (fun n => n)
           [ProgrammerTimer.Click ProgrammerTimer.startBtn;
            ProgrammerTimer.Tick 1; ProgrammerTimer.Tick 1]
           ProgrammerTimer.blank None "Tue Nov 03 2026" None
           [1; 1; 2]%nat).
  reflexivity.
Defined.

(* ================================================================== *)
(** * The plain countdown timer: properties *)
(* ================================================================== *)

Ltac countdown_cbv :=
  cbv beta iota zeta delta
    [CountdownTimer.timeLeft CountdownTimer.totalTime
     CountdownTimer.isRunning CountdownTimer.interval
     CountdownTimer.startBtn_disabled CountdownTimer.pauseBtn_disabled
     CountdownTimer.minuteInput_disabled CountdownTimer.secondInput_disabled
     CountdownTimer.this CountdownTimer.controls
     CountdownTimer.minutesDisplay CountdownTimer.secondsDisplay
     CountdownTimer.strokeDashoffset CountdownTimer.minuteInput
     CountdownTimer.secondInput CountdownTimer.notification
     CountdownTimer.timers CountdownTimer.issued CountdownTimer.log
     CountdownTimer.set_this CountdownTimer.set_time
     CountdownTimer.set_controls CountdownTimer.set_inputs
     CountdownTimer.set_notification CountdownTimer.emit
     CountdownTimer.setInterval CountdownTimer.clearInterval
     CountdownTimer.updateProgressRing CountdownTimer.updateDisplay
     CountdownTimer.updateTimeFromInput CountdownTimer.setTime
     CountdownTimer.stop CountdownTimer.pause CountdownTimer.reset
     CountdownTimer.playSound CountdownTimer.showNotification
     CountdownTimer.tick CountdownTimer.start CountdownTimer.new
     CountdownTimer.disabled CountdownTimer.field_disabled
     CountdownTimer.onclick CountdownTimer.step
     ProgrammerTimer.add ProgrammerTimer.mul ProgrammerTimer.dec
     ProgrammerTimer.le_zero ProgrammerTimer.or_zero
     ProgrammerTimer.floor_div60 ProgrammerTimer.rem60
     ProgrammerTimer.toString
     fst snd].

Section Countdown.
Import ProgrammerTimer CountdownTimer.

Lemma countdown_run_cons e es p : run (e :: es) p = run es (step p e).
Proof. reflexivity. Qed.

Lemma countdown_run_snoc es e p : run (es ++ [e]) p = step (run es p) e.
Proof. unfold run. now rewrite fold_left_app. Qed.

Lemma countdown_run_app es es' p : run (es ++ es') p = run es' (run es p).
Proof. unfold run. now rewrite fold_left_app. Qed.

(** Choosing a preset of [m] minutes. *)
Lemma preset_fields p m :
  let q := step p (ClickPreset (Int m)) in
  timeLeft (this q) = Int (m * 60) /\
  minuteInput q = Int m /\ secondInput q = Int 0 /\
  controls q = controls p /\ issued q = issued p /\ log q = log p.
Proof.
  destruct p as [[tl tt ir iv] c md sd so mi si nt tm isd lg].
  countdown_cbv. rewrite Z.div_mul by lia. rewrite Z.rem_mul by lia. done.
Qed.

(** The first click on start. *)
Lemma countdown_start p n :
  startBtn_disabled (controls p) = false ->
  timeLeft (this p) = Int n -> (0 < n)%Z ->
  let q := step p (Click startBtn) in
  counting (S (issued p)) (log p) (Int n) q /\
  minuteInput q = minuteInput p /\ secondInput q = secondInput p.
Proof.
  destruct p as [[tl tt ir iv] [sd pd md sd'] mnd scd so mi si nt tm isd lg].
  countdown_cbv. intros -> -> Hn. apply Z.leb_gt in Hn.
  unfold counting. countdown_cbv. rewrite !Hn. countdown_cbv.
  rewrite existsb_app. cbn [existsb]. rewrite Nat.eqb_refl, orb_true_r.
  done.
Qed.

Lemma countdown_tick_time p :
  timeLeft (this (updateDisplay
     (set_this (mkTimer (dec (timeLeft (this p))) (totalTime (this p))
                        (isRunning (this p)) (interval (this p))) p))) =
  dec (timeLeft (this p)).
Proof.
  destruct p as [[tl tt ir iv] c md sd so mi si nt tm isd lg]. reflexivity.
Qed.

Lemma countdown_tick id shown v p :
  counting id shown v p -> le_zero (dec v) = false ->
  counting id shown (dec v) (step p (Tick id)) /\
  minuteInput (step p (Tick id)) = minuteInput p /\
  secondInput (step p (Tick id)) = secondInput p.
Proof.
  intros (Hr & Hv & Hid & Hlog) Hz. unfold step. rewrite Hid.
  unfold tick. cbv zeta. rewrite countdown_tick_time, Hv, Hz.
  destruct p as [[tl tt ir iv] c md sd so mi si nt tm isd lg].
  revert Hr Hv Hid Hlog. countdown_cbv. intros -> -> Hid ->.
  unfold counting. countdown_cbv. done.
Qed.

(** The firing that brings the time left to zero. *)
Lemma countdown_last id shown v p :
  counting id shown v p -> le_zero (dec v) = true ->
  let q := step p (Tick id) in
  isRunning (this q) = false /\ timeLeft (this q) = dec v /\
  startBtn_disabled (controls q) = false /\
  sessions_ended (log q) = S (sessions_ended shown) /\
  minuteInput q = minuteInput p /\ secondInput q = secondInput p.
Proof.
  intros (Hr & Hv & Hid & Hlog) Hz. unfold step. cbv zeta. rewrite Hid.
  unfold tick. cbv zeta. rewrite countdown_tick_time, Hv, Hz.
  destruct p as [[tl tt ir iv] c md sd so mi si nt tm isd lg].
  revert Hr Hv Hid Hlog. countdown_cbv. intros -> -> Hid ->.
  destruct iv as [[|k]|], nt as [[]|]; countdown_cbv;
    unfold sessions_ended; rewrite ?List.filter_app, ?length_app;
    cbn [List.filter length]; rewrite ?Nat.add_0_r, ?Nat.add_1_r; done.
Qed.

Lemma countdown_down id shown n p k :
  counting id shown (Int n) p -> (Z.of_nat k < n)%Z ->
  let q := run (repeat (Tick id) k) p in
  counting id shown (Int (n - Z.of_nat k)) q /\
  minuteInput q = minuteInput p /\ secondInput q = secondInput p.
Proof.
  intros Hp. induction k as [|k IH]; intros Hk.
  - cbn [repeat run fold_left]. now rewrite Z.sub_0_r.
  - cbn [repeat]. cbv zeta. rewrite repeat_cons, countdown_run_snoc.
    destruct IH as (IH & <- & <-); [lia|].
    replace (Int (n - Z.of_nat (S k))) with (dec (Int (n - Z.of_nat k)))
      by (cbn; f_equal; lia).
    apply countdown_tick; [exact IH|].
    cbn. apply Z.leb_gt. lia.
Qed.

(** When the time is up, start reads the fields again. *)
Lemma start_reads_fields p m :
  startBtn_disabled (controls p) = false ->
  timeLeft (this p) = Int 0 ->
  minuteInput p = Int m -> secondInput p = Int 0 -> (0 < m)%Z ->
  let q := step p (Click startBtn) in
  isRunning (this q) = true /\ timeLeft (this q) = Int (m * 60) /\
  log q = log p.
Proof.
  destruct p as [[tl tt ir iv] [sd pd md sd'] mnd scd so mi si nt tm isd lg].
  countdown_cbv. intros -> -> -> -> Hm.
  destruct m as [|m|m]; try lia. countdown_cbv.
  change (0 <=? 0)%Z with true. countdown_cbv.
  rewrite Z.add_0_r.
  assert ((Z.pos m * 60 <=? 0)%Z = false) as -> by (apply Z.leb_gt; lia).
  done.
Qed.

End Countdown.

(** X27.  A finished countdown of the plain timer can be run again with
    one click.  After a preset of [m] minutes is chosen and started (with
    [m * 60] a safe integer, so that the seconds are computed and counted
    down exactly), the firing of the interval that brings the time left to
    zero stops the timer and plays the sound once; the preset is still in
    the two fields, so the next click on start begins a countdown of [m]
    minutes again. *)
Theorem preset_countdown_repeats (p : CountdownTimer.Page) (m : Z) :
  CountdownTimer.startBtn_disabled (CountdownTimer.controls p) = false ->
  (0 < m)%Z ->
  ProgrammerTimer.safe_integer (m * 60) ->
  let once :=
    CountdownTimer.ClickPreset (ProgrammerTimer.Int m)
    :: CountdownTimer.Click CountdownTimer.startBtn
    :: repeat (CountdownTimer.Tick (S (CountdownTimer.issued p)))
              (Z.to_nat (m * 60)) in
  let q := CountdownTimer.run once p in
  let r := CountdownTimer.step q
             (CountdownTimer.Click CountdownTimer.startBtn) in
  (CountdownTimer.isRunning (CountdownTimer.this q) = false /\
   CountdownTimer.timeLeft (CountdownTimer.this q) = ProgrammerTimer.Int 0 /\
   ProgrammerTimer.sessions_ended (CountdownTimer.log q)
     = S (ProgrammerTimer.sessions_ended (CountdownTimer.log p))) /\
  (CountdownTimer.isRunning (CountdownTimer.this r) = true /\
   CountdownTimer.timeLeft (CountdownTimer.this r)
     = ProgrammerTimer.Int (m * 60) /\
   CountdownTimer.log r = CountdownTimer.log q).
Proof.
  intros Hstart Hm _ once q r.
  destruct (preset_fields p m) as (Ht & Hmi & Hsi & Hc & Hi & Hl).
  set (p1 := CountdownTimer.step p
               (CountdownTimer.ClickPreset (ProgrammerTimer.Int m))) in *.
  destruct (countdown_start p1 (m * 60)) as (Hcount & Hmi2 & Hsi2);
    [now rewrite Hc|exact Ht|lia|].
  set (p2 := CountdownTimer.step p1
               (CountdownTimer.Click CountdownTimer.startBtn)) in *.
  rewrite Hi, Hl in Hcount.
  destruct (Z.to_nat (m * 60)) as [|k] eqn:Ek; [lia|].
  destruct (countdown_down _ _ _ p2 k Hcount) as (Hk & Hmi3 & Hsi3); [lia|].
  assert (q = CountdownTimer.step
                (CountdownTimer.run
                   (repeat (CountdownTimer.Tick (S (CountdownTimer.issued p)))
                           k) p2)
                (CountdownTimer.Tick (S (CountdownTimer.issued p)))) as Eq.
  { unfold q, once. rewrite 2 countdown_run_cons. fold p1. fold p2.
    cbn [repeat]. now rewrite repeat_cons, countdown_run_snoc. }
  destruct (countdown_last _ _ _ _ Hk)
    as (Hr & Htl & Hsd & Hse & Hmi4 & Hsi4).
  { cbn. apply Z.leb_le. lia. }
  rewrite <- Eq in Hr, Htl, Hsd, Hse, Hmi4, Hsi4.
  assert (CountdownTimer.timeLeft (CountdownTimer.this q)
            = ProgrammerTimer.Int 0) as Hzero.
  { rewrite Htl. cbn. f_equal. lia. }
  split; [done|].
  apply start_reads_fields; try done.
  - now rewrite Hmi4, Hmi3, Hmi2.
  - now rewrite Hsi4, Hsi3, Hsi2.
Qed.

Lemma preset_countdown_repeats_witness :
  let p := CountdownTimer.new CountdownTimer.blank in
  let once :=
    CountdownTimer.ClickPreset (ProgrammerTimer.Int 5)
    :: CountdownTimer.Click CountdownTimer.startBtn
    :: repeat (CountdownTimer.Tick (S (CountdownTimer.issued p)))
              (Z.to_nat (5 * 60)) in
  let q := CountdownTimer.run once p in
  let r := CountdownTimer.step q
             (CountdownTimer.Click CountdownTimer.startBtn) in
  (CountdownTimer.startBtn_disabled (CountdownTimer.controls p) = false /\
   (0 < 5)%Z /\
   ProgrammerTimer.safe_integer (5 * 60)) /\
  (CountdownTimer.isRunning (CountdownTimer.this q) = false /\
   CountdownTimer.timeLeft (CountdownTimer.this q) = ProgrammerTimer.Int 0 /\
   ProgrammerTimer.sessions_ended (CountdownTimer.log q)
     = S (ProgrammerTimer.sessions_ended (CountdownTimer.log p))) /\
  (CountdownTimer.isRunning (CountdownTimer.this r) = true /\
   CountdownTimer.timeLeft (CountdownTimer.this r)
     = ProgrammerTimer.Int (5 * 60) /\
   CountdownTimer.log r = CountdownTimer.log q).
Proof.
  intros p once q r.
  assert (ProgrammerTimer.safe_integer (5 * 60)) as Hsafe
    by (vm_compute; discriminate).
  split; [split; [reflexivity|split; [lia|exact Hsafe]]|].
  apply (preset_countdown_repeats p 5); [reflexivity|lia|exact Hsafe].
Defined.

(** X28.  After a reset of the plain timer nothing can be started until a
    time is entered: the reset empties both fields and sets the time to
    zero, so start reads zero from the fields and returns; however often
    start is clicked, the page stays as the reset left it. *)
Theorem reset_leaves_nothing_to_start (p : CountdownTimer.Page) (n : nat) :
  let q := CountdownTimer.step p
             (CountdownTimer.Click CountdownTimer.resetBtn) in
  CountdownTimer.run
    (repeat (CountdownTimer.Click CountdownTimer.startBtn) n) q = q /\
  CountdownTimer.isRunning (CountdownTimer.this q) = false /\
  CountdownTimer.minutesDisplay q = "00" /\
  CountdownTimer.secondsDisplay q = "00".
Proof.
  intros q.
  assert (CountdownTimer.step q
            (CountdownTimer.Click CountdownTimer.startBtn) = q /\
          CountdownTimer.isRunning (CountdownTimer.this q) = false /\
          CountdownTimer.minutesDisplay q = "00" /\
          CountdownTimer.secondsDisplay q = "00") as (H & H1 & H2 & H3).
  { unfold q.
    destruct p as [[tl tt ir iv] c md sd so mi si nt tm isd lg].
    destruct iv as [[|k]|]; countdown_cbv; done. }
  split; [|done].
  induction n as [|n IH]; [reflexivity|].
  cbn [repeat]. now rewrite countdown_run_cons, H.
Qed.
